(** * Intent-scoped policy gate: IntentManager, PreToolHook, TracePostHook

    A shallow embedding of [src/hooks/IntentManager.ts], [PreToolHook] and
    [TracePostHook], with the properties of the design document proved
    (or refuted) against it.

    Conventions.
    - A JavaScript string is the [string] of the bytes of its UTF-8
      encoding. [trim] removes the white space of ECMAScript, whatever its
      encoded length; [toUpperCase] and the printing of a number belong to
      the JavaScript engine and are parameters ([JsEngine]).
    - A value produced by the YAML parser is a [YamlValue]; [undefined]
      (a property that is not there) is [None] of [option YamlValue].
      A number is a binary64 floating-point number.
    - A computation that can throw and that reads or writes the manager,
      the storage or the file system is a function [S -> Result A * S];
      the state reached before a [throw] is kept, as in JavaScript. An
      [async] method is run to completion: calls do not interleave.
    - Writing to the console is left out.
    - The parameters of a tool call are strings, as the hooks read them
      ([as string]). *)

From Stdlib Require Import ZArith NArith String Ascii List Bool Lia Floats.
From stdpp Require Import base strings gmap list pretty.

Set Warnings "-register-all".

(** ** JavaScript strings *)

Module Js.

(** The bytes of the UTF-8 encoding of a code point below U+10000. *)
Definition utf8 (codePoint : N) : list ascii :=
  if (codePoint <? 0x80)%N then [ascii_of_N codePoint]
  else if (codePoint <? 0x800)%N then
    [ascii_of_N (0xC0 + codePoint / 0x40); ascii_of_N (0x80 + codePoint mod 0x40)]
  else
    [ascii_of_N (0xE0 + codePoint / 0x1000);
     ascii_of_N (0x80 + (codePoint / 0x40) mod 0x40);
     ascii_of_N (0x80 + codePoint mod 0x40)].

(** The code points [String.prototype.trim] removes: WhiteSpace (TAB, VT,
    FF, the byte order mark and the space separators) and LineTerminator
    (LF, CR, LS, PS) of ECMAScript. *)
Definition whiteSpaceCodePoints : list N :=
  [ 0x9; 0xA; 0xB; 0xC; 0xD; 0x20; 0xA0; 0x1680;
    0x2000; 0x2001; 0x2002; 0x2003; 0x2004; 0x2005; 0x2006; 0x2007; 0x2008;
    0x2009; 0x200A; 0x2028; 0x2029; 0x202F; 0x205F; 0x3000; 0xFEFF ]%N.

Definition whiteSpaces : list (list ascii) := map utf8 whiteSpaceCodePoints.

(** What is left of [l] after its prefix [p], when [p] is a prefix. *)
Fixpoint stripPrefix (p l : list ascii) : option (list ascii) :=
  match p with
  | [] => Some l
  | a :: p' =>
      match l with
      | b :: l' => if decide (a = b) then stripPrefix p' l' else None
      | [] => None
      end
  end.

(** What is left of [l] after the first of [ps] that is a prefix of it. *)
Fixpoint stripAny (ps : list (list ascii)) (l : list ascii) : option (list ascii) :=
  match ps with
  | [] => None
  | p :: ps' =>
      match stripPrefix p l with
      | Some rest => Some rest
      | None => stripAny ps' l
      end
  end.

(** Drops leading members of [ps], at most [n] of them; [n] is the length
    of the text where it is used, which is enough ([dropLeading_clean]). *)
Fixpoint dropLeading (n : nat) (ps : list (list ascii)) (l : list ascii) : list ascii :=
  match n with
  | 0 => l
  | S n' =>
      match stripAny ps l with
      | Some rest => dropLeading n' ps rest
      | None => l
      end
  end.

Definition trimStartBytes (l : list ascii) : list ascii :=
  dropLeading (length l) whiteSpaces l.

Definition trimEndBytes (l : list ascii) : list ascii :=
  List.rev (dropLeading (length l) (map (@List.rev ascii) whiteSpaces) (List.rev l)).

Definition trimStart (s : string) : string :=
  string_of_list_ascii (trimStartBytes (list_ascii_of_string s)).

Definition trimEnd (s : string) : string :=
  string_of_list_ascii (trimEndBytes (list_ascii_of_string s)).

(** [s.trim()]. *)
Definition trim (s : string) : string := trimEnd (trimStart s).

Definition upper_char (c : ascii) : ascii :=
  let n := nat_of_ascii c in
  if (97 <=? n)%nat && (n <=? 122)%nat then ascii_of_nat (n - 32) else c.

(** Upper case of the letters a to z. *)
Fixpoint asciiUpperCase (s : string) : string :=
  match s with
  | EmptyString => EmptyString
  | String c s' => String (upper_char c) (asciiUpperCase s')
  end.

(** [String.fromCodePoint(...codePoints)] for code points below U+10000. *)
Definition fromCodePoints (codePoints : list N) : string :=
  string_of_list_ascii (concat (map utf8 codePoints)).

(** A string of code points below U+0080. *)
Fixpoint isAscii (s : string) : bool :=
  match s with
  | EmptyString => true
  | String c s' => (nat_of_ascii c <? 128)%nat && isAscii s'
  end.

(** [xs.join(sep)] on an array of strings. *)
Fixpoint join (sep : string) (xs : list string) : string :=
  match xs with
  | [] => EmptyString
  | [x] => x
  | x :: rest => x +:+ sep +:+ join sep rest
  end.

(** [s.length > 0], which is also the truthiness of a string. *)
Definition nonempty (s : string) : bool :=
  match s with EmptyString => false | String _ _ => true end.

Fixpoint startsWith (s p : string) : bool :=
  match p, s with
  | EmptyString, _ => true
  | String a p', String b s' => if decide (a = b) then startsWith s' p' else false
  | String _ _, EmptyString => false
  end.

(** [hay.includes(needle)], the test behind [toContain] on strings. *)
Fixpoint includes (hay needle : string) : bool :=
  startsWith hay needle
  || match hay with
     | EmptyString => false
     | String _ hay' => includes hay' needle
     end.

Fixpoint split_go (sep : ascii) (cur : string) (s : string) : list string :=
  match s with
  | EmptyString => [String.rev cur]
  | String c s' =>
      if decide (c = sep) then String.rev cur :: split_go sep EmptyString s'
      else split_go sep (String c cur) s'
  end.

(** [s.split(sep)] for a one-character separator. *)
Definition split (sep : ascii) (s : string) : list string :=
  split_go sep EmptyString s.

Fixpoint map_chars (f : ascii -> ascii) (s : string) : string :=
  match s with
  | EmptyString => EmptyString
  | String c s' => String (f c) (map_chars f s')
  end.

End Js.

(** ** Results *)

(** What a function that can throw gives: a value, or the message of the
    error. *)
Inductive Result (A : Type) : Type :=
| Ok (a : A)
| Throw (msg : string).
Arguments Ok {A} a.
Arguments Throw {A} msg.

Definition bindR {A B} (r : Result A) (k : A -> Result B) : Result B :=
  match r with
  | Ok a => k a
  | Throw e => Throw e
  end.

Declare Scope result_scope.
Delimit Scope result_scope with result.
Notation "'let+' x ':=' r 'in' k" := (bindR r (fun x => k))
  (at level 10, x name, r at level 100, k at level 200) : result_scope.

Section MapR.
Context {A B : Type} (f : A -> Result B).

(** [xs.map(f)] for an [f] that can throw: the first error ends it. *)
Fixpoint mapR (xs : list A) : Result (list B) :=
  match xs with
  | [] => Ok []
  | x :: rest =>
      match f x with
      | Throw e => Throw e
      | Ok y =>
          match mapR rest with
          | Throw e => Throw e
          | Ok ys => Ok (y :: ys)
          end
      end
  end.

End MapR.

(** ** The JavaScript engine

    Two functions of the engine are taken as they are: the upper case of
    a string, which follows the Unicode case mappings, and the decimal
    form of a number. Of the first, only its action on ASCII text is
    used. *)
Class JsEngine : Type := {
  (** [String.prototype.toUpperCase]. *)
  toUpperCase : string -> string;
  toUpperCase_ascii :
    forall s, Js.isAscii s = true -> toUpperCase s = Js.asciiUpperCase s;
  (** [Number::toString] in radix 10, as [String(x)] applies it. *)
  numberToString : float -> string
}.

(** ** Values of the parsed definition document *)

Inductive YamlValue : Type :=
| YNull
| YBool (b : bool)
| YNum (x : float)
| YStr (s : string)
| YSeq (items : list YamlValue)
| YMap (fields : list (string * YamlValue)).

Module Yaml.

(** JavaScript truthiness; [None] is [undefined]. *)
Definition truthy (v : option YamlValue) : bool :=
  match v with
  | None | Some YNull => false
  | Some (YBool b) => b
  | Some (YNum x) => negb (PrimFloat.eqb x PrimFloat.zero) && negb (PrimFloat.is_nan x)
  | Some (YStr s) => Js.nonempty s
  | Some (YSeq _) | Some (YMap _) => true
  end.

(** [v || d] with a default that is a value. *)
Definition or_else (v : option YamlValue) (d : YamlValue) : YamlValue :=
  match v with
  | Some x => if truthy v then x else d
  | None => d
  end.

(** [a ?? b]. *)
Definition nullish (a b : option YamlValue) : option YamlValue :=
  match a with
  | None | Some YNull => b
  | Some _ => a
  end.

Fixpoint assoc (k : string) (fields : list (string * YamlValue)) : option YamlValue :=
  match fields with
  | [] => None
  | (k', v) :: rest => if decide (k' = k) then Some v else assoc k rest
  end.

(** [v?.k] for the field names the program reads: none of them is a
    built-in property of a string, number, boolean or array, so only a
    mapping can have it. *)
Definition prop_opt (v : YamlValue) (k : string) : option YamlValue :=
  match v with
  | YMap fields => assoc k fields
  | _ => None
  end.

(** A mapping has a key [k] of its own. *)
Definition hasOwn (k : string) (fields : list (string * YamlValue)) : bool :=
  bool_decide (is_Some (assoc k fields)).

Definition dquote : ascii := ascii_of_nat 34.
Definition backslash : ascii := ascii_of_nat 92.

Definition hex_digit (n : nat) : ascii :=
  if (n <? 10)%nat then ascii_of_nat (48 + n) else ascii_of_nat (87 + n).

(** The escape of one character inside a JSON string literal. *)
Definition json_escape (c : ascii) : string :=
  let n := nat_of_ascii c in
  if decide (n = 34) then String backslash (String dquote EmptyString)
  else if decide (n = 92) then String backslash (String backslash EmptyString)
  else if decide (n = 8) then String backslash "b"
  else if decide (n = 12) then String backslash "f"
  else if decide (n = 10) then String backslash "n"
  else if decide (n = 13) then String backslash "r"
  else if decide (n = 9) then String backslash "t"
  else if (n <? 32)%nat then
    String backslash
      ("u00" +:+ String (hex_digit (n / 16)) (String (hex_digit (n mod 16)) EmptyString))
  else String c EmptyString.

Fixpoint json_escape_all (s : string) : string :=
  match s with
  | EmptyString => EmptyString
  | String c s' => json_escape c +:+ json_escape_all s'
  end.

Definition json_quote (s : string) : string :=
  String dquote (json_escape_all s +:+ String dquote EmptyString).

Section WithEngine.
Context `{JsEngine}.

(** [String(v)]. An array joins the conversions of its elements, [null]
    giving the empty string. A mapping is converted by its [toString]
    method: a mapping of the document with a key [toString] of its own
    has a value there that cannot be called, in place of
    [Object.prototype.toString], and the conversion throws a
    [TypeError]. *)
Fixpoint toString (v : YamlValue) : Result string :=
  match v with
  | YNull => Ok "null"
  | YBool true => Ok "true"
  | YBool false => Ok "false"
  | YNum x => Ok (numberToString x)
  | YStr s => Ok s
  | YSeq items =>
      match mapR (fun x => match x with YNull => Ok EmptyString | _ => toString x end)
                 items with
      | Throw e => Throw e
      | Ok texts => Ok (Js.join "," texts)
      end
  | YMap fields =>
      if hasOwn "toString" fields
      then Throw "Cannot convert object to primitive value"
      else Ok "[object Object]"
  end.

(** [JSON.stringify(v)] without indentation; the fields of a mapping
    are listed in the order the object enumerates them; a number that is
    not finite is written [null]. *)
Fixpoint stringify (v : YamlValue) : string :=
  match v with
  | YNull => "null"
  | YBool true => "true"
  | YBool false => "false"
  | YNum x => if PrimFloat.is_finite x then numberToString x else "null"
  | YStr s => json_quote s
  | YSeq items => "[" +:+ Js.join "," (map stringify items) +:+ "]"
  | YMap fields =>
      "{" +:+ Js.join ","
                (map (fun kv => json_quote (fst kv) +:+ ":" +:+ stringify (snd kv)) fields)
          +:+ "}"
  end.

End WithEngine.

End Yaml.

(** ** Computations over a state *)

(** A computation over a state [S]: it returns or throws, and leaves a
    state either way. *)
Definition M (S A : Type) : Type := S -> Result A * S.

Definition ret {S A} (a : A) : M S A := fun s => (Ok a, s).

Definition throw {S A} (msg : string) : M S A := fun s => (Throw msg, s).

Definition bind {S A B} (m : M S A) (k : A -> M S B) : M S B :=
  fun s =>
    match m s with
    | (Ok a, s') => k a s'
    | (Throw e, s') => (Throw e, s')
    end.

(** [try { m } catch (error) { h error.message }]. *)
Definition try_catch {S A} (m : M S A) (h : string -> M S A) : M S A :=
  fun s =>
    match m s with
    | (Ok a, s') => (Ok a, s')
    | (Throw e, s') => h e s'
    end.

Definition gets {S A} (f : S -> A) : M S A := fun s => (Ok (f s), s).

Definition modify {S} (f : S -> S) : M S unit := fun s => (Ok tt, f s).

(** A pure, possibly throwing, step. *)
Definition lift {S A} (r : Result A) : M S A := fun s => (r, s).

(** Run a computation on a part [T] of the state [S]. *)
Definition zoom {S T A} (get : S -> T) (set : T -> S -> S) (m : M T A) : M S A :=
  fun s => let '(r, t') := m (get s) in (r, set t' s).

Declare Scope comp_scope.
Delimit Scope comp_scope with comp.
Notation "'let*' x ':=' c 'in' k" := (bind c (fun x => k))
  (at level 10, x name, c at level 100, k at level 200) : comp_scope.
Notation "c ';;;' k" := (bind c (fun _ => k))
  (at level 100, k at level 200, right associativity) : comp_scope.

(** ** Data model ([hooks/types]) *)

Inductive IntentStatus : Type :=
| PLANNED | PENDING | IN_PROGRESS | COMPLETED | BLOCKED.

Module ActiveIntent.
Record t : Type := mk {
  id : string;
  name : string;
  description : string;
  status : IntentStatus;
  ownedScope : list string;
  constraints : list string;
  acceptanceCriteria : list string;
  metadata : YamlValue
}.
End ActiveIntent.

Inductive MutationClass : Type := CREATE | MODIFY.

Module TraceLogEntry.
Record t : Type := mk {
  intentId : string;
  contentHash : string;
  filePath : string;
  mutationClass : MutationClass;
  timestamp : string;
  toolName : string
}.
End TraceLogEntry.

(** The parameters of a tool call are read [as string] by the hooks. *)
Module ToolExecutionContext.
Record t : Type := mk {
  toolName : string;
  toolParams : gmap string string;
  taskId : string;
  workspacePath : string;
  activeIntentId : option string
}.
End ToolExecutionContext.

Module PreHookResult.
Record t : Type := mk {
  allowed : bool;
  error : option string
}.
End PreHookResult.

Module PostHookResult.
Record t : Type := mk {
  success : bool;
  traceEntry : option TraceLogEntry.t
}.
End PostHookResult.

(** One per-file operation of a parsed patch ([core/tools/apply-patch]). *)
Inductive HunkType : Type := AddFile | DeleteFile | UpdateFile.

Module Hunk.
Record t : Type := mk {
  type : HunkType;
  path : string;
  movePath : option string
}.
End Hunk.

(** ** The collaborators that are not part of the hooks

    The JavaScript engine, the YAML parser, the patch parser, the scope
    validator, the hash, the [path] module and the clock are parameters
    of the development. *)

Class Externals : Type := {
  js_engine :: JsEngine;
  (** [yaml.parse]; it throws on a document that is not well formed. *)
  yaml_parse : string -> Result YamlValue;
  (** [parsePatch]: the hunks of a patch, or an exception. *)
  parsePatch : string -> Result (list Hunk.t);
  (** [ScopeValidator.validatePath(filePath, scopePatterns)]. *)
  validatePath : string -> list string -> bool;
  (** [crypto.createHash("sha256").update(s, "utf8").digest("hex")]. *)
  sha256_hex : string -> string;
  path_isAbsolute : string -> bool;
  path_resolve : string -> string -> string;
  (** [new Date().toISOString()] at the n-th reading of the clock. *)
  toISOString : nat -> string
}.

(** ** Storage, file system and the world around the hooks *)

(** Modelled from the spec: [OrchestrationStorage] (hooks/OrchestrationStorage)
    is missing from the sources. It is the persistent file storage used to
    read and write the intent definitions and the trace log: named files
    with text contents. A storage that is [readonly] refuses to write or
    append; reading a file that is not there throws. *)
Record OrchestrationStorage : Type := mkStorage {
  files : gmap string string;
  readonly : bool
}.

(** What the hooks did to the outside, oldest first. *)
Inductive Event : Type :=
| EvFileExists (name : string)
| EvReadFile (name : string)
| EvWriteFile (name : string)
| EvAppendFile (name : string)
| EvYamlParse
| EvFsReadFile (path : string).

(** The storage of the orchestration files and the files of the workspace
    are kept apart: appending to the trace file does not change what
    [fs.readFile] sees. *)
Record World : Type := mkWorld {
  storage : OrchestrationStorage;
  (** the workspace files by absolute path; a path that is not in the map
      cannot be read *)
  fs : gmap string string;
  (** how often the clock was read *)
  clock : nat;
  events : list Event
}.

Definition log_event (e : Event) : M World unit :=
  modify (fun w => mkWorld (storage w) (fs w) (clock w) (events w ++ [e])).

Definition set_storage (st : OrchestrationStorage) : M World unit :=
  modify (fun w => mkWorld st (fs w) (clock w) (events w)).

Local Open Scope comp_scope.

Module Storage.

Definition fileExists (name : string) : M World bool :=
  log_event (EvFileExists name) ;;;
  gets (fun w => bool_decide (is_Some (files (storage w) !! name))).

Definition readFile (name : string) : M World string :=
  log_event (EvReadFile name) ;;;
  let* content := gets (fun w => files (storage w) !! name) in
  match content with
  | Some text => ret text
  | None => throw ("ENOENT: no such file or directory, open '" +:+ name +:+ "'")
  end.

Definition writeFile (name content : string) : M World unit :=
  log_event (EvWriteFile name) ;;;
  let* st := gets storage in
  if readonly st then throw ("EACCES: permission denied, open '" +:+ name +:+ "'")
  else set_storage (mkStorage (<[name := content]> (files st)) (readonly st)).

Definition appendFile (name content : string) : M World unit :=
  log_event (EvAppendFile name) ;;;
  let* st := gets storage in
  if readonly st then throw ("EACCES: permission denied, open '" +:+ name +:+ "'")
  else
    let old := default EmptyString (files st !! name) in
    set_storage (mkStorage (<[name := old +:+ content]> (files st)) (readonly st)).

End Storage.

(** [fs.readFile(absolutePath, "utf8")]. *)
Definition fs_readFile (absolutePath : string) : M World string :=
  log_event (EvFsReadFile absolutePath) ;;;
  let* content := gets (fun w => fs w !! absolutePath) in
  match content with
  | Some text => ret text
  | None => throw ("ENOENT: no such file or directory, open '" +:+ absolutePath +:+ "'")
  end.

(** [new Date().toISOString()]. *)
Definition Date_now_iso `{Externals} : M World string :=
  let* n := gets clock in
  modify (fun w => mkWorld (storage w) (fs w) (S (clock w)) (events w)) ;;;
  ret (toISOString n).

(** ** IntentManager ([hooks/IntentManager.ts]) *)

(** The fields of an [IntentManager] object; its [storage] is the one of
    the world. *)
Record IntentManagerState : Type := mkIntentManager {
  intentsCache : option (list ActiveIntent.t);
  (** taskId -> intentId *)
  activeIntentsByTask : gmap string string
}.

(** A manager together with the world its storage lives in. *)
Record ManagerState : Type := mkManagerState {
  manager : IntentManagerState;
  world : World
}.

Definition in_world {A} (m : M World A) : M ManagerState A :=
  zoom world (fun w s => mkManagerState (manager s) w) m.

Definition set_intentsCache (c : option (list ActiveIntent.t)) : M ManagerState unit :=
  modify (fun s =>
    mkManagerState (mkIntentManager c (activeIntentsByTask (manager s))) (world s)).

Definition set_activeIntentsByTask (b : gmap string string) : M ManagerState unit :=
  modify (fun s =>
    mkManagerState (mkIntentManager (intentsCache (manager s)) b) (world s)).

Module IntentManager.

Definition nl : string := String (ascii_of_nat 10) EmptyString.

Definition defaultContent : string :=
  "# Active Intents Configuration" +:+ nl +:+
  "# This file defines the available intents for this workspace." +:+ nl +:+
  "# Each intent specifies what files/areas can be modified and what constraints apply."
    +:+ nl +:+ nl +:+
  "intents: []" +:+ nl.

(** A failure to write is caught and only logged to the console. *)
Definition initializeIntentsFile : M ManagerState unit :=
  try_catch
    (in_world (Storage.writeFile "active_intents.yaml" defaultContent))
    (fun _ => ret tt).

Definition statusOfString (rawStatus : string) : IntentStatus :=
  if decide (rawStatus = "PLANNED") then PLANNED
  else if decide (rawStatus = "PENDING") then PENDING
  else if decide (rawStatus = "IN_PROGRESS") then IN_PROGRESS
  else if decide (rawStatus = "COMPLETED") then COMPLETED
  else if decide (rawStatus = "BLOCKED") then BLOCKED
  else PENDING.

Section WithEngine.
Context `{JsEngine}.

Local Open Scope result_scope.

(** The conversions of the first [map] can throw; they are all done
    before the first [trim]. *)
Definition normalizeStringArray (value : option YamlValue) : Result (list string) :=
  match value with
  | Some (YSeq items) =>
      let+ texts :=
        mapR (fun item =>
                match item with
                | YStr s => Ok s
                | _ => Yaml.toString
                         (default (YStr EmptyString)
                            (Yaml.nullish (Some item) (Some (YStr EmptyString))))
                end) items in
      Ok (List.filter Js.nonempty (map Js.trim texts))
  | _ => Ok []
  end.

(** The body of the [for (const item of value)] loop of
    [normalizeConstraints]: what one item pushes onto [normalized]. *)
Definition pushConstraint (normalized : list string) (item : YamlValue) : list string :=
  match item with
  | YStr s =>
      let trimmed := Js.trim s in
      if Js.nonempty trimmed then normalized ++ [trimmed] else normalized
  | YSeq _ | YMap _ =>
      let rule := Yaml.prop_opt item "rule" in
      match rule with
      | Some (YStr r) =>
          if Js.nonempty (Js.trim r) then normalized ++ [Js.trim r]
          else
            let compact := Yaml.stringify item in
            if Js.nonempty compact then normalized ++ [compact] else normalized
      | _ =>
          let compact := Yaml.stringify item in
          if Js.nonempty compact then normalized ++ [compact] else normalized
      end
  | YNull | YBool _ | YNum _ => normalized
  end.

Definition normalizeConstraints (value : option YamlValue) : list string :=
  match value with
  | Some (YSeq items) => fold_left pushConstraint items []
  | _ => []
  end.

(** Reading a property of [null] throws a [TypeError]; every other value
    has the property or gives [undefined]. The conversions to a string
    are made in the order of the source, and the first that throws ends
    the normalisation. *)
Definition normalizeIntent (rawIntent : YamlValue) : Result ActiveIntent.t :=
  match rawIntent with
  | YNull => Throw "Cannot read properties of null (reading 'status')"
  | _ =>
      let get := Yaml.prop_opt rawIntent in
      let+ statusText := Yaml.toString (Yaml.or_else (get "status") (YStr "PENDING")) in
      let rawStatus := toUpperCase statusText in
      let status := statusOfString rawStatus in
      let+ id := Yaml.toString (Yaml.or_else (get "id") (YStr EmptyString)) in
      let+ name := Yaml.toString (Yaml.or_else (get "name") (YStr EmptyString)) in
      let+ description :=
        Yaml.toString (Yaml.or_else (get "description") (YStr EmptyString)) in
      let+ ownedScope :=
        normalizeStringArray (Yaml.nullish (get "ownedScope") (get "owned_scope")) in
      let constraints := normalizeConstraints (get "constraints") in
      let+ acceptanceCriteria :=
        normalizeStringArray
          (Yaml.nullish (get "acceptanceCriteria") (get "acceptance_criteria")) in
      Ok {|
        ActiveIntent.id := id;
        ActiveIntent.name := name;
        ActiveIntent.description := description;
        ActiveIntent.status := status;
        ActiveIntent.ownedScope := ownedScope;
        ActiveIntent.constraints := constraints;
        ActiveIntent.acceptanceCriteria := acceptanceCriteria;
        ActiveIntent.metadata :=
          match get "metadata" with
          | Some (YSeq items) => YSeq items
          | Some (YMap fields) => YMap fields
          | _ => YMap []
          end
      |}
  end.

End WithEngine.

(** [Array.isArray(parsed?.intents) ? parsed.intents :
     Array.isArray(parsed?.active_intents) ? parsed.active_intents : null]. *)
Definition rawIntentsOf (parsed : YamlValue) : option (list YamlValue) :=
  match Yaml.prop_opt parsed "intents" with
  | Some (YSeq items) => Some items
  | _ =>
      match Yaml.prop_opt parsed "active_intents" with
      | Some (YSeq items) => Some items
      | _ => None
      end
  end.

Section WithExternals.
Context `{Externals}.

Definition loadIntents : M ManagerState (list ActiveIntent.t) :=
  let* cache := gets (fun s => intentsCache (manager s)) in
  match cache with
  | Some intents => ret intents
  | None =>
      let* exists_ := in_world (Storage.fileExists "active_intents.yaml") in
      if negb exists_ then
        initializeIntentsFile ;;;
        set_intentsCache (Some []) ;;;
        ret []
      else
        try_catch
          (let* content := in_world (Storage.readFile "active_intents.yaml") in
           in_world (log_event EvYamlParse) ;;;
           let* parsed := lift (yaml_parse content) in
           match rawIntentsOf parsed with
           | None =>
               set_intentsCache (Some []) ;;;
               ret []
           | Some rawIntents =>
               let* intents := lift (mapR normalizeIntent rawIntents) in
               set_intentsCache (Some intents) ;;;
               ret intents
           end)
          (fun message => throw ("Failed to parse active_intents.yaml: " +:+ message))
  end.

Definition getIntent (intentId : string) : M ManagerState (option ActiveIntent.t) :=
  let* intents := loadIntents in
  ret (List.find (fun intent => bool_decide (ActiveIntent.id intent = intentId)) intents).

Definition setActiveIntent (taskId intentId : string) : M ManagerState unit :=
  let* intent := getIntent intentId in
  match intent with
  | None => throw ("Intent " +:+ intentId +:+ " not found")
  | Some _ =>
      let* bindings := gets (fun s => activeIntentsByTask (manager s)) in
      set_activeIntentsByTask (<[taskId := intentId]> bindings)
  end.

Definition getActiveIntent (taskId : string) : M ManagerState (option ActiveIntent.t) :=
  let* intentId := gets (fun s => activeIntentsByTask (manager s) !! taskId) in
  match intentId with
  | None => ret None
  | Some intentId =>
      if negb (Js.nonempty intentId) then ret None
      else getIntent intentId
  end.

End WithExternals.

Definition clearActiveIntent (taskId : string) : M ManagerState unit :=
  let* bindings := gets (fun s => activeIntentsByTask (manager s)) in
  set_activeIntentsByTask (delete taskId bindings).

Definition invalidateCache : M ManagerState unit :=
  set_intentsCache None.

End IntentManager.

(** ** The hooks *)

(** The process-wide manager [global.__intentManager] as a hook sees it:
    not set, the very object the hook was constructed with, or another
    manager. *)
Inductive GlobalManager : Type :=
| GlobalUnset
| GlobalIsOwn
| GlobalOther (other : IntentManagerState).

(** What a hook object can reach: the world, the process-wide manager and
    the manager the hook was constructed with ([this.intentManager]). *)
Record HookState : Type := mkHookState {
  hook_world : World;
  globalManager : GlobalManager;
  intentManager : IntentManagerState
}.

(** The value of [global.__intentManager]. *)
Definition globalIntentManager (h : HookState) : option IntentManagerState :=
  match globalManager h with
  | GlobalUnset => None
  | GlobalIsOwn => Some (intentManager h)
  | GlobalOther other => Some other
  end.

(** [getIntentManager()] followed by a call on the manager it returns:
    [globalIntentManager || this.intentManager]. What the call does to the
    manager is seen through every reference to that object. *)
Definition with_manager {A} (m : M ManagerState A) : M HookState A :=
  fun h =>
    match globalManager h with
    | GlobalOther other =>
        let '(r, s') := m (mkManagerState other (hook_world h)) in
        (r, mkHookState (world s') (GlobalOther (manager s')) (intentManager h))
    | GlobalUnset =>
        let '(r, s') := m (mkManagerState (intentManager h) (hook_world h)) in
        (r, mkHookState (world s') GlobalUnset (manager s'))
    | GlobalIsOwn =>
        let '(r, s') := m (mkManagerState (intentManager h) (hook_world h)) in
        (r, mkHookState (world s') GlobalIsOwn (manager s'))
    end.

Definition in_hook_world {A} (m : M World A) : M HookState A :=
  zoom hook_world (fun w h => mkHookState w (globalManager h) (intentManager h)) m.

(** Destructive tools that require an active intent before execution. *)
Definition DESTRUCTIVE_TOOLS : gset string :=
  {[ "write_to_file"; "execute_command"; "edit"; "search_and_replace";
     "edit_file"; "search_replace"; "apply_diff"; "apply_patch" ]}.

(** Truthiness of a parameter read [as string | undefined]. *)
Definition str_truthy (v : option string) : bool :=
  match v with
  | Some s => Js.nonempty s
  | None => false
  end.

(** [a || b] on such parameters. *)
Definition str_or (a b : option string) : option string :=
  if str_truthy a then a else b.

Module PreToolHook.

Import ToolExecutionContext.

Definition allow : PreHookResult.t := PreHookResult.mk true None.
Definition deny (message : string) : PreHookResult.t :=
  PreHookResult.mk false (Some message).

(** The [for (const hunk of parsed.hunks)] loop of the [apply_patch] case. *)
Fixpoint hunkPaths (hunks : list Hunk.t) : list string :=
  match hunks with
  | [] => []
  | hunk :: rest =>
      let moved :=
        match Hunk.type hunk with
        | UpdateFile => if str_truthy (Hunk.movePath hunk)
                        then [default EmptyString (Hunk.movePath hunk)] else []
        | _ => []
        end in
      Hunk.path hunk :: moved ++ hunkPaths rest
  end.

Definition noActiveIntentMessage (context : ToolExecutionContext.t) : string :=
  "No active intent selected. Please use the select_active_intent tool to select an intent before performing "
  +:+ toolName context +:+ " operations.".

Definition commandMessage (activeIntent : ActiveIntent.t) : string :=
  "Scope Violation: Intent " +:+ ActiveIntent.id activeIntent +:+ " ("
  +:+ ActiveIntent.name activeIntent
  +:+ ") cannot authorize execute_command because command side effects cannot be validated against ownedScope. Use file-editing tools within scope instead.".

Definition invalidPayloadMessage (context : ToolExecutionContext.t) (message : string)
  : string :=
  "Invalid " +:+ toolName context +:+ " payload for intent scope validation: " +:+ message.

Definition scopeViolationMessage (activeIntent : ActiveIntent.t) (filePath : string)
  : string :=
  "Scope Violation: Intent " +:+ ActiveIntent.id activeIntent +:+ " ("
  +:+ ActiveIntent.name activeIntent +:+ ") is not authorized to edit " +:+ filePath
  +:+ ". Allowed scope: " +:+ Js.join ", " (ActiveIntent.ownedScope activeIntent).

Section WithExternals.
Context `{Externals}.

(** Candidate file paths of a tool call; the patch parser may throw. *)
Definition extractPathsForScopeValidation (context : ToolExecutionContext.t)
  : Result (list string) :=
  let params := toolParams context in
  let tool := toolName context in
  if decide (tool = "write_to_file" \/ tool = "apply_diff") then
    let filePath := str_or (params !! "path") (params !! "file_path") in
    Ok (if str_truthy filePath then [default EmptyString filePath] else [])
  else if decide (tool = "edit" \/ tool = "search_and_replace"
                  \/ tool = "search_replace" \/ tool = "edit_file") then
    let filePath := str_or (params !! "file_path") (params !! "path") in
    Ok (if str_truthy filePath then [default EmptyString filePath] else [])
  else if decide (tool = "apply_patch") then
    let patch := params !! "patch" in
    if negb (str_truthy patch) then Ok []
    else
      match parsePatch (default EmptyString patch) with
      | Throw message => Throw message
      | Ok hunks => Ok (hunkPaths hunks)
      end
  else Ok [].

(** The [for (const filePath of pathsToValidate)] loop of [run]. *)
Fixpoint validatePaths (activeIntent : ActiveIntent.t) (pathsToValidate : list string)
  : PreHookResult.t :=
  match pathsToValidate with
  | [] => allow
  | filePath :: rest =>
      if validatePath filePath (ActiveIntent.ownedScope activeIntent)
      then validatePaths activeIntent rest
      else deny (scopeViolationMessage activeIntent filePath)
  end.

(** The part of [run] that resolves the active intent: the id carried
    by the context first, then the binding of the task. *)
Definition resolveActiveIntent (context : ToolExecutionContext.t)
  : M ManagerState (option ActiveIntent.t) :=
  let* activeIntent :=
    (if str_truthy (activeIntentId context)
     then IntentManager.getIntent (default EmptyString (activeIntentId context))
     else ret None) in
  match activeIntent with
  | Some intent => ret (Some intent)
  | None => IntentManager.getActiveIntent (taskId context)
  end.

(** The part of [run] after the active intent is known. *)
Definition decide_with (context : ToolExecutionContext.t)
    (activeIntent : option ActiveIntent.t) : PreHookResult.t :=
  match activeIntent with
  | None => deny (noActiveIntentMessage context)
  | Some activeIntent =>
      if decide (toolName context = "execute_command") then
        deny (commandMessage activeIntent)
      else
        match extractPathsForScopeValidation context with
        | Throw message => deny (invalidPayloadMessage context message)
        | Ok pathsToValidate => validatePaths activeIntent pathsToValidate
        end
  end.

Definition run (context : ToolExecutionContext.t) : M HookState PreHookResult.t :=
  if negb (bool_decide (toolName context ∈ DESTRUCTIVE_TOOLS)) then ret allow
  else
    let* activeIntent := with_manager (resolveActiveIntent context) in
    ret (decide_with context activeIntent).

End WithExternals.

End PreToolHook.

Module TracePostHook.

Import ToolExecutionContext.

Record TraceTarget : Type := mkTarget {
  path : string;
  mutationClass : MutationClass
}.

Definition mutationClassName (c : MutationClass) : string :=
  match c with CREATE => "CREATE" | MODIFY => "MODIFY" end.

(** [JSON.stringify(entry)]: the fields in the order of the object literal. *)
Definition stringifyEntry (entry : TraceLogEntry.t) : string :=
  let field k v := Yaml.json_quote k +:+ ":" +:+ Yaml.json_quote v in
  "{" +:+ Js.join ","
    [ field "intentId" (TraceLogEntry.intentId entry);
      field "contentHash" (TraceLogEntry.contentHash entry);
      field "filePath" (TraceLogEntry.filePath entry);
      field "mutationClass" (mutationClassName (TraceLogEntry.mutationClass entry));
      field "timestamp" (TraceLogEntry.timestamp entry);
      field "toolName" (TraceLogEntry.toolName entry) ]
  +:+ "}".

(** The [for (const hunk of parsed.hunks)] loop of the [apply_patch] case. *)
Fixpoint hunkTargets (hunks : list Hunk.t) : list TraceTarget :=
  match hunks with
  | [] => []
  | hunk :: rest =>
      let first :=
        match Hunk.type hunk with
        | AddFile => mkTarget (Hunk.path hunk) CREATE
        | _ => mkTarget (Hunk.path hunk) MODIFY
        end in
      let moved :=
        match Hunk.type hunk with
        | UpdateFile => if str_truthy (Hunk.movePath hunk)
                        then [mkTarget (default EmptyString (Hunk.movePath hunk)) MODIFY]
                        else []
        | _ => []
        end in
      first :: moved ++ hunkTargets rest
  end.

Definition success_only : PostHookResult.t := PostHookResult.mk true None.

Section WithExternals.
Context `{Externals}.

Definition getActiveIntent (context : ToolExecutionContext.t)
  : M ManagerState (option ActiveIntent.t) :=
  let* intent :=
    (if str_truthy (activeIntentId context)
     then IntentManager.getIntent (default EmptyString (activeIntentId context))
     else ret None) in
  match intent with
  | Some intent => ret (Some intent)
  | None => IntentManager.getActiveIntent (taskId context)
  end.

Definition extractTraceTargets (context : ToolExecutionContext.t)
  : Result (list TraceTarget) :=
  let params := toolParams context in
  let tool := toolName context in
  if decide (tool = "write_to_file" \/ tool = "apply_diff") then
    let filePath := str_or (params !! "path") (params !! "file_path") in
    Ok (if str_truthy filePath
        then [mkTarget (default EmptyString filePath) MODIFY] else [])
  else if decide (tool = "edit" \/ tool = "search_and_replace"
                  \/ tool = "search_replace" \/ tool = "edit_file") then
    let filePath := str_or (params !! "file_path") (params !! "path") in
    Ok (if str_truthy filePath
        then [mkTarget (default EmptyString filePath) MODIFY] else [])
  else if decide (tool = "apply_patch") then
    let patch := params !! "patch" in
    if negb (str_truthy patch) then Ok []
    else
      match parsePatch (default EmptyString patch) with
      | Throw message => Throw message
      | Ok hunks => Ok (hunkTargets hunks)
      end
  else Ok [].

Definition resolveAbsolutePath (workspacePath filePath : string) : string :=
  if path_isAbsolute filePath then filePath
  else path_resolve workspacePath filePath.

(** Any failure to read gives the empty hash. *)
Definition computeContentHash (absolutePath : string) : M World string :=
  try_catch
    (let* contents := fs_readFile absolutePath in
     ret (sha256_hex contents))
    (fun _ => ret EmptyString).

(** One round of the [for (const target of targets)] loop of [run]:
    the entry it builds and appends. *)
Definition traceTarget (context : ToolExecutionContext.t)
    (activeIntent : ActiveIntent.t) (target : TraceTarget)
  : M World TraceLogEntry.t :=
  let absolutePath := resolveAbsolutePath (workspacePath context) (path target) in
  let* contentHash := computeContentHash absolutePath in
  let* now := Date_now_iso in
  let entry :=
    {| TraceLogEntry.intentId := ActiveIntent.id activeIntent;
       TraceLogEntry.contentHash := contentHash;
       TraceLogEntry.filePath := path target;
       TraceLogEntry.mutationClass := mutationClass target;
       TraceLogEntry.timestamp := now;
       TraceLogEntry.toolName := toolName context |} in
  Storage.appendFile "agent_trace.jsonl"
    (stringifyEntry entry +:+ IntentManager.nl) ;;;
  ret entry.

Fixpoint traceTargets (context : ToolExecutionContext.t)
    (activeIntent : ActiveIntent.t) (targets : list TraceTarget)
    (lastEntry : option TraceLogEntry.t) : M World (option TraceLogEntry.t) :=
  match targets with
  | [] => ret lastEntry
  | target :: rest =>
      let* entry := traceTarget context activeIntent target in
      traceTargets context activeIntent rest (Some entry)
  end.

Definition run {R} (context : ToolExecutionContext.t) (_result : R)
  : M HookState PostHookResult.t :=
  if negb (bool_decide (toolName context ∈ DESTRUCTIVE_TOOLS)) then ret success_only
  else
    let* activeIntent := with_manager (getActiveIntent context) in
    match activeIntent with
    | None => ret success_only
    | Some activeIntent =>
        let* targets := lift (extractTraceTargets context) in
        match targets with
        | [] => ret success_only
        | _ :: _ =>
            let* lastEntry :=
              in_hook_world (traceTargets context activeIntent targets None) in
            ret (PostHookResult.mk true lastEntry)
        end
    end.

End WithExternals.

End TracePostHook.

(** ** A scope matcher *)

(** Modelled from the spec: [ScopeValidator] (hooks/ScopeValidator) is
    missing from the sources. The spec's ScopeMatcher: [**] matches any
    number of path segments, zero included; [*] matches within one segment;
    a leading [!] makes a pattern exclusionary; a path is in scope iff a
    non-exclusionary pattern matches it and no exclusionary pattern does;
    path separators are normalised first. *)
Module ScopeMatcher.

Definition normalizeSeparators (p : string) : string :=
  Js.map_chars (fun c => if decide (c = Yaml.backslash) then "/"%char else c) p.

(** One segment against one pattern segment, [*] standing for any run of
    characters. *)
Fixpoint segmentMatches (pattern : string) : string -> bool :=
  match pattern with
  | EmptyString => fun s => negb (Js.nonempty s)
  | String c pattern' =>
      if decide (c = "*"%char) then
        fix skip (s : string) : bool :=
          segmentMatches pattern' s
          || match s with
             | EmptyString => false
             | String _ s' => skip s'
             end
      else
        fun s =>
          match s with
          | String d s' => bool_decide (c = d) && segmentMatches pattern' s'
          | EmptyString => false
          end
  end.

Fixpoint segmentsMatch (patterns : list string) : list string -> bool :=
  match patterns with
  | [] => fun segments => match segments with [] => true | _ => false end
  | p :: patterns' =>
      if decide (p = "**") then
        fix skip (segments : list string) : bool :=
          segmentsMatch patterns' segments
          || match segments with
             | [] => false
             | _ :: segments' => skip segments'
             end
      else
        fun segments =>
          match segments with
          | s :: segments' => segmentMatches p s && segmentsMatch patterns' segments'
          | [] => false
          end
  end.

Definition globMatches (pattern filePath : string) : bool :=
  segmentsMatch (Js.split "/" (normalizeSeparators pattern))
                (Js.split "/" (normalizeSeparators filePath)).

Definition isNegative (pattern : string) : bool := Js.startsWith pattern "!".

Definition stripNegation (pattern : string) : string :=
  match pattern with
  | String _ rest => rest
  | EmptyString => EmptyString
  end.

Definition validatePath (filePath : string) (scopePatterns : list string) : bool :=
  existsb (fun p => negb (isNegative p) && globMatches p filePath) scopePatterns
  && negb (existsb (fun p => isNegative p && globMatches (stripNegation p) filePath)
                   scopePatterns).

End ScopeMatcher.

(** ** Concrete collaborators and scenarios

    The instances below stand in for the collaborators in the examples:
    they make the embedding run on the scenarios of the test suite. *)
Module Fixtures.

Import IntentManager.

Definition lines (xs : list string) : string := Js.join nl xs +:+ nl.

(** The hunks announced by the header lines of a patch, as the patches of
    hooks/__tests__/PreToolHook.spec.ts have them. *)
Fixpoint hunksOfLines (ls : list string) (acc : list Hunk.t) : list Hunk.t :=
  match ls with
  | [] => acc
  | l :: rest =>
      let after (prefix : string) := String.substring (String.length prefix)
                                       (String.length l - String.length prefix) l in
      if Js.startsWith l "*** Add File: " then
        hunksOfLines rest (acc ++ [Hunk.mk AddFile (after "*** Add File: ") None])
      else if Js.startsWith l "*** Delete File: " then
        hunksOfLines rest (acc ++ [Hunk.mk DeleteFile (after "*** Delete File: ") None])
      else if Js.startsWith l "*** Update File: " then
        hunksOfLines rest (acc ++ [Hunk.mk UpdateFile (after "*** Update File: ") None])
      else if Js.startsWith l "*** Move to: " then
        match List.rev acc with
        | last :: before =>
            hunksOfLines rest
              (List.rev before
                 ++ [Hunk.mk (Hunk.type last) (Hunk.path last) (Some (after "*** Move to: "))])
        | [] => hunksOfLines rest acc
        end
      else hunksOfLines rest acc
  end.

(** Modelled from the spec: the structured-patch parser
    (core/tools/apply-patch) is missing from the sources. The spec says
    that a parsed document yields hunks, each with a path and a type, an
    update hunk with an optional move destination, and that a malformed
    document is an extraction failure. This parser reads the header lines
    only and accepts every document that starts with the begin marker. *)
Definition parsePatch (patch : string) : Result (list Hunk.t) :=
  let ls := Js.split (ascii_of_nat 10) patch in
  if Js.startsWith patch "*** Begin Patch"
  then Ok (hunksOfLines ls [])
  else Throw "Invalid patch: The first line of the patch must be '*** Begin Patch'".

(** The definition document of core/tools/__demo__/INT-TEST-usage-example.md. *)
Definition intTestYaml : string :=
  lines [ "intents:";
          "    - id: INT-TEST";
          "      name: Intent test";
          "      description: test scope enforcement";
          "      status: IN_PROGRESS";
          "      ownedScope:";
          "          - src/hooks/**";
          "      constraints: []";
          "      acceptanceCriteria: []" ].

Definition intTestParsed : YamlValue :=
  YMap [("intents",
         YSeq [YMap [("id", YStr "INT-TEST");
                     ("name", YStr "Intent test");
                     ("description", YStr "test scope enforcement");
                     ("status", YStr "IN_PROGRESS");
                     ("ownedScope", YSeq [YStr "src/hooks/**"]);
                     ("constraints", YSeq []);
                     ("acceptanceCriteria", YSeq [])]])].

(** The document of the end-to-end scenario, under the alternate root and
    with snake-case fields. *)
Definition int001Yaml : string :=
  lines [ "active_intents:";
          "  - id: INT-001";
          "    name: JWT Authentication Migration";
          "    status: in_progress";
          "    owned_scope:";
          "      - 'src/auth/**'";
          "      - '!src/auth/legacy/**'";
          "    constraints:";
          "      - type: TECHNICAL";
          "        rule: Must not use external auth providers";
          "      - '  Token validation must complete within 50ms '";
          "      - kind: note";
          "    acceptance_criteria:";
          "      - Integration tests pass" ].

Definition int001Parsed : YamlValue :=
  YMap [("active_intents",
         YSeq [YMap [("id", YStr "INT-001");
                     ("name", YStr "JWT Authentication Migration");
                     ("status", YStr "in_progress");
                     ("owned_scope", YSeq [YStr "src/auth/**"; YStr "!src/auth/legacy/**"]);
                     ("constraints",
                      YSeq [YMap [("type", YStr "TECHNICAL");
                                  ("rule", YStr "Must not use external auth providers")];
                            YStr "  Token validation must complete within 50ms ";
                            YMap [("kind", YStr "note")]]);
                     ("acceptance_criteria", YSeq [YStr "Integration tests pass"])]])].

(** A document with an entry that has no [id]. *)
Definition noIdYaml : string :=
  lines [ "intents:";
          "  - name: Untitled";
          "    status: archived" ].

Definition noIdParsed : YamlValue :=
  YMap [("intents", YSeq [YMap [("name", YStr "Untitled"); ("status", YStr "archived")]])].

(** What the YAML parser answers on the documents above; anything else
    is taken to be malformed. *)
Definition yaml_parse (content : string) : Result YamlValue :=
  if decide (content = intTestYaml) then Ok intTestParsed
  else if decide (content = int001Yaml) then Ok int001Parsed
  else if decide (content = noIdYaml) then Ok noIdParsed
  else if decide (content = defaultContent) then Ok (YMap [("intents", YSeq [])])
  else Throw "Implicit map keys need to be followed by map values".

Definition sha256_hex (contents : string) : string :=
  "sha256-of-" +:+ pretty (String.length contents) +:+ "-bytes".

Definition path_isAbsolute (p : string) : bool := Js.startsWith p "/".

Definition path_resolve (workspacePath filePath : string) : string :=
  workspacePath +:+ "/" +:+ filePath.

Definition toISOString (n : nat) : string :=
  "2026-02-16T14:30:00." +:+ pretty n +:+ "Z".

(** Stands in for [Number::toString]: it is exact on [NaN], the
    infinities, zero and the integers of magnitude below 2^53, which are
    printed as their decimal digits; every other number gets the text
    [<number>]. *)
Definition numberToString (x : float) : string :=
  match Prim2SF x with
  | S754_nan => "NaN"
  | S754_infinity negative => if negative then "-Infinity" else "Infinity"
  | S754_zero _ => "0"
  | S754_finite negative m e =>
      let scale := (2 ^ (- e))%Z in
      if (e <=? 0)%Z && (Z.pos m mod scale =? 0)%Z then
        (if negative then "-" else EmptyString) +:+ pretty (Z.pos m / scale)%Z
      else "<number>"
  end.

(** The engine on the scenarios, whose text is ASCII: the upper case of
    ASCII text is all they need of [toUpperCase]. *)
Definition engine : JsEngine :=
  Build_JsEngine Js.asciiUpperCase (fun _ _ => eq_refl) numberToString.

#[export] Instance externals : Externals :=
  Build_Externals engine yaml_parse parsePatch ScopeMatcher.validatePath sha256_hex
    path_isAbsolute path_resolve toISOString.

(** *** Scenarios *)

(** What [intTestYaml] normalises to. *)
Definition intTestIntent : ActiveIntent.t :=
  {| ActiveIntent.id := "INT-TEST";
     ActiveIntent.name := "Intent test";
     ActiveIntent.description := "test scope enforcement";
     ActiveIntent.status := IN_PROGRESS;
     ActiveIntent.ownedScope := ["src/hooks/**"];
     ActiveIntent.constraints := [];
     ActiveIntent.acceptanceCriteria := [];
     ActiveIntent.metadata := YMap [] |}.

(** A validator that finds every path out of scope. *)
Definition rejectAll : Externals :=
  Build_Externals engine yaml_parse parsePatch (fun _ _ => false) sha256_hex
    path_isAbsolute path_resolve toISOString.

Definition freshManager : IntentManagerState := mkIntentManager None ∅.

Definition workspaceFiles : gmap string string :=
  {[ "/repo/src/auth/jwt.ts" := "export const sign = () => 1" ]}.

(** A world whose storage holds the definition document [doc]. *)
Definition worldWith (doc : string) : World :=
  mkWorld (mkStorage {[ "active_intents.yaml" := doc ]} false) workspaceFiles 0 [].

(** A world whose storage has no definition document yet. *)
Definition emptyWorld : World :=
  mkWorld (mkStorage ∅ false) workspaceFiles 0 [].

Definition managerOn (doc : string) : ManagerState :=
  mkManagerState freshManager (worldWith doc).

(** A hook over [doc], with task [t1] bound to [boundId]. *)
Definition hookOn (doc boundId : string) : HookState :=
  mkHookState (worldWith doc) GlobalUnset (mkIntentManager None {[ "t1" := boundId ]}).

Definition unboundHookOn (doc : string) : HookState :=
  mkHookState (worldWith doc) GlobalUnset freshManager.

Definition call (tool : string) (params : gmap string string) : ToolExecutionContext.t :=
  ToolExecutionContext.mk tool params "t1" "/repo" None.

Definition twoFilePatch : string :=
  Js.join nl [ "*** Begin Patch";
               "*** Update File: src/hooks/ScopeValidator.ts";
               "@@";
               "-old";
               "+new";
               "*** Add File: packages/types/src/new-file.ts";
               "+export const x = 1";
               "*** End Patch" ].

Definition movePatch : string :=
  Js.join nl [ "*** Begin Patch";
               "*** Update File: src/hooks/ScopeValidator.ts";
               "*** Move to: packages/types/src/ScopeValidator.ts";
               "@@";
               "-old";
               "+new";
               "*** End Patch" ].

End Fixtures.

(** ** The vocabulary of the properties *)

(** A trimmed, non-empty string. *)
Definition isTrimmedNonEmpty (s : string) : Prop :=
  Js.trim s = s /\ s <> EmptyString.

Definition statusNames : list string :=
  ["PLANNED"; "PENDING"; "IN_PROGRESS"; "COMPLETED"; "BLOCKED"].

(** A status string the normaliser recognises: its upper case, as the
    engine gives it, is one of the five names. *)
Definition recognizedStatus `{JsEngine} (s : string) : Prop :=
  toUpperCase s ∈ statusNames.

(** [intents] are the normalisations of [rawIntents], entry by entry. *)
Definition normalisedFrom `{JsEngine} (rawIntents : list YamlValue)
    (intents : list ActiveIntent.t) : Prop :=
  Forall2 (fun rawIntent intent => IntentManager.normalizeIntent rawIntent = Ok intent)
          rawIntents intents.

(** The id the normaliser gives a raw entry: the string form of its [id]
    when that is truthy, the empty string otherwise. *)
Definition idOfRaw `{JsEngine} (rawIntent : YamlValue) : Result string :=
  match Yaml.prop_opt rawIntent "id" with
  | Some v => if Yaml.truthy (Some v) then Yaml.toString v else Ok EmptyString
  | None => Ok EmptyString
  end.

(** No member of [ps] starts with the byte [a]. *)
Definition headFree (a : ascii) (ps : list (list ascii)) : bool :=
  forallb (fun p => match p with
                    | c :: _ => negb (bool_decide (c = a))
                    | [] => false
                    end) ps.

(** A value none of whose mappings has a key [toString] of its own. *)
Fixpoint plainValue (v : YamlValue) : bool :=
  match v with
  | YSeq items => forallb plainValue items
  | YMap fields =>
      negb (Yaml.hasOwn "toString" fields)
      && forallb (fun field => plainValue (snd field)) fields
  | _ => true
  end.

(** How often a run read, and parsed, the definition resource. *)
Definition isDefinitionRead (e : Event) : bool :=
  match e with
  | EvReadFile name => bool_decide (name = "active_intents.yaml")
  | _ => false
  end.

Definition isParse (e : Event) : bool :=
  match e with EvYamlParse => true | _ => false end.

Definition isAppend (e : Event) : bool :=
  match e with EvAppendFile _ => true | _ => false end.

Definition countEvents (p : Event -> bool) (evs : list Event) : nat :=
  length (List.filter p evs).

(** The manager a hook works on. *)
Definition chosenManager (h : HookState) : ManagerState :=
  mkManagerState (default (intentManager h) (globalIntentManager h)) (hook_world h).

Definition findIntent (intentId : string) (intents : list ActiveIntent.t)
  : option ActiveIntent.t :=
  List.find (fun intent => bool_decide (ActiveIntent.id intent = intentId)) intents.

(** The intent the hooks resolve against loaded definitions: the id the
    context carries first, then the id bound to the task. *)
Definition resolveIn (intents : list ActiveIntent.t) (bindings : gmap string string)
    (context : ToolExecutionContext.t) : option ActiveIntent.t :=
  let explicit :=
    if str_truthy (ToolExecutionContext.activeIntentId context)
    then findIntent (default EmptyString (ToolExecutionContext.activeIntentId context))
                    intents
    else None in
  match explicit with
  | Some intent => Some intent
  | None =>
      match bindings !! ToolExecutionContext.taskId context with
      | Some bound => if Js.nonempty bound then findIntent bound intents else None
      | None => None
      end
  end.

Definition inScope `{Externals} (intent : ActiveIntent.t) (filePath : string) : Prop :=
  validatePath filePath (ActiveIntent.ownedScope intent) = true.

Definition outOfScope `{Externals} (intent : ActiveIntent.t) (filePath : string) : Prop :=
  validatePath filePath (ActiveIntent.ownedScope intent) = false.

Definition traceFile : string := "agent_trace.jsonl".

(** The absolute path the audit reads for a target. *)
Definition absoluteOf `{Externals} (context : ToolExecutionContext.t)
    (target : TracePostHook.TraceTarget) : string :=
  TracePostHook.resolveAbsolutePath (ToolExecutionContext.workspacePath context)
                                    (TracePostHook.path target).

(** The hash the audit records for a target over workspace files
    [workspace]: the digest of the file, or the empty string when the file
    cannot be read. *)
Definition hashOf `{Externals} (workspace : gmap string string)
    (context : ToolExecutionContext.t) (target : TracePostHook.TraceTarget) : string :=
  match workspace !! absoluteOf context target with
  | Some contents => sha256_hex contents
  | None => EmptyString
  end.

(** [entry] is the record of [target] for a call [context] under [intent]. *)
Definition recordsTarget `{Externals} (context : ToolExecutionContext.t)
    (intent : ActiveIntent.t) (workspace : gmap string string)
    (target : TracePostHook.TraceTarget) (entry : TraceLogEntry.t) : Prop :=
  TraceLogEntry.intentId entry = ActiveIntent.id intent
  /\ TraceLogEntry.filePath entry = TracePostHook.path target
  /\ TraceLogEntry.mutationClass entry = TracePostHook.mutationClass target
  /\ TraceLogEntry.toolName entry = ToolExecutionContext.toolName context
  /\ TraceLogEntry.contentHash entry = hashOf workspace context target.

(** The entry one round of the audit loop builds in world [w]. *)
Definition entryAt `{Externals} (context : ToolExecutionContext.t)
    (intent : ActiveIntent.t) (w : World) (target : TracePostHook.TraceTarget)
  : TraceLogEntry.t :=
  {| TraceLogEntry.intentId := ActiveIntent.id intent;
     TraceLogEntry.contentHash := hashOf (fs w) context target;
     TraceLogEntry.filePath := TracePostHook.path target;
     TraceLogEntry.mutationClass := TracePostHook.mutationClass target;
     TraceLogEntry.timestamp := toISOString (clock w);
     TraceLogEntry.toolName := ToolExecutionContext.toolName context |}.

(** The world after that round, on a storage that can be written. *)
Definition worldAfterEntry `{Externals} (context : ToolExecutionContext.t)
    (intent : ActiveIntent.t) (w : World) (target : TracePostHook.TraceTarget) : World :=
  let st := storage w in
  let line := TracePostHook.stringifyEntry (entryAt context intent w target)
              +:+ IntentManager.nl in
  mkWorld
    (mkStorage (<[traceFile := default EmptyString (files st !! traceFile) +:+ line]>
                  (files st))
               (readonly st))
    (fs w) (S (clock w))
    (events w ++ [EvFsReadFile (absoluteOf context target); EvAppendFile traceFile]).

(** The text of a trace file after [entries] were appended to [old]. *)
Definition appendEntries (old : string) (entries : list TraceLogEntry.t) : string :=
  fold_left (fun text entry =>
               text +:+ (TracePostHook.stringifyEntry entry +:+ IntentManager.nl))
            entries old.

(** ** Rendering, the hook engine, and further scenarios *)

(** [IntentManager.formatIntentContext]: the context block of an intent. *)
Definition formatIntentContext (intent : ActiveIntent.t) : string :=
  let nl := IntentManager.nl in
  let scopePatterns := Js.join ", " (ActiveIntent.ownedScope intent) in
  let constraints :=
    match ActiveIntent.constraints intent with
    | [] => "None"
    | _ :: _ => Js.join (nl +:+ "  - ") (ActiveIntent.constraints intent)
    end in
  "<intent_context>" +:+ nl +:+
  "<intent_id>" +:+ ActiveIntent.id intent +:+ "</intent_id>" +:+ nl +:+
  "<name>" +:+ ActiveIntent.name intent +:+ "</name>" +:+ nl +:+
  "<description>" +:+ ActiveIntent.description intent +:+ "</description>" +:+ nl +:+
  "<owned_scope>" +:+ scopePatterns +:+ "</owned_scope>" +:+ nl +:+
  "<constraints>" +:+ nl +:+
  "  - " +:+ constraints +:+ nl +:+
  "</constraints>" +:+ nl +:+
  "<acceptance_criteria>" +:+ nl +:+
  Js.join nl (map (fun criteria => "  - " +:+ criteria)
                  (ActiveIntent.acceptanceCriteria intent)) +:+ nl +:+
  "</acceptance_criteria>" +:+ nl +:+
  "</intent_context>".

(** The hook engine that the dispatch test of
    core/assistant-message/__tests__ installs in place of [HookEngine]:
    the registered pre-hooks run in order and the first result that is
    not allowed is returned as it is. *)
Module HookEngine.
Section WithState.
Context {S C : Type}.

Definition registerPreHook (hooks : list (C -> M S PreHookResult.t))
    (hook : C -> M S PreHookResult.t) : list (C -> M S PreHookResult.t) :=
  hooks ++ [hook].

Fixpoint executePreHooks (hooks : list (C -> M S PreHookResult.t)) (context : C)
  : M S PreHookResult.t :=
  match hooks with
  | [] => ret (PreHookResult.mk true None)
  | hook :: rest =>
      let* result := hook context in
      if negb (PreHookResult.allowed result) then ret result
      else executePreHooks rest context
  end.

End WithState.
End HookEngine.

Module MoreFixtures.

Import IntentManager.

(** A document whose second entry is empty, hence [null]. *)
Definition nullEntryYaml : string :=
  Fixtures.lines [ "intents:";
                   "  - id: INT-OK";
                   "  -" ].

Definition nullEntryParsed : YamlValue :=
  YMap [("intents", YSeq [YMap [("id", YStr "INT-OK")]; YNull])].

(** A document with both roots. *)
Definition bothRootsYaml : string :=
  Fixtures.lines [ "intents:";
                   "  - id: INT-PRIMARY";
                   "active_intents:";
                   "  - id: INT-ALTERNATE" ].

Definition bothRootsParsed : YamlValue :=
  YMap [("intents", YSeq [YMap [("id", YStr "INT-PRIMARY")]]);
        ("active_intents", YSeq [YMap [("id", YStr "INT-ALTERNATE")]])].

Definition yaml_parse (content : string) : Result YamlValue :=
  if decide (content = nullEntryYaml) then Ok nullEntryParsed
  else if decide (content = bothRootsYaml) then Ok bothRootsParsed
  else Fixtures.yaml_parse content.

Definition externals : Externals :=
  Build_Externals Fixtures.engine yaml_parse Fixtures.parsePatch ScopeMatcher.validatePath
    Fixtures.sha256_hex Fixtures.path_isAbsolute Fixtures.path_resolve
    Fixtures.toISOString.

(** A world whose storage refuses to be written. *)
Definition readonlyWorld (docs : gmap string string) : World :=
  mkWorld (mkStorage docs true) Fixtures.workspaceFiles 0 [].

End MoreFixtures.

(** The message of a load that failed on [cause]. *)
Definition parseFailure (cause : string) : string :=
  "Failed to parse active_intents.yaml: " +:+ cause.

(** The status a name stands for. *)
Definition statusOfName (name : string) : option IntentStatus :=
  if decide (name = "PLANNED") then Some PLANNED
  else if decide (name = "PENDING") then Some PENDING
  else if decide (name = "IN_PROGRESS") then Some IN_PROGRESS
  else if decide (name = "COMPLETED") then Some COMPLETED
  else if decide (name = "BLOCKED") then Some BLOCKED
  else None.

Definition definitionsFile : string := "active_intents.yaml".

(** What the gate may change in the world: nothing but the definition
    resource. The workspace files, the clock, the other files of the
    storage and the number of appends are kept. *)
Definition worldFrame (w w' : World) : Prop :=
  fs w' = fs w
  /\ clock w' = clock w
  /\ readonly (storage w') = readonly (storage w)
  /\ (forall name, name <> definitionsFile ->
                   files (storage w') !! name = files (storage w) !! name)
  /\ countEvents isAppend (events w') = countEvents isAppend (events w).

(** A computation on a manager that keeps the bindings and the frame of
    the world, whether it returns or throws. *)
Definition keepsFrame {A} (m : M ManagerState A) : Prop :=
  forall s r s',
    m s = (r, s') ->
    activeIntentsByTask (manager s') = activeIntentsByTask (manager s)
    /\ worldFrame (world s) (world s').

(** The number of line ends in a text. *)
Fixpoint countNewlines (text : string) : nat :=
  match text with
  | EmptyString => 0
  | String c rest =>
      (if decide (c = ascii_of_nat 10) then 1 else 0) + countNewlines rest
  end.

(** Unfolds the steps of a computation down to its state transformer. *)
Ltac run_comp :=
  repeat (progress (unfold bind, gets, ret, in_world, zoom, Storage.fileExists,
                      Storage.readFile, Storage.writeFile, Storage.appendFile,
                      log_event, modify, try_catch, lift, throw, set_intentsCache,
                      set_activeIntentsByTask, set_storage,
                      IntentManager.initializeIntentsFile; simpl)).

(** * Properties *)

(** ** Strings *)

Section StringFacts.

Lemma append_cons (c : ascii) (s t : string) :
  String c s +:+ t = String c (s +:+ t).
Proof. reflexivity. Qed.

Lemma append_assoc (a b c : string) : (a +:+ b) +:+ c = a +:+ (b +:+ c).
Proof. induction a as [|x a IH]; [reflexivity|]. rewrite !append_cons. by f_equal. Qed.

Lemma stripPrefix_app (p l rest : list ascii) :
  Js.stripPrefix p l = Some rest -> l = p ++ rest.
Proof.
  revert l. induction p as [|a p IH]; intros l; simpl.
  - by intros [= ->].
  - destruct l as [|b l]; [done|]. case_decide; [|done].
    intros Hp. subst b. f_equal. by apply IH.
Qed.

Lemma stripPrefix_extend (p l rest more : list ascii) :
  Js.stripPrefix p l = Some rest -> Js.stripPrefix p (l ++ more) = Some (rest ++ more).
Proof.
  revert l. induction p as [|a p IH]; intros l; simpl.
  - by intros [= ->].
  - destruct l as [|b l]; [done|]. simpl. case_decide; [|done]. apply IH.
Qed.

Lemma stripAny_app (ps : list (list ascii)) (l rest : list ascii) :
  Js.stripAny ps l = Some rest -> exists p, p ∈ ps /\ l = p ++ rest.
Proof.
  induction ps as [|p ps IH]; simpl; [done|].
  destruct (Js.stripPrefix p l) as [r|] eqn:Hp.
  - intros [= ->]. exists p. split; [by left | by apply stripPrefix_app].
  - intros Hps. destruct (IH Hps) as (q & Hq & Hl). exists q. split; [by right | done].
Qed.

Lemma stripAny_shorter (ps : list (list ascii)) (l rest : list ascii) :
  Forall (fun p => p <> []) ps ->
  Js.stripAny ps l = Some rest -> length rest < length l.
Proof.
  intros Hne Hl. destruct (stripAny_app _ _ _ Hl) as (p & Hp & ->).
  rewrite Forall_forall in Hne. specialize (Hne p Hp).
  rewrite length_app. destruct p; [done|]. simpl. lia.
Qed.

(** A text that starts with none of [ps] has no prefix that does. *)
Lemma stripAny_prefix (ps : list (list ascii)) (l more : list ascii) :
  Js.stripAny ps (l ++ more) = None -> Js.stripAny ps l = None.
Proof.
  induction ps as [|p ps IH]; simpl; [done|].
  destruct (Js.stripPrefix p l) as [r|] eqn:Hp.
  - by rewrite (stripPrefix_extend _ _ _ more Hp).
  - destruct (Js.stripPrefix p (l ++ more)); [done|]. apply IH.
Qed.

Lemma stripAny_nil (ps : list (list ascii)) :
  Forall (fun p => p <> []) ps -> Js.stripAny ps [] = None.
Proof.
  induction 1 as [|p ps Hp _ IH]; [done|]. simpl. by destruct p.
Qed.

Lemma dropLeading_fixed (n : nat) (ps : list (list ascii)) (l : list ascii) :
  Js.stripAny ps l = None -> Js.dropLeading n ps l = l.
Proof. intros Hl. destruct n; simpl; [done|]. by rewrite Hl. Qed.

(** The length of the text is enough: what [dropLeading] returns starts
    with none of [ps]. *)
Lemma dropLeading_clean (n : nat) (ps : list (list ascii)) (l : list ascii) :
  Forall (fun p => p <> []) ps -> length l <= n ->
  Js.stripAny ps (Js.dropLeading n ps l) = None.
Proof.
  intros Hne. revert l. induction n as [|n IH]; intros l Hn; simpl.
  - destruct l; [|simpl in Hn; lia]. by apply stripAny_nil.
  - destruct (Js.stripAny ps l) as [rest|] eqn:Hl; [|done].
    apply IH. pose proof (stripAny_shorter _ _ _ Hne Hl). lia.
Qed.

Lemma dropLeading_suffix (n : nat) (ps : list (list ascii)) (l : list ascii) :
  exists pre, l = pre ++ Js.dropLeading n ps l.
Proof.
  revert l. induction n as [|n IH]; intros l; simpl; [by exists []|].
  destruct (Js.stripAny ps l) as [rest|] eqn:Hl; [|by exists []].
  destruct (stripAny_app _ _ _ Hl) as (p & _ & ->).
  destruct (IH rest) as [pre Hpre]. exists (p ++ pre).
  rewrite <- app_assoc. by rewrite <- Hpre.
Qed.

Lemma whiteSpaces_nonempty : Forall (fun p : list ascii => p <> []) Js.whiteSpaces.
Proof.
  apply Forall_forall. intros p Hp Hnil. subst p. revert Hp.
  apply (bool_decide_unpack _). vm_compute. exact I.
Qed.

Lemma whiteSpaces_rev_nonempty :
  Forall (fun p : list ascii => p <> []) (map (@List.rev ascii) Js.whiteSpaces).
Proof.
  apply Forall_forall. intros p Hp Hnil. subst p. revert Hp.
  apply (bool_decide_unpack _). vm_compute. exact I.
Qed.

Lemma trimStartBytes_clean (l : list ascii) :
  Js.stripAny Js.whiteSpaces (Js.trimStartBytes l) = None.
Proof. apply dropLeading_clean; [apply whiteSpaces_nonempty | done]. Qed.

Lemma trimEndBytes_clean (l : list ascii) :
  Js.stripAny (map (@List.rev ascii) Js.whiteSpaces) (List.rev (Js.trimEndBytes l)) = None.
Proof.
  unfold Js.trimEndBytes. rewrite List.rev_involutive.
  apply dropLeading_clean; [apply whiteSpaces_rev_nonempty|].
  by rewrite List.length_rev.
Qed.

Lemma trimEndBytes_prefix (l : list ascii) :
  exists post, l = Js.trimEndBytes l ++ post.
Proof.
  unfold Js.trimEndBytes.
  destruct (dropLeading_suffix (length l) (map (@List.rev ascii) Js.whiteSpaces)
              (List.rev l)) as [pre Hpre].
  exists (List.rev pre).
  rewrite <- List.rev_app_distr, <- Hpre. by rewrite List.rev_involutive.
Qed.

(** A text that neither starts nor ends with white space is trimmed. *)
Lemma trimBytes_fixed (l : list ascii) :
  Js.stripAny Js.whiteSpaces l = None ->
  Js.stripAny (map (@List.rev ascii) Js.whiteSpaces) (List.rev l) = None ->
  Js.trimEndBytes (Js.trimStartBytes l) = l.
Proof.
  intros Hstart Hend. unfold Js.trimStartBytes. rewrite (dropLeading_fixed _ _ _ Hstart).
  unfold Js.trimEndBytes. rewrite (dropLeading_fixed _ _ _ Hend).
  apply List.rev_involutive.
Qed.

Lemma trim_bytes (s : string) :
  list_ascii_of_string (Js.trim s)
  = Js.trimEndBytes (Js.trimStartBytes (list_ascii_of_string s)).
Proof.
  unfold Js.trim, Js.trimEnd, Js.trimStart.
  by rewrite !list_ascii_of_string_of_list_ascii.
Qed.

Lemma trim_fixed (s : string) :
  Js.stripAny Js.whiteSpaces (list_ascii_of_string s) = None ->
  Js.stripAny (map (@List.rev ascii) Js.whiteSpaces)
              (List.rev (list_ascii_of_string s)) = None ->
  Js.trim s = s.
Proof.
  intros Hstart Hend.
  rewrite <- (string_of_list_ascii_of_string (Js.trim s)), trim_bytes.
  rewrite (trimBytes_fixed _ Hstart Hend). apply string_of_list_ascii_of_string.
Qed.

Lemma trim_idem s : Js.trim (Js.trim s) = Js.trim s.
Proof.
  apply trim_fixed; rewrite trim_bytes.
  - destruct (trimEndBytes_prefix (Js.trimStartBytes (list_ascii_of_string s)))
      as [post Hpost].
    apply (stripAny_prefix _ _ post). rewrite <- Hpost. apply trimStartBytes_clean.
  - apply trimEndBytes_clean.
Qed.

Lemma headFree_stripAny (a : ascii) (ps : list (list ascii)) (l : list ascii) :
  headFree a ps = true -> Js.stripAny ps (a :: l) = None.
Proof.
  induction ps as [|p ps IH]; simpl; [done|].
  intros [Hp Hps]%andb_true_iff. destruct p as [|c p]; [done|]. simpl.
  case_decide as Hc; [|by apply IH].
  subst c. by rewrite bool_decide_eq_true_2 in Hp.
Qed.

Lemma list_ascii_of_string_app (s t : string) :
  list_ascii_of_string (s +:+ t) = list_ascii_of_string s ++ list_ascii_of_string t.
Proof. induction s as [|c s IH]; simpl; [done|]. by rewrite IH. Qed.

(** A text between two bytes that neither begin nor end a white space
    is trimmed. *)
Lemma trim_bracketed (a b : ascii) (x : string) :
  headFree a Js.whiteSpaces = true ->
  headFree b (map (@List.rev ascii) Js.whiteSpaces) = true ->
  isTrimmedNonEmpty (String a (x +:+ String b EmptyString)).
Proof.
  intros Ha Hb. split; [|done]. apply trim_fixed.
  - cbn [list_ascii_of_string]. by apply headFree_stripAny.
  - change (String a (x +:+ String b EmptyString))
      with (String a x +:+ String b EmptyString).
    rewrite list_ascii_of_string_app. cbn [list_ascii_of_string].
    rewrite List.rev_app_distr. cbn [List.rev app].
    by apply headFree_stripAny.
Qed.

Lemma nonempty_true s : Js.nonempty s = true <-> s <> EmptyString.
Proof. destruct s; simpl; split; congruence. Qed.

Lemma startsWith_append p s : Js.startsWith (p +:+ s) p = true.
Proof.
  induction p as [|c p IH]; [by destruct s|].
  rewrite append_cons. simpl. by rewrite decide_True.
Qed.

Lemma includes_append a p b : Js.includes (a +:+ p +:+ b) p = true.
Proof.
  induction a as [|c a IH].
  - change (EmptyString +:+ p +:+ b) with (p +:+ b).
    pose proof (startsWith_append p b) as Hp.
    destruct (p +:+ b); cbn [Js.includes]; by rewrite Hp.
  - rewrite append_cons. cbn [Js.includes]. rewrite IH. apply orb_true_r.
Qed.

Lemma includes_suffix a s p : Js.includes s p = true -> Js.includes (a +:+ s) p = true.
Proof.
  intros Hs. induction a as [|c a IH]; [exact Hs|].
  rewrite append_cons. cbn [Js.includes]. rewrite IH. apply orb_true_r.
Qed.

End StringFacts.

(** ** Normalisation of intent entries *)

Section Normalisation.
Context `{JsEngine}.

Import IntentManager.

(** Induction on a value and on the values inside it. *)
Lemma YamlValue_nested_ind (P : YamlValue -> Prop) :
  P YNull -> (forall b, P (YBool b)) -> (forall x, P (YNum x)) -> (forall s, P (YStr s)) ->
  (forall items, Forall P items -> P (YSeq items)) ->
  (forall fields, Forall (fun field => P (snd field)) fields -> P (YMap fields)) ->
  forall v, P v.
Proof.
  intros Hnull Hbool Hnum Hstr Hseq Hmap.
  fix IH 1. intros [|b|x|s|items|fields].
  - exact Hnull.
  - apply Hbool.
  - apply Hnum.
  - apply Hstr.
  - apply Hseq.
    revert items. fix IHitems 1. intros [|item items].
    + constructor.
    + constructor; [apply IH | apply IHitems].
  - apply Hmap.
    revert fields. fix IHfields 1. intros [|[k v] fields].
    + constructor.
    + constructor; [apply IH | apply IHfields].
Qed.

Lemma mapR_Ok {A B} (f : A -> Result B) (xs : list A) :
  Forall (fun x => exists y, f x = Ok y) xs -> exists ys, mapR f xs = Ok ys.
Proof.
  induction 1 as [|x xs [y Hy] _ [ys Hys]]; [by eexists|].
  exists (y :: ys). cbn [mapR]. by rewrite Hy, Hys.
Qed.

Lemma mapR_Throw {A B} (f : A -> Result B) (xs : list A) :
  Exists (fun x => exists e, f x = Throw e) xs -> exists e, mapR f xs = Throw e.
Proof.
  induction 1 as [x xs [e He]|x xs _ [e He]]; cbn [mapR].
  - rewrite He. by eexists.
  - destruct (f x); [|by eexists]. rewrite He. by eexists.
Qed.

Lemma mapR_length {A B} (f : A -> Result B) (xs : list A) (ys : list B) :
  mapR f xs = Ok ys -> length ys = length xs.
Proof.
  revert ys. induction xs as [|x xs IH]; intros ys; cbn [mapR].
  - by intros [= <-].
  - destruct (f x); [|done]. destruct (mapR f xs); [|done].
    intros [= <-]. simpl. f_equal. by apply IH.
Qed.

(** The conversion to a string succeeds on a value without a [toString]
    key. *)
Lemma toString_plain (v : YamlValue) :
  plainValue v = true -> exists text, Yaml.toString v = Ok text.
Proof.
  induction v as [|b|x|s|items IH|fields _] using YamlValue_nested_ind;
    intros Hplain; cbn [Yaml.toString].
  - by eexists.
  - destruct b; by eexists.
  - by eexists.
  - by eexists.
  - cbn [plainValue] in Hplain.
    destruct (mapR_Ok (fun x => match x with
                                | YNull => Ok EmptyString
                                | _ => Yaml.toString x
                                end) items) as [texts ->]; [|by eexists].
    apply Forall_forall. intros item Hitem.
    rewrite Forall_forall in IH. rewrite forallb_forall in Hplain.
    apply list_elem_of_In in Hitem as Hin.
    destruct item; try (apply IH; [done | by apply Hplain]). by eexists.
  - cbn [plainValue] in Hplain. apply andb_true_iff in Hplain as [Hown _].
    destruct (Yaml.hasOwn "toString" fields); [done | by eexists].
Qed.

Lemma nonempty_trim_trimmed (text : string) :
  Js.nonempty (Js.trim text) = true -> isTrimmedNonEmpty (Js.trim text).
Proof. intros Hne. split; [apply trim_idem | by apply nonempty_true]. Qed.

Lemma filter_trim_trimmed (texts : list string) :
  Forall isTrimmedNonEmpty (List.filter Js.nonempty (map Js.trim texts)).
Proof.
  induction texts as [|text texts IH]; [by constructor|].
  cbn [map List.filter].
  destruct (Js.nonempty (Js.trim text)) eqn:Hne; [|exact IH].
  constructor; [by apply nonempty_trim_trimmed | exact IH].
Qed.

Lemma normalizeStringArray_trimmed (value : option YamlValue) (texts : list string) :
  normalizeStringArray value = Ok texts -> Forall isTrimmedNonEmpty texts.
Proof.
  unfold normalizeStringArray.
  destruct value as [[|b|x|s|items|fields]|]; try (intros [= <-]; by constructor).
  unfold bindR. destruct (mapR _ items) as [converted|]; [|done].
  intros [= <-]. apply filter_trim_trimmed.
Qed.

Lemma stringify_object_trimmed (item : YamlValue) :
  match item with YSeq _ | YMap _ => True | _ => False end ->
  isTrimmedNonEmpty (Yaml.stringify item).
Proof.
  destruct item as [|b|x|s|items|fields]; try done; intros _; cbn [Yaml.stringify].
  - apply (trim_bracketed "["%char "]"%char); vm_compute; reflexivity.
  - apply (trim_bracketed "{"%char "}"%char); vm_compute; reflexivity.
Qed.

Lemma pushConstraint_trimmed (normalized : list string) (item : YamlValue) :
  Forall isTrimmedNonEmpty normalized ->
  Forall isTrimmedNonEmpty (pushConstraint normalized item).
Proof.
  intros Hn.
  assert (Hpush : forall t, isTrimmedNonEmpty t ->
                            Forall isTrimmedNonEmpty (normalized ++ [t])).
  { intros t Ht. apply Forall_app; split; [done|]. by apply Forall_singleton. }
  assert (Hcompact : match item with YSeq _ | YMap _ => True | _ => False end ->
            Forall isTrimmedNonEmpty
              (if Js.nonempty (Yaml.stringify item)
               then normalized ++ [Yaml.stringify item] else normalized)).
  { intros Hobj. destruct (Js.nonempty (Yaml.stringify item)); [|done].
    by apply Hpush, stringify_object_trimmed. }
  destruct item as [|b|x|s|items|fields]; cbn [pushConstraint]; try done.
  - destruct (Js.nonempty (Js.trim s)) eqn:Hs; [|done].
    by apply Hpush, nonempty_trim_trimmed.
  - destruct (Yaml.prop_opt (YSeq items) "rule") as [[|b|x|r|items'|fields']|];
      try by apply Hcompact.
    destruct (Js.nonempty (Js.trim r)) eqn:Hr;
      [by apply Hpush, nonempty_trim_trimmed | by apply Hcompact].
  - destruct (Yaml.prop_opt (YMap fields) "rule") as [[|b|x|r|items'|fields']|];
      try by apply Hcompact.
    destruct (Js.nonempty (Js.trim r)) eqn:Hr;
      [by apply Hpush, nonempty_trim_trimmed | by apply Hcompact].
Qed.

Lemma normalizeConstraints_trimmed (value : option YamlValue) :
  Forall isTrimmedNonEmpty (normalizeConstraints value).
Proof.
  unfold normalizeConstraints.
  destruct value as [[|b|x|s|items|fields]|]; try by constructor.
  assert (Hfold : forall acc, Forall isTrimmedNonEmpty acc ->
                    Forall isTrimmedNonEmpty (fold_left pushConstraint items acc)).
  { induction items as [|item items IH]; intros acc Hacc; [done|].
    simpl. by apply IH, pushConstraint_trimmed. }
  apply Hfold. by constructor.
Qed.

Lemma statusOfString_unrecognized (s : string) :
  s ∉ statusNames -> statusOfString s = PENDING.
Proof.
  intros Hs. unfold statusOfString.
  repeat (case_decide; [subst s; exfalso; apply Hs; unfold statusNames; set_solver|]).
  reflexivity.
Qed.

(** What an entry that normalises was made from, field by field. *)
Lemma normalizeIntent_Ok (rawIntent : YamlValue) (intent : ActiveIntent.t) :
  normalizeIntent rawIntent = Ok intent ->
  let get := Yaml.prop_opt rawIntent in
  rawIntent <> YNull
  /\ (exists statusText,
        Yaml.toString (Yaml.or_else (get "status") (YStr "PENDING")) = Ok statusText
        /\ ActiveIntent.status intent = statusOfString (toUpperCase statusText))
  /\ Yaml.toString (Yaml.or_else (get "id") (YStr EmptyString))
     = Ok (ActiveIntent.id intent)
  /\ Yaml.toString (Yaml.or_else (get "name") (YStr EmptyString))
     = Ok (ActiveIntent.name intent)
  /\ Yaml.toString (Yaml.or_else (get "description") (YStr EmptyString))
     = Ok (ActiveIntent.description intent)
  /\ normalizeStringArray (Yaml.nullish (get "ownedScope") (get "owned_scope"))
     = Ok (ActiveIntent.ownedScope intent)
  /\ ActiveIntent.constraints intent = normalizeConstraints (get "constraints")
  /\ normalizeStringArray
       (Yaml.nullish (get "acceptanceCriteria") (get "acceptance_criteria"))
     = Ok (ActiveIntent.acceptanceCriteria intent).
Proof.
  intros Hnorm get.
  assert (Hbody :
    (let+ statusText := Yaml.toString (Yaml.or_else (get "status") (YStr "PENDING")) in
     let+ id := Yaml.toString (Yaml.or_else (get "id") (YStr EmptyString)) in
     let+ name := Yaml.toString (Yaml.or_else (get "name") (YStr EmptyString)) in
     let+ description :=
       Yaml.toString (Yaml.or_else (get "description") (YStr EmptyString)) in
     let+ ownedScope :=
       normalizeStringArray (Yaml.nullish (get "ownedScope") (get "owned_scope")) in
     let+ acceptanceCriteria :=
       normalizeStringArray
         (Yaml.nullish (get "acceptanceCriteria") (get "acceptance_criteria")) in
     Ok {| ActiveIntent.id := id;
           ActiveIntent.name := name;
           ActiveIntent.description := description;
           ActiveIntent.status := statusOfString (toUpperCase statusText);
           ActiveIntent.ownedScope := ownedScope;
           ActiveIntent.constraints := normalizeConstraints (get "constraints");
           ActiveIntent.acceptanceCriteria := acceptanceCriteria;
           ActiveIntent.metadata :=
             match get "metadata" with
             | Some (YSeq items) => YSeq items
             | Some (YMap fields) => YMap fields
             | _ => YMap []
             end |})%result = Ok intent
    /\ rawIntent <> YNull).
  { destruct rawIntent; [done|..]; (split; [exact Hnorm | done]). }
  destruct Hbody as [Hbody Hnull]. unfold bindR in Hbody.
  destruct (Yaml.toString (Yaml.or_else (get "status") _)) as [statusText|]; [|done].
  destruct (Yaml.toString (Yaml.or_else (get "id") _)) as [id|]; [|done].
  destruct (Yaml.toString (Yaml.or_else (get "name") _)) as [name|]; [|done].
  destruct (Yaml.toString (Yaml.or_else (get "description") _)) as [description|]; [|done].
  destruct (normalizeStringArray (Yaml.nullish (get "ownedScope") _)) as [ownedScope|];
    [|done].
  destruct (normalizeStringArray (Yaml.nullish (get "acceptanceCriteria") _))
    as [acceptanceCriteria|]; [|done].
  injection Hbody as <-. cbn.
  split; [done|]. split; [by exists statusText|]. by split_and!.
Qed.

Lemma plainValue_prop (rawIntent : YamlValue) (k : string) (v : YamlValue) :
  plainValue rawIntent = true -> Yaml.prop_opt rawIntent k = Some v ->
  plainValue v = true.
Proof.
  destruct rawIntent as [|b|x|s|items|fields]; try done. cbn [plainValue Yaml.prop_opt].
  intros [_ Hfields]%andb_true_iff. rewrite forallb_forall in Hfields.
  induction fields as [|[k' v'] fields IH]; cbn [Yaml.assoc]; [done|].
  case_decide.
  - intros [= <-]. apply (Hfields (k', v')). by left.
  - apply IH. intros field Hfield. apply Hfields. by right.
Qed.

Lemma toString_or_else (rawIntent : YamlValue) (k : string) (d : string) :
  plainValue rawIntent = true ->
  exists text, Yaml.toString (Yaml.or_else (Yaml.prop_opt rawIntent k) (YStr d)) = Ok text.
Proof.
  intros Hplain. unfold Yaml.or_else.
  destruct (Yaml.prop_opt rawIntent k) as [v|] eqn:Hv; [|by eexists].
  destruct (Yaml.truthy (Some v)); [|by eexists].
  apply toString_plain. by apply (plainValue_prop rawIntent k).
Qed.

Lemma normalizeStringArray_plain (value : option YamlValue) :
  (forall v, value = Some v -> plainValue v = true) ->
  exists texts, normalizeStringArray value = Ok texts.
Proof.
  intros Hplain. unfold normalizeStringArray.
  destruct value as [[|b|x|s|items|fields]|]; try by eexists.
  specialize (Hplain _ eq_refl). cbn [plainValue] in Hplain.
  rewrite forallb_forall in Hplain.
  destruct (mapR_Ok (fun item =>
              match item with
              | YStr s => Ok s
              | _ => Yaml.toString
                       (default (YStr EmptyString)
                          (Yaml.nullish (Some item) (Some (YStr EmptyString))))
              end) items) as [texts Htexts].
  - apply Forall_forall. intros item Hitem%list_elem_of_In.
    specialize (Hplain item Hitem).
    destruct item; cbn [Yaml.nullish default]; try (by eexists);
      by apply toString_plain.
  - rewrite Htexts. by eexists.
Qed.

Lemma nullish_plain (rawIntent : YamlValue) (k k' : string) (v : YamlValue) :
  plainValue rawIntent = true ->
  Yaml.nullish (Yaml.prop_opt rawIntent k) (Yaml.prop_opt rawIntent k') = Some v ->
  plainValue v = true.
Proof.
  intros Hplain. unfold Yaml.nullish.
  destruct (Yaml.prop_opt rawIntent k) as [first|] eqn:Hk.
  - destruct first; intros Hv;
      solve [ by apply (plainValue_prop rawIntent k')
            | injection Hv as <-; by apply (plainValue_prop rawIntent k _ Hplain Hk) ].
  - by apply plainValue_prop.
Qed.

(** An entry that is not [null] and has no [toString] key normalises. *)
Lemma normalizeIntent_total (rawIntent : YamlValue) :
  rawIntent <> YNull -> plainValue rawIntent = true ->
  exists intent, normalizeIntent rawIntent = Ok intent.
Proof.
  intros Hnull Hplain.
  destruct (toString_or_else rawIntent "status" "PENDING" Hplain) as [statusText Hs].
  destruct (toString_or_else rawIntent "id" "" Hplain) as [id Hid].
  destruct (toString_or_else rawIntent "name" "" Hplain) as [name Hname].
  destruct (toString_or_else rawIntent "description" "" Hplain) as [description Hd].
  destruct (normalizeStringArray_plain
              (Yaml.nullish (Yaml.prop_opt rawIntent "ownedScope")
                            (Yaml.prop_opt rawIntent "owned_scope")))
    as [ownedScope Hscope]; [intros v; by apply nullish_plain|].
  destruct (normalizeStringArray_plain
              (Yaml.nullish (Yaml.prop_opt rawIntent "acceptanceCriteria")
                            (Yaml.prop_opt rawIntent "acceptance_criteria")))
    as [acceptanceCriteria Hcriteria]; [intros v; by apply nullish_plain|].
  destruct rawIntent; [done|..]; unfold normalizeIntent;
    rewrite Hs; cbn [bindR]; rewrite Hid; cbn [bindR]; rewrite Hname; cbn [bindR];
    rewrite Hd; cbn [bindR]; rewrite Hscope; cbn [bindR]; rewrite Hcriteria; cbn [bindR];
    by eexists.
Qed.

Lemma normalizeIntent_id (rawIntent : YamlValue) (intent : ActiveIntent.t) :
  normalizeIntent rawIntent = Ok intent -> idOfRaw rawIntent = Ok (ActiveIntent.id intent).
Proof.
  intros (_ & _ & Hid & _)%normalizeIntent_Ok. revert Hid.
  unfold idOfRaw, Yaml.or_else.
  destruct (Yaml.prop_opt rawIntent "id") as [v|]; [|done].
  by destruct (Yaml.truthy (Some v)).
Qed.

End Normalisation.

(** ** Loading and caching the definitions *)

Section Loading.
Context `{Externals}.
Import IntentManager.

Lemma loadIntents_warm (s : ManagerState) (cached : list ActiveIntent.t) :
  intentsCache (manager s) = Some cached -> loadIntents s = (Ok cached, s).
Proof. intros Hc. unfold loadIntents, bind, gets, ret. by rewrite Hc. Qed.

(** What a load that starts without a cache and returns has done. *)
Lemma loadIntents_cold (s s' : ManagerState) (intents : list ActiveIntent.t) :
  intentsCache (manager s) = None ->
  loadIntents s = (Ok intents, s') ->
  intentsCache (manager s') = Some intents
  /\ activeIntentsByTask (manager s') = activeIntentsByTask (manager s)
  /\ fs (world s') = fs (world s)
  /\ exists evs,
      events (world s') = events (world s) ++ evs
      /\ match files (storage (world s)) !! "active_intents.yaml" with
         | None =>
             intents = []
             /\ countEvents isDefinitionRead evs = 0
             /\ countEvents isParse evs = 0
         | Some content =>
             storage (world s') = storage (world s)
             /\ countEvents isDefinitionRead evs = 1
             /\ countEvents isParse evs = 1
             /\ exists parsed,
                 yaml_parse content = Ok parsed
                 /\ match rawIntentsOf parsed with
                    | None => intents = []
                    | Some rawIntents => mapR normalizeIntent rawIntents = Ok intents
                    end
         end.
Proof.
  intros Hc. unfold loadIntents.
  unfold bind at 1. unfold gets at 1. rewrite Hc.
  run_comp.
  destruct (files (storage (world s)) !! "active_intents.yaml") as [content|] eqn:Hf;
    simpl.
  - rewrite Hf.
    destruct (yaml_parse content) as [parsed|e] eqn:Hp; [|discriminate].
    destruct (rawIntentsOf parsed) as [rawIntents|] eqn:Hr.
    + destruct (mapR normalizeIntent rawIntents) as [normalized|e] eqn:Hm;
        [|discriminate].
      intros [= <- <-]. simpl. repeat split.
      eexists. split; [rewrite <- !app_assoc; reflexivity|].
      repeat split. exists parsed. by rewrite Hr.
    + intros [= <- <-]. simpl. repeat split.
      eexists. split; [rewrite <- !app_assoc; reflexivity|].
      repeat split. exists parsed. by rewrite Hr.
  - destruct (readonly (storage (world s))); simpl; intros [= <- <-]; simpl;
      repeat split; eexists; (split; [rewrite <- !app_assoc; reflexivity|]);
      repeat split.
Qed.

Lemma mapR_Forall2 {A B} (f : A -> Result B) (xs : list A) (ys : list B) :
  mapR f xs = Ok ys -> Forall2 (fun x y => f x = Ok y) xs ys.
Proof.
  revert ys. induction xs as [|x xs IH]; intros ys; simpl.
  - intros [= <-]. constructor.
  - destruct (f x) as [y|e] eqn:Hx; [|discriminate].
    destruct (mapR f xs) as [ys'|e]; [|discriminate].
    intros [= <-]. constructor; [exact Hx | by apply IH].
Qed.

Lemma normalisedFrom_ids (rawIntents : list YamlValue) (intents : list ActiveIntent.t) :
  normalisedFrom rawIntents intents ->
  Forall2 (fun rawIntent intent => idOfRaw rawIntent = Ok (ActiveIntent.id intent))
          rawIntents intents.
Proof.
  intros Hn. eapply Forall2_impl; [exact Hn|].
  intros rawIntent intent. apply normalizeIntent_id.
Qed.

(** C5, as the code has it: when the cache, if there is one, holds
    normalised entries, every intent [loadIntents] returns is the
    normalisation of a raw entry and its id is the one [idOfRaw] computes:
    the string the engine converts the entry's [id] to when that is
    truthy, the empty string when it is falsy or the entry has no [id].
    Without a cache the raw entries are those of the parsed definition
    document. *)
Theorem loadIntents_ids (s s' : ManagerState) (intents : list ActiveIntent.t) :
  (forall cached, intentsCache (manager s) = Some cached ->
                  exists rawIntents, normalisedFrom rawIntents cached) ->
  loadIntents s = (Ok intents, s') ->
  (exists rawIntents,
      normalisedFrom rawIntents intents
      /\ Forall2 (fun rawIntent intent => idOfRaw rawIntent = Ok (ActiveIntent.id intent))
                 rawIntents intents)
  /\ (intentsCache (manager s) = None ->
      intents = []
      \/ exists content parsed rawIntents,
           files (storage (world s)) !! "active_intents.yaml" = Some content
           /\ yaml_parse content = Ok parsed
           /\ rawIntentsOf parsed = Some rawIntents
           /\ normalisedFrom rawIntents intents).
Proof.
  intros Hinv Hload.
  destruct (intentsCache (manager s)) as [cached|] eqn:Hc.
  - rewrite (loadIntents_warm s cached Hc) in Hload. injection Hload as <- <-.
    split; [|intros [=]].
    destruct (Hinv cached eq_refl) as [rawIntents Hn].
    exists rawIntents. split; [exact Hn | by apply normalisedFrom_ids].
  - destruct (loadIntents_cold s s' intents Hc Hload) as (_ & _ & _ & evs & _ & Hcase).
    assert (Hnil : exists rawIntents : list YamlValue,
               normalisedFrom rawIntents ([] : list ActiveIntent.t)
               /\ Forall2 (fun rawIntent intent =>
                             idOfRaw rawIntent = Ok (ActiveIntent.id intent))
                          rawIntents ([] : list ActiveIntent.t)).
    { exists []. split; constructor. }
    destruct (files (storage (world s)) !! "active_intents.yaml") as [content|].
    + destruct Hcase as (_ & _ & _ & parsed & Hp & Hraw).
      destruct (rawIntentsOf parsed) as [rawIntents|] eqn:Hr.
      * apply mapR_Forall2 in Hraw. split.
        -- exists rawIntents. split; [exact Hraw | by apply normalisedFrom_ids].
        -- intros _. right. by exists content, parsed, rawIntents.
      * subst intents. split; [exact Hnil | intros _; by left].
    + destruct Hcase as (-> & _). split; [exact Hnil | intros _; by left].
Qed.

Lemma loadIntents_caches (s s1 : ManagerState) (intents : list ActiveIntent.t) :
  loadIntents s = (Ok intents, s1) -> intentsCache (manager s1) = Some intents.
Proof.
  intros Hload. destruct (intentsCache (manager s)) as [cached|] eqn:Hc.
  - rewrite (loadIntents_warm s cached Hc) in Hload.
    by injection Hload as <- <-.
  - by destruct (loadIntents_cold s s1 intents Hc Hload) as (? & _).
Qed.

(** C7: a second [loadIntents] with no [invalidateCache] in between
    returns the same sequence and leaves the state, the record of reads
    and parses included, as the first call left it, whatever happened to
    the storage in the meantime; over both calls the definition resource
    is read and parsed at most once, and exactly once when the first call
    found no cache and the resource exists. *)
Theorem loadIntents_twice (s s1 : ManagerState) (intents : list ActiveIntent.t) :
  loadIntents s = (Ok intents, s1) ->
  loadIntents s1 = (Ok intents, s1)
  /\ (forall w, loadIntents (mkManagerState (manager s1) w)
                = (Ok intents, mkManagerState (manager s1) w))
  /\ exists evs,
       events (world s1) = events (world s) ++ evs
       /\ countEvents isDefinitionRead evs <= 1
       /\ countEvents isParse evs <= 1
       /\ (intentsCache (manager s) = None ->
           is_Some (files (storage (world s)) !! "active_intents.yaml") ->
           countEvents isDefinitionRead evs = 1 /\ countEvents isParse evs = 1).
Proof.
  intros Hload.
  pose proof (loadIntents_caches s s1 intents Hload) as Hcache.
  split; [by apply loadIntents_warm|].
  split; [intros w; by apply loadIntents_warm|].
  destruct (intentsCache (manager s)) as [cached|] eqn:Hc.
  - rewrite (loadIntents_warm s cached Hc) in Hload.
    injection Hload as <- <-. exists [].
    rewrite app_nil_r.
    split; [reflexivity|]. split; [cbn; lia|]. split; [cbn; lia|].
    intros Hnone. discriminate.
  - destruct (loadIntents_cold s s1 intents Hc Hload) as (_ & _ & _ & evs & Hev & Hcase).
    exists evs. split; [exact Hev|].
    destruct (files (storage (world s)) !! "active_intents.yaml") as [content|].
    + destruct Hcase as (_ & Hr & Hp & _). rewrite Hr, Hp.
      split; [lia|]. split; [lia|]. by intros _ _.
    + destruct Hcase as (_ & Hr & Hp). rewrite Hr, Hp.
      split; [lia|]. split; [lia|]. intros _ [? ?]. discriminate.
Qed.

End Loading.

Section CacheInvalidation.
Import IntentManager.

(** C10: [invalidateCache] returns, empties the definition cache and
    changes nothing else: the binding map is the same map, so every task
    id is bound to the intent id it was bound to, and the world is
    untouched. *)
Theorem invalidateCache_keeps_bindings (s : ManagerState) :
  fst (invalidateCache s) = Ok tt
  /\ intentsCache (manager (snd (invalidateCache s))) = None
  /\ activeIntentsByTask (manager (snd (invalidateCache s)))
     = activeIntentsByTask (manager s)
  /\ world (snd (invalidateCache s)) = world s
  /\ forall taskId intentId,
       activeIntentsByTask (manager s) !! taskId = Some intentId ->
       activeIntentsByTask (manager (snd (invalidateCache s))) !! taskId = Some intentId.
Proof. repeat split. intros taskId intentId Hb. exact Hb. Qed.

End CacheInvalidation.

(** ** The normalised entry *)

Section NormalisedEntry.
Context `{JsEngine}.
Import IntentManager.

Lemma toUpperCase_PENDING : toUpperCase "PENDING" = "PENDING".
Proof. by rewrite toUpperCase_ascii. Qed.

Lemma normalizeIntent_status_default (rawIntent : YamlValue) (intent : ActiveIntent.t) :
  normalizeIntent rawIntent = Ok intent ->
  Yaml.prop_opt rawIntent "status" = None
  \/ (exists s, Yaml.prop_opt rawIntent "status" = Some (YStr s) /\ ~ recognizedStatus s) ->
  ActiveIntent.status intent = PENDING.
Proof.
  intros (_ & (statusText & Htext & ->) & _)%normalizeIntent_Ok Hs.
  revert Htext. unfold Yaml.or_else.
  destruct Hs as [-> | (s & -> & Hs)].
  - intros [= <-]. by rewrite toUpperCase_PENDING.
  - destruct s as [|c s]; cbn [Yaml.truthy Js.nonempty Yaml.toString]; intros [= <-].
    + by rewrite toUpperCase_PENDING.
    + by apply statusOfString_unrecognized.
Qed.

(** C6: a raw entry that is not [null] and has no mapping with a key
    [toString] normalises; and whenever an entry normalises, [ownedScope],
    [constraints] and [acceptanceCriteria] of the result are lists whose
    every element is a trimmed, non-empty string, and an entry without
    [status], or with a status string whose upper case is none of the
    five names, gets status [PENDING]. *)
Theorem normalizeIntent_invariant (rawIntent : YamlValue) :
  (rawIntent <> YNull -> plainValue rawIntent = true ->
   exists intent, normalizeIntent rawIntent = Ok intent)
  /\ forall intent,
       normalizeIntent rawIntent = Ok intent ->
       Forall isTrimmedNonEmpty (ActiveIntent.ownedScope intent)
       /\ Forall isTrimmedNonEmpty (ActiveIntent.constraints intent)
       /\ Forall isTrimmedNonEmpty (ActiveIntent.acceptanceCriteria intent)
       /\ (Yaml.prop_opt rawIntent "status" = None
           \/ (exists s, Yaml.prop_opt rawIntent "status" = Some (YStr s)
                         /\ ~ recognizedStatus s) ->
           ActiveIntent.status intent = PENDING).
Proof.
  split; [apply normalizeIntent_total|].
  intros intent Hn.
  destruct (normalizeIntent_Ok rawIntent intent Hn)
    as (_ & _ & _ & _ & _ & Hscope & Hconstraints & Hcriteria).
  split; [by apply normalizeStringArray_trimmed in Hscope|].
  split; [rewrite Hconstraints; apply normalizeConstraints_trimmed|].
  split; [by apply normalizeStringArray_trimmed in Hcriteria|].
  by apply normalizeIntent_status_default.
Qed.

End NormalisedEntry.

Section NormalisedEntryScenarios.
Import IntentManager.

(** The entry of the fixtures that has no [id] and an unknown status. *)
Lemma normalizeIntent_invariant_witness :
  exists intent,
    normalizeIntent (H := Fixtures.engine)
      (YMap [("name", YStr "Untitled"); ("status", YStr "archived")]) = Ok intent
    /\ ActiveIntent.ownedScope intent = []
    /\ ActiveIntent.status intent = PENDING.
Proof.
  destruct (normalizeIntent_invariant (H := Fixtures.engine)
              (YMap [("name", YStr "Untitled"); ("status", YStr "archived")]))
    as [Htotal Hinv].
  destruct Htotal as [intent Hn]; [discriminate | reflexivity |].
  destruct (Hinv intent Hn) as (_ & _ & _ & Hs).
  exists intent. split; [exact Hn|].
  split; [by injection Hn as <-|].
  apply Hs. right. exists "archived". split; [reflexivity|].
  unfold recognizedStatus.
  apply (proj1 (bool_decide_eq_false _)). vm_compute. reflexivity.
Defined.

(** White space beyond ASCII is trimmed like the rest: a no-break space,
    a byte order mark and a tab before, an ideographic space, an em space
    and a space after. *)
Example trim_unicode_white_space :
  Js.trim (Js.fromCodePoints [0xA0; 0xFEFF; 0x9]%N +:+ "a b"
           +:+ Js.fromCodePoints [0x3000; 0x2003; 0x20]%N)
  = "a b".
Proof. vm_compute. reflexivity. Qed.

(** An entry of a scope list that is a lone no-break space is dropped. *)
Example normalizeStringArray_drops_white_entry :
  normalizeStringArray (H := Fixtures.engine)
    (Some (YSeq [YStr (Js.fromCodePoints [0xA0]%N); YStr " src/** "]))
  = Ok ["src/**"].
Proof. vm_compute. reflexivity. Qed.

(** An entry whose [id] is a mapping with a key [toString] cannot be
    converted, and does not normalise. *)
Example normalizeIntent_unconvertible_id :
  normalizeIntent (H := Fixtures.engine)
    (YMap [("id", YMap [("toString", YStr "x")]); ("name", YStr "Untitled")])
  = Throw "Cannot convert object to primitive value".
Proof. vm_compute. reflexivity. Qed.

(** A number as [id] gives the text the engine prints for it. *)
Lemma normalizeIntent_number_id `{JsEngine} (fields : list (string * YamlValue))
    (x : float) (intent : ActiveIntent.t) :
  Yaml.assoc "id" fields = Some (YNum x) ->
  Yaml.truthy (Some (YNum x)) = true ->
  normalizeIntent (YMap fields) = Ok intent ->
  ActiveIntent.id intent = numberToString x.
Proof.
  intros Hid Htruthy Hid'%normalizeIntent_id. revert Hid'.
  unfold idOfRaw. cbn [Yaml.prop_opt]. rewrite Hid, Htruthy.
  cbn [Yaml.toString]. congruence.
Qed.

(** The status follows the upper case of the engine, whatever the
    letters of the text are. *)
Lemma normalizeIntent_status_by_engine `{JsEngine} (text : string) :
  toUpperCase text = "IN_PROGRESS" ->
  exists intent,
    normalizeIntent (YMap [("status", YStr text)]) = Ok intent
    /\ ActiveIntent.status intent = IN_PROGRESS.
Proof.
  intros Hupper. destruct text as [|c text].
  - rewrite toUpperCase_ascii in Hupper by reflexivity. discriminate.
  - eexists. split; [reflexivity|]. cbn. by rewrite Hupper.
Qed.

(** The snake-case entry with structured constraints. *)
Example normalizeIntent_int001 :
  mapR (normalizeIntent (H := Fixtures.engine))
       (default [] (rawIntentsOf Fixtures.int001Parsed))
  = Ok [ {| ActiveIntent.id := "INT-001";
            ActiveIntent.name := "JWT Authentication Migration";
            ActiveIntent.description := "";
            ActiveIntent.status := IN_PROGRESS;
            ActiveIntent.ownedScope := ["src/auth/**"; "!src/auth/legacy/**"];
            ActiveIntent.constraints :=
              [ "Must not use external auth providers";
                "Token validation must complete within 50ms";
                Yaml.stringify (H := Fixtures.engine) (YMap [("kind", YStr "note")]) ];
            ActiveIntent.acceptanceCriteria := ["Integration tests pass"];
            ActiveIntent.metadata := YMap [] |} ].
Proof. vm_compute. reflexivity. Qed.

End NormalisedEntryScenarios.

Section Ids.
Import IntentManager.

Lemma idOfRaw_string `{JsEngine} (fields : list (string * YamlValue)) (s : string) :
  Yaml.assoc "id" fields = Some (YStr s) -> idOfRaw (YMap fields) = Ok s.
Proof.
  intros Hid. unfold idOfRaw. cbn [Yaml.prop_opt]. rewrite Hid.
  by destruct s.
Qed.

Lemma idOfRaw_missing `{JsEngine} (rawIntent : YamlValue) :
  Yaml.prop_opt rawIntent "id" = None -> idOfRaw rawIntent = Ok EmptyString.
Proof. intros Hid. unfold idOfRaw. by rewrite Hid. Qed.

(** C5 fails on the code: the definition document of the fixtures whose
    only entry has no [id] loads, and the intent it gives has the empty
    id. *)
Lemma loadIntents_empty_id :
  fst (loadIntents (H := Fixtures.externals) (Fixtures.managerOn Fixtures.noIdYaml))
  = Ok [ {| ActiveIntent.id := "";
            ActiveIntent.name := "Untitled";
            ActiveIntent.description := "";
            ActiveIntent.status := PENDING;
            ActiveIntent.ownedScope := [];
            ActiveIntent.constraints := [];
            ActiveIntent.acceptanceCriteria := [];
            ActiveIntent.metadata := YMap [] |} ].
Proof. vm_compute. reflexivity. Qed.

Lemma loadIntents_ids_witness :
  let s := Fixtures.managerOn Fixtures.noIdYaml in
  let r := loadIntents (H := Fixtures.externals) s in
  exists intents rawIntents,
    fst r = Ok intents
    /\ normalisedFrom (H := Fixtures.engine) rawIntents intents
    /\ Forall2 (fun rawIntent intent =>
                  idOfRaw (H := Fixtures.engine) rawIntent = Ok (ActiveIntent.id intent))
               rawIntents intents.
Proof.
  intros s r.
  assert (Hok : exists intents, r = (Ok intents, snd r)).
  { eexists. vm_compute. reflexivity. }
  destruct Hok as [intents Hr].
  destruct (loadIntents_ids (H := Fixtures.externals) s (snd r) intents)
    as [(rawIntents & Hn & Hids) _].
  - intros cached [=].
  - exact Hr.
  - exists intents, rawIntents. split_and!; try done. by rewrite Hr.
Defined.

Lemma loadIntents_twice_witness :
  let s := Fixtures.managerOn Fixtures.intTestYaml in
  let r := loadIntents (H := Fixtures.externals) s in
  loadIntents (H := Fixtures.externals) (snd r) = r
  /\ exists intent, fst r = Ok [intent] /\ ActiveIntent.id intent = "INT-TEST".
Proof.
  intros s r.
  assert (Hok : exists intent,
             r = (Ok [intent], snd r) /\ ActiveIntent.id intent = "INT-TEST").
  { eexists. split; vm_compute; reflexivity. }
  destruct Hok as (intent & Hr & Hid).
  split.
  - rewrite Hr at 2.
    apply (loadIntents_twice (H := Fixtures.externals) s (snd r) [intent] Hr).
  - exists intent. split; [by rewrite Hr | exact Hid].
Defined.

End Ids.


(** ** The pre-execution gate *)

Section Gate.
Context `{Externals}.
Import ToolExecutionContext PreToolHook.

Lemma run_nondestructive (context : ToolExecutionContext.t) (h : HookState) :
  toolName context ∉ DESTRUCTIVE_TOOLS -> run context h = (Ok allow, h).
Proof. intros Hnd. unfold run. by rewrite bool_decide_false. Qed.

(** On a destructive tool [run] resolves the intent and decides on it;
    an exception of the resolution is the exception of [run]. *)
Lemma run_destructive (context : ToolExecutionContext.t) (h : HookState) :
  toolName context ∈ DESTRUCTIVE_TOOLS ->
  run context h
  = match with_manager (resolveActiveIntent context) h with
    | (Ok activeIntent, h') => (Ok (decide_with context activeIntent), h')
    | (Throw message, h') => (Throw message, h')
    end.
Proof.
  intros Hd. unfold run. rewrite bool_decide_true by exact Hd. simpl.
  unfold bind, ret. by destruct (with_manager (resolveActiveIntent context) h) as [[?|?] ?].
Qed.

Lemma validatePaths_allow (intent : ActiveIntent.t) (paths : list string) :
  Forall (inScope intent) paths -> validatePaths intent paths = allow.
Proof.
  induction 1 as [|p paths Hp _ IH]; simpl; [reflexivity|].
  unfold inScope in Hp. by rewrite Hp.
Qed.

(** The loop stops at the first path that is out of scope and names it. *)
Lemma validatePaths_deny (intent : ActiveIntent.t) (paths : list string) :
  Exists (outOfScope intent) paths ->
  exists before offending after,
    paths = before ++ offending :: after
    /\ Forall (inScope intent) before
    /\ outOfScope intent offending
    /\ validatePaths intent paths = deny (scopeViolationMessage intent offending).
Proof.
  induction paths as [|p paths IH]; intros Hex; [by apply Exists_nil in Hex|].
  simpl. destruct (validatePath p (ActiveIntent.ownedScope intent)) eqn:Hp.
  - apply Exists_cons in Hex as [Hout | Hex].
    { unfold outOfScope in Hout. congruence. }
    destruct (IH Hex) as (before & offending & after & -> & Hb & Ho & Hv).
    exists (p :: before), offending, after. repeat split; try done.
    by constructor.
  - exists [], p, paths. repeat split; try done.
Qed.

Lemma scopeViolationMessage_names (intent : ActiveIntent.t) (filePath : string) :
  Js.startsWith (scopeViolationMessage intent filePath) "Scope Violation" = true
  /\ Js.includes (scopeViolationMessage intent filePath) filePath = true.
Proof.
  split; [reflexivity|]. unfold scopeViolationMessage.
  do 5 apply includes_suffix. apply (includes_append "" filePath).
Qed.

Lemma hunkPaths_covers (hunks : list Hunk.t) (hunk : Hunk.t) :
  hunk ∈ hunks ->
  Hunk.path hunk ∈ hunkPaths hunks
  /\ forall destination,
       Hunk.type hunk = UpdateFile ->
       Hunk.movePath hunk = Some destination ->
       destination <> "" ->
       destination ∈ hunkPaths hunks.
Proof.
  induction hunks as [|first rest IH]; intros Hin; [by apply elem_of_nil in Hin|].
  apply elem_of_cons in Hin as [-> | Hin]; cbn [hunkPaths].
  - split; [apply elem_of_cons; by left|].
    intros destination Ht Hm Hne. rewrite Ht, Hm.
    apply nonempty_true in Hne. cbn [str_truthy]. rewrite Hne.
    apply elem_of_cons; right. apply elem_of_app; left.
    apply elem_of_cons; by left.
  - destruct (IH Hin) as [Hp Hd].
    split.
    + apply elem_of_cons; right. apply elem_of_app; by right.
    + intros destination Ht Hm Hne.
      apply elem_of_cons; right. apply elem_of_app; right. by apply Hd.
Qed.

Lemma extractPaths_apply_patch (context : ToolExecutionContext.t) :
  toolName context = "apply_patch" ->
  extractPathsForScopeValidation context
  = if negb (str_truthy (toolParams context !! "patch")) then Ok []
    else match parsePatch (default "" (toolParams context !! "patch")) with
         | Throw message => Throw message
         | Ok hunks => Ok (hunkPaths hunks)
         end.
Proof.
  intros Htool. unfold extractPathsForScopeValidation. rewrite Htool.
  rewrite decide_False by (intros [?|?]; discriminate).
  rewrite decide_False by (intros [?|[?|[?|?]]]; discriminate).
  by rewrite decide_True.
Qed.

(** An exception of the patch parser is answered with a denial. *)
Lemma run_invalid_payload (context : ToolExecutionContext.t) (h h' : HookState)
    (intent : ActiveIntent.t) (message : string) :
  toolName context ∈ DESTRUCTIVE_TOOLS ->
  toolName context <> "execute_command" ->
  with_manager (resolveActiveIntent context) h = (Ok (Some intent), h') ->
  extractPathsForScopeValidation context = Throw message ->
  run context h = (Ok (deny (invalidPayloadMessage context message)), h').
Proof.
  intros Hd Hcmd Hres Hex. rewrite run_destructive by exact Hd. rewrite Hres.
  unfold decide_with. rewrite decide_False by exact Hcmd. by rewrite Hex.
Qed.

(** C1: on a destructive tool other than [execute_command], with an
    active intent resolved and the target paths extracted: if some path
    is out of the intent's owned scope, [run] denies with the Scope
    Violation message that names the first such path (every path before
    it is in scope); if every path is in scope, [run] allows. The paths
    of a patch are the path of each hunk and the move destination of each
    update hunk. *)
Theorem scope_gate (context : ToolExecutionContext.t) (h h' : HookState)
    (intent : ActiveIntent.t) (paths : list string) :
  toolName context ∈ DESTRUCTIVE_TOOLS ->
  toolName context <> "execute_command" ->
  with_manager (resolveActiveIntent context) h = (Ok (Some intent), h') ->
  extractPathsForScopeValidation context = Ok paths ->
  (Exists (outOfScope intent) paths ->
   exists before offending after,
     paths = before ++ offending :: after
     /\ Forall (inScope intent) before
     /\ outOfScope intent offending
     /\ run context h = (Ok (deny (scopeViolationMessage intent offending)), h')
     /\ Js.startsWith (scopeViolationMessage intent offending) "Scope Violation" = true
     /\ Js.includes (scopeViolationMessage intent offending) offending = true)
  /\ (Forall (inScope intent) paths -> run context h = (Ok allow, h'))
  /\ (forall patch hunks hunk,
        toolName context = "apply_patch" ->
        toolParams context !! "patch" = Some patch ->
        patch <> "" ->
        parsePatch patch = Ok hunks ->
        hunk ∈ hunks ->
        Hunk.path hunk ∈ paths
        /\ forall destination,
             Hunk.type hunk = UpdateFile ->
             Hunk.movePath hunk = Some destination ->
             destination <> "" ->
             destination ∈ paths).
Proof.
  intros Hd Hcmd Hres Hex.
  assert (Hrun : run context h = (Ok (validatePaths intent paths), h')).
  { rewrite run_destructive by exact Hd. rewrite Hres.
    unfold decide_with. rewrite decide_False by exact Hcmd. by rewrite Hex. }
  split; [|split].
  - intros Hout.
    destruct (validatePaths_deny intent paths Hout)
      as (before & offending & after & Hp & Hb & Ho & Hv).
    exists before, offending, after.
    destruct (scopeViolationMessage_names intent offending) as [Hs Hi].
    repeat split; try done. by rewrite Hrun, Hv.
  - intros Hall. by rewrite Hrun, (validatePaths_allow intent paths Hall).
  - intros patch hunks hunk Htool Hpatch Hne Hparse Hin.
    rewrite (extractPaths_apply_patch context Htool), Hpatch in Hex.
    simpl in Hex. apply nonempty_true in Hne. rewrite Hne, Hparse in Hex. simpl in Hex.
    injection Hex as <-. by apply hunkPaths_covers.
Qed.

(** C2: [execute_command] with an active intent resolved is denied,
    whatever its parameters. *)
Theorem execute_command_denied (context : ToolExecutionContext.t) (h h' : HookState)
    (intent : ActiveIntent.t) :
  toolName context = "execute_command" ->
  with_manager (resolveActiveIntent context) h = (Ok (Some intent), h') ->
  run context h = (Ok (deny (commandMessage intent)), h')
  /\ PreHookResult.allowed (deny (commandMessage intent)) = false.
Proof.
  intros Htool Hres. split; [|reflexivity].
  rewrite run_destructive by (rewrite Htool; unfold DESTRUCTIVE_TOOLS; set_solver).
  rewrite Hres. unfold decide_with. by rewrite decide_True.
Qed.

(** C3: a destructive tool for which the resolution (the id of the
    context, then the binding of the task) finds no intent is denied with
    the no-active-intent message; a tool that is not destructive is
    allowed in every state, and the state is not touched. *)
Theorem no_active_intent_gate (context : ToolExecutionContext.t) (h : HookState) :
  (toolName context ∈ DESTRUCTIVE_TOOLS ->
   forall h',
     with_manager (resolveActiveIntent context) h = (Ok None, h') ->
     run context h = (Ok (deny (noActiveIntentMessage context)), h')
     /\ PreHookResult.allowed (deny (noActiveIntentMessage context)) = false
     /\ Js.startsWith (noActiveIntentMessage context) "No active intent selected" = true)
  /\ (toolName context ∉ DESTRUCTIVE_TOOLS ->
      run context h = (Ok allow, h) /\ PreHookResult.allowed allow = true).
Proof.
  split.
  - intros Hd h' Hres. repeat split.
    rewrite run_destructive by exact Hd. by rewrite Hres.
  - intros Hnd. split; [by apply run_nondestructive | reflexivity].
Qed.

(** C4: on a destructive tool other than [execute_command] with an
    active intent resolved, no extracted path means the tool is allowed,
    whatever the scope validator would answer; a call of [write_to_file],
    [apply_diff], [edit], [search_and_replace], [search_replace] or
    [edit_file] with neither [path] nor [file_path], and a call of
    [apply_patch] without [patch], extract no path. *)
Theorem no_paths_allowed (context : ToolExecutionContext.t) (h h' : HookState)
    (intent : ActiveIntent.t) :
  toolName context ∈ DESTRUCTIVE_TOOLS ->
  toolName context <> "execute_command" ->
  with_manager (resolveActiveIntent context) h = (Ok (Some intent), h') ->
  (extractPathsForScopeValidation context = Ok [] ->
   run context h = (Ok allow, h'))
  /\ (toolName context <> "apply_patch" ->
      toolParams context !! "path" = None ->
      toolParams context !! "file_path" = None ->
      extractPathsForScopeValidation context = Ok [])
  /\ (toolName context = "apply_patch" ->
      toolParams context !! "patch" = None ->
      extractPathsForScopeValidation context = Ok []).
Proof.
  intros Hd Hcmd Hres. split; [|split].
  - intros Hex. rewrite run_destructive by exact Hd. rewrite Hres.
    unfold decide_with. rewrite decide_False by exact Hcmd. by rewrite Hex.
  - intros Hpatch Hp Hf. unfold extractPathsForScopeValidation.
    rewrite Hp, Hf. repeat case_decide; try reflexivity. done.
  - intros Htool Hp. by rewrite (extractPaths_apply_patch context Htool), Hp.
Qed.

End Gate.

(** ** The gate on the scenarios of the test suite *)

Section GateScenarios.
Import ToolExecutionContext PreToolHook.

Lemma scope_gate_witness :
  let context := Fixtures.call "apply_patch" {[ "patch" := Fixtures.twoFilePatch ]} in
  let h := Fixtures.hookOn Fixtures.intTestYaml "INT-TEST" in
  exists offending,
    fst (run (H := Fixtures.externals) context h)
    = Ok (deny (scopeViolationMessage Fixtures.intTestIntent offending))
    /\ outOfScope (H := Fixtures.externals) Fixtures.intTestIntent offending.
Proof.
  intros context h.
  destruct (scope_gate (H := Fixtures.externals) context h
              (snd (with_manager (resolveActiveIntent (H := Fixtures.externals) context) h))
              Fixtures.intTestIntent
              ["src/hooks/ScopeValidator.ts"; "packages/types/src/new-file.ts"])
    as (Hdeny & _ & _).
  - apply (bool_decide_unpack _). vm_compute. exact I.
  - intros [=].
  - vm_compute. reflexivity.
  - vm_compute. reflexivity.
  - destruct Hdeny as (before & offending & after & _ & _ & Ho & Hrun & _).
    + apply Exists_cons_tl, Exists_cons_hd. vm_compute. reflexivity.
    + exists offending. split; [by rewrite Hrun | exact Ho].
Defined.

(** The patch with one target in scope and one out of scope: the message
    names the one that is out of scope and not the other. *)
Example two_file_patch_names_offender :
  match fst (run (H := Fixtures.externals)
               (Fixtures.call "apply_patch" {[ "patch" := Fixtures.twoFilePatch ]})
               (Fixtures.hookOn Fixtures.intTestYaml "INT-TEST")) with
  | Ok result =>
      PreHookResult.allowed result = false
      /\ PreHookResult.error result
         = Some (scopeViolationMessage Fixtures.intTestIntent
                   "packages/types/src/new-file.ts")
      /\ Js.includes (default "" (PreHookResult.error result))
                     "src/hooks/ScopeValidator.ts" = false
  | Throw _ => False
  end.
Proof. vm_compute. repeat split. Qed.

(** The move whose source is in scope and whose destination is not. *)
Example move_patch_names_destination :
  fst (run (H := Fixtures.externals)
         (Fixtures.call "apply_patch" {[ "patch" := Fixtures.movePatch ]})
         (Fixtures.hookOn Fixtures.intTestYaml "INT-TEST"))
  = Ok (deny (scopeViolationMessage Fixtures.intTestIntent
                "packages/types/src/ScopeValidator.ts")).
Proof. vm_compute. reflexivity. Qed.

(** A patch that the parser refuses. *)
Example malformed_patch_denied :
  fst (run (H := Fixtures.externals)
         (Fixtures.call "apply_patch" {[ "patch" := "--- a/src/hooks/a.ts" ]})
         (Fixtures.hookOn Fixtures.intTestYaml "INT-TEST"))
  = Ok (deny ("Invalid apply_patch payload for intent scope validation: "
              +:+ "Invalid patch: The first line of the patch must be '*** Begin Patch'")).
Proof. vm_compute. reflexivity. Qed.

(** The end-to-end scenario: [INT-001] owns [src/auth/**] without
    [src/auth/legacy/**]. *)
Example end_to_end_scenario :
  let h := Fixtures.hookOn Fixtures.int001Yaml "INT-001" in
  fst (run (H := Fixtures.externals)
         (Fixtures.call "write_to_file" {[ "path" := "src/auth/jwt.ts" ]}) h)
  = Ok allow
  /\ match fst (run (H := Fixtures.externals)
                  (Fixtures.call "write_to_file" {[ "path" := "src/auth/legacy/old.ts" ]})
                  h) with
     | Ok result =>
         PreHookResult.allowed result = false
         /\ Js.startsWith (default "" (PreHookResult.error result)) "Scope Violation" = true
         /\ Js.includes (default "" (PreHookResult.error result)) "INT-001" = true
         /\ Js.includes (default "" (PreHookResult.error result))
                        "src/auth/legacy/old.ts" = true
     | Throw _ => False
     end.
Proof. vm_compute. repeat split. Qed.

Lemma execute_command_denied_witness :
  let context := Fixtures.call "execute_command" {[ "command" := "echo hi > README.md" ]} in
  let h := Fixtures.hookOn Fixtures.intTestYaml "INT-TEST" in
  fst (run (H := Fixtures.externals) context h)
  = Ok (deny (commandMessage Fixtures.intTestIntent)).
Proof.
  intros context h.
  destruct (execute_command_denied (H := Fixtures.externals) context h
              (snd (with_manager (resolveActiveIntent (H := Fixtures.externals) context) h))
              Fixtures.intTestIntent) as [Hrun _].
  - reflexivity.
  - vm_compute. reflexivity.
  - by rewrite Hrun.
Defined.

Lemma no_active_intent_gate_witness :
  let context := Fixtures.call "apply_diff" {[ "path" := "src/hooks/ScopeValidator.ts" ]} in
  let h := Fixtures.hookOn Fixtures.intTestYaml "INT-GONE" in
  fst (run (H := Fixtures.externals) context h)
  = Ok (deny (noActiveIntentMessage context))
  /\ run (H := Fixtures.externals)
         (Fixtures.call "read_file" {[ "path" := "src/index.ts" ]}) h
     = (Ok allow, h).
Proof.
  intros context h. split.
  - destruct (proj1 (no_active_intent_gate (H := Fixtures.externals) context h))
      with (h' := snd (with_manager
                         (resolveActiveIntent (H := Fixtures.externals) context) h))
      as [Hrun _].
    + apply (bool_decide_unpack _). vm_compute. exact I.
    + vm_compute. reflexivity.
    + by rewrite Hrun.
  - apply (proj2 (no_active_intent_gate (H := Fixtures.externals)
                    (Fixtures.call "read_file" {[ "path" := "src/index.ts" ]}) h)).
    apply (proj1 (bool_decide_eq_false _)). vm_compute. reflexivity.
Defined.

(** A [write_to_file] without a path passes a validator that would
    reject every path. *)
Lemma no_paths_allowed_witness :
  let context := Fixtures.call "write_to_file" {[ "content" := "export {}" ]} in
  let h := Fixtures.hookOn Fixtures.intTestYaml "INT-TEST" in
  fst (run (H := Fixtures.rejectAll) context h) = Ok allow.
Proof.
  intros context h.
  destruct (no_paths_allowed (H := Fixtures.rejectAll) context h
              (snd (with_manager (resolveActiveIntent (H := Fixtures.rejectAll) context) h))
              Fixtures.intTestIntent) as (Hrun & Hnone & _).
  - apply (bool_decide_unpack _). vm_compute. exact I.
  - intros [=].
  - vm_compute. reflexivity.
  - rewrite Hrun; [reflexivity|].
    apply Hnone; [intros [=] | vm_compute; reflexivity | vm_compute; reflexivity].
Defined.

(** The scope matcher on the examples of the design document. *)
Example scope_matcher_examples :
  let patterns := ["src/**"; "!src/auth/legacy/**"] in
  ScopeMatcher.validatePath "src/auth/middleware.ts" patterns = true
  /\ ScopeMatcher.validatePath "src/auth/legacy/old.ts" patterns = false
  /\ ScopeMatcher.validatePath "docs/readme.md" patterns = false
  /\ ScopeMatcher.validatePath "src/auth/middleware.ts" [] = false.
Proof. vm_compute. repeat split. Qed.

End GateScenarios.

(** ** The post-execution audit *)

Section Audit.
Context `{Externals}.
Import ToolExecutionContext TracePostHook.

Lemma computeContentHash_run (absolutePath : string) (w : World) :
  computeContentHash absolutePath w
  = (Ok (match fs w !! absolutePath with
         | Some contents => sha256_hex contents
         | None => ""
         end),
     mkWorld (storage w) (fs w) (clock w) (events w ++ [EvFsReadFile absolutePath])).
Proof.
  unfold computeContentHash, fs_readFile. run_comp.
  by destruct (fs w !! absolutePath).
Qed.

(** One round of the loop on a storage that can be written: whether the
    file can be read or not, the entry is built and appended. *)
Lemma traceTarget_run (context : ToolExecutionContext.t) (intent : ActiveIntent.t)
    (target : TraceTarget) (w : World) :
  readonly (storage w) = false ->
  traceTarget context intent target w
  = (Ok (entryAt context intent w target), worldAfterEntry context intent w target).
Proof.
  intros Hw. unfold traceTarget.
  unfold bind at 1. rewrite computeContentHash_run.
  unfold Date_now_iso. run_comp. rewrite Hw.
  unfold worldAfterEntry, entryAt, hashOf, absoluteOf. rewrite Hw.
  by rewrite <- app_assoc.
Qed.

Lemma worldAfterEntry_frame (context : ToolExecutionContext.t) (intent : ActiveIntent.t)
    (target : TraceTarget) (w : World) :
  readonly (storage (worldAfterEntry context intent w target)) = readonly (storage w)
  /\ fs (worldAfterEntry context intent w target) = fs w.
Proof. split; reflexivity. Qed.

Lemma appendEntries_snoc (old : string) (entries : list TraceLogEntry.t)
    (entry : TraceLogEntry.t) :
  appendEntries old (entries ++ [entry])
  = appendEntries old entries +:+ (stringifyEntry entry +:+ IntentManager.nl).
Proof. unfold appendEntries. by rewrite fold_left_app. Qed.

Lemma appendEntries_cons (old : string) (entry : TraceLogEntry.t)
    (entries : list TraceLogEntry.t) :
  appendEntries old (entry :: entries)
  = appendEntries (old +:+ (stringifyEntry entry +:+ IntentManager.nl)) entries.
Proof. reflexivity. Qed.

(** The loop on a storage that can be written: one entry per target, in
    order, each appended to the trace file; the last one is returned. *)
Lemma traceTargets_run (context : ToolExecutionContext.t) (intent : ActiveIntent.t)
    (targets : list TraceTarget) :
  forall (w : World) (lastEntry : option TraceLogEntry.t),
    readonly (storage w) = false ->
    exists entries w',
      traceTargets context intent targets lastEntry w
      = (Ok (from_option Some lastEntry (last entries)), w')
      /\ Forall2 (recordsTarget context intent (fs w)) targets entries
      /\ fs w' = fs w
      /\ readonly (storage w') = false
      /\ (targets <> [] ->
          files (storage w') !! traceFile
          = Some (appendEntries (default "" (files (storage w) !! traceFile)) entries))
      /\ exists evs,
          events w' = events w ++ evs
          /\ countEvents isAppend evs = length targets.
Proof.
  induction targets as [|target rest IH]; intros w lastEntry Hw.
  - exists [], w. simpl. unfold ret. split_and!; try done.
    exists []. by rewrite app_nil_r.
  - cbn [traceTargets]. unfold bind. rewrite traceTarget_run by exact Hw.
    destruct (worldAfterEntry_frame context intent target w) as [Hro Hfs].
    destruct (IH (worldAfterEntry context intent w target)
                 (Some (entryAt context intent w target)))
      as (entries & w' & Hrun & Hrec & Hfs' & Hro' & Hfile & evs & Hev & Hcount).
    { by rewrite Hro. }
    exists (entryAt context intent w target :: entries), w'.
    split; [|split; [|split; [|split; [|split]]]].
    + rewrite Hrun. f_equal. f_equal.
      destruct entries as [|e entries] using rev_ind; [reflexivity|].
      by rewrite app_comm_cons, !last_snoc.
    + constructor; [by split_and! | by rewrite <- Hfs].
    + by rewrite Hfs'.
    + exact Hro'.
    + intros _. rewrite appendEntries_cons.
      destruct rest as [|next rest].
      * inversion Hrec; subst. simpl in Hrun. unfold ret in Hrun.
        injection Hrun as <-. simpl. by rewrite lookup_insert_eq.
      * rewrite Hfile by done. simpl. by rewrite lookup_insert_eq.
    + exists ([EvFsReadFile (absoluteOf context target); EvAppendFile traceFile] ++ evs).
      split.
      * rewrite Hev. simpl. by rewrite <- app_assoc.
      * unfold countEvents in *. simpl. by rewrite Hcount.
Qed.

Lemma run_destructive_post {R} (context : ToolExecutionContext.t) (result : R)
    (h h1 : HookState) (intent : ActiveIntent.t) (targets : list TraceTarget) :
  toolName context ∈ DESTRUCTIVE_TOOLS ->
  with_manager (getActiveIntent context) h = (Ok (Some intent), h1) ->
  extractTraceTargets context = Ok targets ->
  run context result h
  = match targets with
    | [] => (Ok success_only, h1)
    | _ :: _ =>
        match traceTargets context intent targets None (hook_world h1) with
        | (Ok lastEntry, w) =>
            (Ok (PostHookResult.mk true lastEntry),
             mkHookState w (globalManager h1) (intentManager h1))
        | (Throw message, w) =>
            (Throw message, mkHookState w (globalManager h1) (intentManager h1))
        end
    end.
Proof.
  intros Hd Hres Hex. unfold run. rewrite bool_decide_true by exact Hd. simpl.
  unfold bind at 1. rewrite Hres. rewrite Hex.
  unfold bind at 1. unfold lift at 1.
  destruct targets as [|target rest]; [reflexivity|].
  unfold bind, in_hook_world, zoom, ret.
  by destruct (traceTargets context intent (target :: rest) None (hook_world h1))
    as [[?|?] ?].
Qed.

(** The audit of a call with an active intent on a storage that can be
    written. *)
Lemma run_traces {R} (context : ToolExecutionContext.t) (result : R)
    (h h1 : HookState) (intent : ActiveIntent.t) (targets : list TraceTarget) :
  toolName context ∈ DESTRUCTIVE_TOOLS ->
  with_manager (getActiveIntent context) h = (Ok (Some intent), h1) ->
  extractTraceTargets context = Ok targets ->
  readonly (storage (hook_world h1)) = false ->
  exists entries h2,
    run context result h = (Ok (PostHookResult.mk true (last entries)), h2)
    /\ Forall2 (recordsTarget context intent (fs (hook_world h1))) targets entries
    /\ (targets <> [] ->
        files (storage (hook_world h2)) !! traceFile
        = Some (appendEntries
                  (default "" (files (storage (hook_world h1)) !! traceFile)) entries))
    /\ exists evs,
        events (hook_world h2) = events (hook_world h1) ++ evs
        /\ countEvents isAppend evs = length targets.
Proof.
  intros Hd Hres Hex Hw.
  rewrite (run_destructive_post context result h h1 intent targets Hd Hres Hex).
  destruct targets as [|target rest].
  - exists [], h1. split_and!; try done.
    exists []. by rewrite app_nil_r.
  - destruct (traceTargets_run context intent (target :: rest) (hook_world h1) None Hw)
      as (entries & w' & Hrun & Hrec & _ & _ & Hfile & evs & Hev & Hcount).
    assert (Hl : from_option Some None (last entries) = last entries)
      by (by destruct (last entries)).
    rewrite Hl in Hrun. rewrite Hrun. eexists entries, _. split; [reflexivity|].
    split; [exact Hrec|]. split; [exact Hfile|]. by exists evs.
Qed.

Lemma extractTraceTargets_write (context : ToolExecutionContext.t) (p : string) :
  toolName context = "write_to_file" ->
  str_or (toolParams context !! "path") (toolParams context !! "file_path") = Some p ->
  p <> "" ->
  extractTraceTargets context = Ok [mkTarget p MODIFY].
Proof.
  intros Htool Hp Hne. unfold extractTraceTargets. rewrite Htool.
  rewrite decide_True by (by left). rewrite Hp. simpl.
  apply nonempty_true in Hne. by rewrite Hne.
Qed.

(** C8: a [write_to_file] that names a path [p] (its [path] parameter,
    or [file_path] when [path] is missing or empty), with an active intent
    resolved and a storage that can be written, appends exactly one entry
    to the trace file and returns it: the entry is for [p], its mutation
    class is [MODIFY], its tool name is [write_to_file]. *)
Theorem write_to_file_traced {R} (context : ToolExecutionContext.t) (result : R)
    (h h1 : HookState) (intent : ActiveIntent.t) (p : string) :
  toolName context = "write_to_file" ->
  str_or (toolParams context !! "path") (toolParams context !! "file_path") = Some p ->
  p <> "" ->
  with_manager (getActiveIntent context) h = (Ok (Some intent), h1) ->
  readonly (storage (hook_world h1)) = false ->
  exists entry h2,
    run context result h = (Ok (PostHookResult.mk true (Some entry)), h2)
    /\ TraceLogEntry.filePath entry = p
    /\ TraceLogEntry.mutationClass entry = MODIFY
    /\ TraceLogEntry.toolName entry = "write_to_file"
    /\ Js.nonempty (TraceLogEntry.toolName entry) = true
    /\ TraceLogEntry.intentId entry = ActiveIntent.id intent
    /\ files (storage (hook_world h2)) !! traceFile
       = Some (default "" (files (storage (hook_world h1)) !! traceFile)
               +:+ (stringifyEntry entry +:+ IntentManager.nl))
    /\ exists evs,
         events (hook_world h2) = events (hook_world h1) ++ evs
         /\ countEvents isAppend evs = 1.
Proof.
  intros Htool Hp Hne Hres Hw.
  pose proof (extractTraceTargets_write context p Htool Hp Hne) as Hex.
  destruct (run_traces context result h h1 intent [mkTarget p MODIFY])
    as (entries & h2 & Hrun & Hrec & Hfile & evs & Hev & Hcount); try done.
  { rewrite Htool. unfold DESTRUCTIVE_TOOLS. set_solver. }
  apply Forall2_cons_inv_l in Hrec as (entry & rest & Hentry & Hrest & ->).
  apply Forall2_nil_inv_l in Hrest as ->.
  destruct Hentry as (Hid & Hpath & Hclass & Hname & _).
  exists entry, h2. split_and!; try done.
  - by rewrite Hname.
  - by rewrite Hname, Htool.
  - by apply Hfile.
  - by exists evs.
Qed.

(** C9: with an active intent resolved and a storage that can be
    written, the audit returns success whatever the workspace files are:
    it appends one entry per target, in order, and the entry of a target
    whose file cannot be read has the empty content hash. *)
Theorem unreadable_target_recorded {R} (context : ToolExecutionContext.t) (result : R)
    (h h1 : HookState) (intent : ActiveIntent.t) (targets : list TraceTarget) :
  toolName context ∈ DESTRUCTIVE_TOOLS ->
  with_manager (getActiveIntent context) h = (Ok (Some intent), h1) ->
  extractTraceTargets context = Ok targets ->
  readonly (storage (hook_world h1)) = false ->
  exists entries h2,
    run context result h = (Ok (PostHookResult.mk true (last entries)), h2)
    /\ Forall2 (fun target entry =>
                  recordsTarget context intent (fs (hook_world h1)) target entry
                  /\ (fs (hook_world h1) !! absoluteOf context target = None ->
                      TraceLogEntry.contentHash entry = ""))
               targets entries
    /\ (targets <> [] ->
        files (storage (hook_world h2)) !! traceFile
        = Some (appendEntries
                  (default "" (files (storage (hook_world h1)) !! traceFile)) entries))
    /\ exists evs,
         events (hook_world h2) = events (hook_world h1) ++ evs
         /\ countEvents isAppend evs = length targets.
Proof.
  intros Hd Hres Hex Hw.
  destruct (run_traces context result h h1 intent targets Hd Hres Hex Hw)
    as (entries & h2 & Hrun & Hrec & Hfile & Hev).
  exists entries, h2. split_and!; try done.
  eapply Forall2_impl; [exact Hrec|].
  intros target entry Hr. split; [exact Hr|].
  intros Hnone. destruct Hr as (_ & _ & _ & _ & ->).
  unfold hashOf. by rewrite Hnone.
Qed.

End Audit.

Section AuditScenarios.
Import ToolExecutionContext TracePostHook.

Lemma write_to_file_traced_witness :
  let context := Fixtures.call "write_to_file" {[ "path" := "src/auth/jwt.ts" ]} in
  let h := Fixtures.hookOn Fixtures.int001Yaml "INT-001" in
  exists entry,
    fst (run (H := Fixtures.externals) context tt h)
    = Ok (PostHookResult.mk true (Some entry))
    /\ TraceLogEntry.filePath entry = "src/auth/jwt.ts"
    /\ TraceLogEntry.mutationClass entry = MODIFY
    /\ TraceLogEntry.intentId entry = "INT-001".
Proof.
  intros context h.
  pose (h1 := snd (with_manager (getActiveIntent (H := Fixtures.externals) context) h)).
  assert (Hres : exists intent,
             with_manager (getActiveIntent (H := Fixtures.externals) context) h
             = (Ok (Some intent), h1)
             /\ ActiveIntent.id intent = "INT-001").
  { eexists. split; vm_compute; reflexivity. }
  destruct Hres as (intent & Hres & Hid).
  destruct (write_to_file_traced (H := Fixtures.externals) context tt h h1 intent
              "src/auth/jwt.ts")
    as (entry & h2 & Hrun & Hpath & Hclass & _ & _ & Hintent & _).
  - reflexivity.
  - vm_compute. reflexivity.
  - intros [=].
  - exact Hres.
  - vm_compute. reflexivity.
  - exists entry.
    split_and!; [rewrite Hrun; reflexivity | exact Hpath | exact Hclass |].
    rewrite Hintent. exact Hid.
Defined.

(** Neither file of the two-file patch is in the workspace: both are
    recorded, with empty hashes. *)
Lemma unreadable_target_recorded_witness :
  let context := Fixtures.call "apply_patch" {[ "patch" := Fixtures.twoFilePatch ]} in
  let h := Fixtures.hookOn Fixtures.intTestYaml "INT-TEST" in
  exists first second,
    fst (run (H := Fixtures.externals) context tt h)
    = Ok (PostHookResult.mk true (Some second))
    /\ TraceLogEntry.filePath first = "src/hooks/ScopeValidator.ts"
    /\ TraceLogEntry.contentHash first = ""
    /\ TraceLogEntry.filePath second = "packages/types/src/new-file.ts"
    /\ TraceLogEntry.contentHash second = "".
Proof.
  intros context h.
  pose (h1 := snd (with_manager (getActiveIntent (H := Fixtures.externals) context) h)).
  destruct (unreadable_target_recorded (H := Fixtures.externals) context tt h h1
              Fixtures.intTestIntent
              [mkTarget "src/hooks/ScopeValidator.ts" MODIFY;
               mkTarget "packages/types/src/new-file.ts" CREATE])
    as (entries & h2 & Hrun & Hrec & _).
  - apply (bool_decide_unpack _). vm_compute. exact I.
  - vm_compute. reflexivity.
  - vm_compute. reflexivity.
  - vm_compute. reflexivity.
  - apply Forall2_cons_inv_l in Hrec as (first & rest & [Hr1 He1] & Hrest & ->).
    apply Forall2_cons_inv_l in Hrest as (second & rest' & [Hr2 He2] & Hrest & ->).
    apply Forall2_nil_inv_l in Hrest as ->.
    exists first, second.
    destruct Hr1 as (_ & Hp1 & _). destruct Hr2 as (_ & Hp2 & _).
    split_and!; [by rewrite Hrun | exact Hp1 | | exact Hp2 | ].
    + apply He1. vm_compute. reflexivity.
    + apply He2. vm_compute. reflexivity.
Defined.

(** The trace file after the audit of the write of the end-to-end
    scenario: one line, with the hash of the file. *)
Example write_to_file_trace_line :
  let context := Fixtures.call "write_to_file" {[ "path" := "src/auth/jwt.ts" ]} in
  let h := Fixtures.hookOn Fixtures.int001Yaml "INT-001" in
  files (storage (hook_world (snd (run (H := Fixtures.externals) context tt h))))
    !! traceFile
  = Some (stringifyEntry
            {| TraceLogEntry.intentId := "INT-001";
               TraceLogEntry.contentHash := Fixtures.sha256_hex "export const sign = () => 1";
               TraceLogEntry.filePath := "src/auth/jwt.ts";
               TraceLogEntry.mutationClass := MODIFY;
               TraceLogEntry.timestamp := Fixtures.toISOString 0;
               TraceLogEntry.toolName := "write_to_file" |}
          +:+ IntentManager.nl).
Proof. vm_compute. reflexivity. Qed.

(** A storage that cannot be written: the append throws and so does the
    audit. *)
Example readonly_storage_audit_throws :
  let context := Fixtures.call "write_to_file" {[ "path" := "src/auth/jwt.ts" ]} in
  let w := Fixtures.worldWith Fixtures.int001Yaml in
  let h := mkHookState
             (mkWorld (mkStorage (files (storage w)) true) (fs w) (clock w) (events w))
             GlobalUnset (mkIntentManager None {[ "t1" := "INT-001" ]}) in
  fst (run (H := Fixtures.externals) context tt h)
  = Throw "EACCES: permission denied, open 'agent_trace.jsonl'".
Proof. vm_compute. reflexivity. Qed.

End AuditScenarios.

(** ** Resolution of the active intent against loaded definitions *)

Section Resolution.
Context `{Externals}.
Import ToolExecutionContext.

Lemma getIntent_loaded (s s1 : ManagerState) (intents : list ActiveIntent.t)
    (intentId : string) :
  IntentManager.loadIntents s = (Ok intents, s1) ->
  IntentManager.getIntent intentId s = (Ok (findIntent intentId intents), s1).
Proof. intros Hload. unfold IntentManager.getIntent, bind. by rewrite Hload. Qed.

Lemma loadIntents_bindings (s s1 : ManagerState) (intents : list ActiveIntent.t) :
  IntentManager.loadIntents s = (Ok intents, s1) ->
  activeIntentsByTask (manager s1) = activeIntentsByTask (manager s).
Proof.
  intros Hload. destruct (intentsCache (manager s)) as [cached|] eqn:Hc.
  - rewrite (loadIntents_warm s cached Hc) in Hload. by injection Hload as _ <-.
  - by destruct (loadIntents_cold s s1 intents Hc Hload) as (_ & ? & _).
Qed.

Lemma getActiveIntent_loaded (s s1 : ManagerState) (intents : list ActiveIntent.t)
    (task : string) :
  IntentManager.loadIntents s = (Ok intents, s1) ->
  fst (IntentManager.getActiveIntent task s)
  = Ok (match activeIntentsByTask (manager s) !! task with
        | Some bound => if Js.nonempty bound then findIntent bound intents else None
        | None => None
        end).
Proof.
  intros Hload. unfold IntentManager.getActiveIntent, bind, gets.
  destruct (activeIntentsByTask (manager s) !! task) as [bound|]; [|reflexivity].
  destruct (Js.nonempty bound); [|reflexivity]. simpl.
  by rewrite (getIntent_loaded s s1 intents bound Hload).
Qed.

(** The stateful resolution computes [resolveIn] on the definitions that
    load. *)
Lemma resolveActiveIntent_loaded (context : ToolExecutionContext.t)
    (s s1 : ManagerState) (intents : list ActiveIntent.t) :
  IntentManager.loadIntents s = (Ok intents, s1) ->
  fst (PreToolHook.resolveActiveIntent context s)
  = Ok (resolveIn intents (activeIntentsByTask (manager s)) context).
Proof.
  intros Hload. unfold PreToolHook.resolveActiveIntent, resolveIn.
  destruct (str_truthy (activeIntentId context)).
  - unfold bind at 1.
    rewrite (getIntent_loaded s s1 intents _ Hload).
    destruct (findIntent _ intents) as [intent|]; [reflexivity|].
    assert (Hagain : IntentManager.loadIntents s1 = (Ok intents, s1))
      by (by apply loadIntents_warm, (loadIntents_caches s)).
    rewrite (getActiveIntent_loaded s1 s1 intents _ Hagain).
    by rewrite (loadIntents_bindings s s1 intents Hload).
  - unfold bind at 1. unfold ret at 1.
    by apply getActiveIntent_loaded with (s1 := s1).
Qed.

(** The audit resolves the active intent the way the gate does. *)
Lemma audit_resolves_like_gate (context : ToolExecutionContext.t) :
  TracePostHook.getActiveIntent context = PreToolHook.resolveActiveIntent context.
Proof. reflexivity. Qed.

Lemma with_manager_fst {A} (m : M ManagerState A) (h : HookState) :
  fst (with_manager m h) = fst (m (chosenManager h)).
Proof.
  unfold with_manager, chosenManager, globalIntentManager.
  destruct (globalManager h) as [| |other]; simpl;
    match goal with |- context [m ?s] => by destruct (m s) end.
Qed.

(** On definitions that load, a destructive tool is denied whenever
    neither the id of the context nor the id bound to the task names a
    loaded intent. *)
Lemma run_denies_unresolved (context : ToolExecutionContext.t) (h : HookState)
    (s1 : ManagerState) (intents : list ActiveIntent.t) :
  toolName context ∈ DESTRUCTIVE_TOOLS ->
  IntentManager.loadIntents (chosenManager h) = (Ok intents, s1) ->
  resolveIn intents (activeIntentsByTask (manager (chosenManager h))) context = None ->
  fst (PreToolHook.run context h)
  = Ok (PreToolHook.deny (PreToolHook.noActiveIntentMessage context)).
Proof.
  intros Hd Hload Hnone. rewrite run_destructive by exact Hd.
  pose proof (with_manager_fst (PreToolHook.resolveActiveIntent context) h) as Hfst.
  rewrite (resolveActiveIntent_loaded context _ s1 intents Hload), Hnone in Hfst.
  destruct (with_manager (PreToolHook.resolveActiveIntent context) h) as [r h'].
  simpl in Hfst. by rewrite Hfst.
Qed.

(** With no id in the context and no binding for the task nothing is
    looked up: the denial does not depend on the definitions. *)
Lemma run_denies_unbound (context : ToolExecutionContext.t) (h : HookState) :
  toolName context ∈ DESTRUCTIVE_TOOLS ->
  str_truthy (activeIntentId context) = false ->
  activeIntentsByTask (manager (chosenManager h)) !! taskId context = None ->
  PreToolHook.run context h
  = (Ok (PreToolHook.deny (PreToolHook.noActiveIntentMessage context)), h).
Proof.
  intros Hd Hid Hb. rewrite run_destructive by exact Hd.
  unfold with_manager, PreToolHook.resolveActiveIntent, IntentManager.getActiveIntent.
  rewrite Hid. unfold chosenManager, globalIntentManager in Hb.
  destruct h as [w [| |other] own]; simpl in *;
    unfold bind, ret, gets; simpl; by rewrite Hb.
Qed.

(** A definition document that does not parse: the lookup throws, and
    the gate throws with it instead of answering. *)
Example run_throws_on_malformed_definitions :
  fst (PreToolHook.run (H := Fixtures.externals)
         (Fixtures.call "write_to_file" {[ "path" := "src/hooks/a.ts" ]})
         (Fixtures.hookOn "intents: [" "INT-TEST"))
  = Throw ("Failed to parse active_intents.yaml: "
           +:+ "Implicit map keys need to be followed by map values").
Proof. vm_compute. reflexivity. Qed.

End Resolution.

(** * Further properties of the code *)

(** ** Loading: failures, the missing resource, the roots *)

Section LoadingMore.
Context `{Externals}.
Import IntentManager.

(** What a load without a cache does when the resource exists. *)
Lemma loadIntents_present (s : ManagerState) (content : string) :
  intentsCache (manager s) = None ->
  files (storage (world s)) !! definitionsFile = Some content ->
  fst (loadIntents s)
  = match yaml_parse content with
    | Throw cause => Throw (parseFailure cause)
    | Ok parsed =>
        match rawIntentsOf parsed with
        | None => Ok []
        | Some rawIntents =>
            match mapR normalizeIntent rawIntents with
            | Ok intents => Ok intents
            | Throw cause => Throw (parseFailure cause)
            end
        end
    end.
Proof.
  intros Hc Hf. unfold definitionsFile in Hf. unfold loadIntents.
  unfold bind at 1. unfold gets at 1. rewrite Hc.
  run_comp. rewrite Hf. simpl. rewrite Hf.
  destruct (yaml_parse content) as [parsed|cause]; [|reflexivity].
  destruct (rawIntentsOf parsed) as [rawIntents|]; [|reflexivity].
  by destruct (mapR normalizeIntent rawIntents).
Qed.

(** What a load that throws has done. *)
Lemma loadIntents_throws (s s' : ManagerState) (message : string) :
  loadIntents s = (Throw message, s') ->
  manager s' = manager s
  /\ intentsCache (manager s) = None
  /\ storage (world s') = storage (world s)
  /\ fs (world s') = fs (world s)
  /\ exists cause, message = parseFailure cause.
Proof.
  destruct (intentsCache (manager s)) as [cached|] eqn:Hc.
  { by rewrite (loadIntents_warm s cached Hc). }
  unfold loadIntents. unfold bind at 1. unfold gets at 1. rewrite Hc.
  run_comp.
  destruct (files (storage (world s)) !! "active_intents.yaml") as [content|] eqn:Hf;
    simpl.
  - rewrite Hf.
    destruct (yaml_parse content) as [parsed|cause].
    + destruct (rawIntentsOf parsed) as [rawIntents|]; [|discriminate].
      destruct (mapR normalizeIntent rawIntents) as [normalized|cause]; [discriminate|].
      intros [= <- <-]. simpl. split_and!; try done. by exists cause.
    + intros [= <- <-]. simpl. split_and!; try done. by exists cause.
  - destruct (readonly (storage (world s))); simpl; discriminate.
Qed.

(** X1: a load that throws always carries the parse-failure message, and
    it leaves the manager as it was: the cache stays empty and the bindings
    are kept; the storage and the workspace are untouched. *)
Theorem loadIntents_failure_keeps_state (s s' : ManagerState) (message : string) :
  loadIntents s = (Throw message, s') ->
  Js.startsWith message "Failed to parse active_intents.yaml: " = true
  /\ intentsCache (manager s') = None
  /\ activeIntentsByTask (manager s') = activeIntentsByTask (manager s)
  /\ storage (world s') = storage (world s)
  /\ fs (world s') = fs (world s).
Proof.
  intros Hload.
  destruct (loadIntents_throws s s' message Hload) as (Hm & Hc & Hst & Hfs & cause & ->).
  rewrite Hm. split_and!; try done. apply startsWith_append.
Qed.

(** X2: one [null] entry makes the whole load fail, whatever the other
    entries are: nothing is cached and no intent is returned. *)
Theorem loadIntents_null_entry_fails (s : ManagerState) (content : string)
    (parsed : YamlValue) (rawIntents : list YamlValue) :
  intentsCache (manager s) = None ->
  files (storage (world s)) !! definitionsFile = Some content ->
  yaml_parse content = Ok parsed ->
  rawIntentsOf parsed = Some rawIntents ->
  YNull ∈ rawIntents ->
  (exists cause, fst (loadIntents s) = Throw (parseFailure cause))
  /\ intentsCache (manager (snd (loadIntents s))) = None.
Proof.
  intros Hc Hf Hp Hr Hin.
  destruct (mapR_Throw normalizeIntent rawIntents) as [cause Hcause].
  { apply Exists_exists. exists YNull. split; [exact Hin | by eexists]. }
  assert (Hfst : fst (loadIntents s) = Throw (parseFailure cause)).
  { by rewrite (loadIntents_present s content Hc Hf), Hp, Hr, Hcause. }
  split; [by eexists|].
  destruct (loadIntents s) as [r s'] eqn:Hload. simpl in *. subst r.
  destruct (loadIntents_throws s s' _ Hload) as (Hm & _). by rewrite Hm.
Qed.

(** X3: without a cache and without the definition resource, the load
    returns the empty sequence and caches it, it never reads or parses, and
    it leaves the default document in a storage that can be written; a
    storage that refuses the write is left as it is and the load still
    returns. *)
Theorem loadIntents_missing_resource (s : ManagerState) :
  intentsCache (manager s) = None ->
  files (storage (world s)) !! definitionsFile = None ->
  fst (loadIntents s) = Ok []
  /\ intentsCache (manager (snd (loadIntents s))) = Some []
  /\ activeIntentsByTask (manager (snd (loadIntents s))) = activeIntentsByTask (manager s)
  /\ files (storage (world (snd (loadIntents s))))
     = (if readonly (storage (world s)) then files (storage (world s))
        else <[definitionsFile := defaultContent]> (files (storage (world s))))
  /\ events (world (snd (loadIntents s)))
     = events (world s) ++ [EvFileExists definitionsFile; EvWriteFile definitionsFile].
Proof.
  intros Hc Hf. unfold definitionsFile in *.
  destruct s as [[cache bindings] [[stored ro] workspace time evs]]. simpl in *.
  subst cache.
  assert (Hload :
    loadIntents (mkManagerState (mkIntentManager None bindings)
                   (mkWorld (mkStorage stored ro) workspace time evs))
    = (Ok [],
       mkManagerState (mkIntentManager (Some []) bindings)
         (mkWorld
            (mkStorage (if ro then stored
                        else <["active_intents.yaml" := defaultContent]> stored) ro)
            workspace time
            (evs ++ [EvFileExists "active_intents.yaml";
                     EvWriteFile "active_intents.yaml"])))).
  { unfold loadIntents. run_comp. rewrite Hf. simpl.
    destruct ro; simpl; by rewrite <- app_assoc. }
  rewrite Hload. simpl. split_and!; done.
Qed.

(** X4: when the parsed document has a sequence under [intents], the
    load normalises those entries, whatever [active_intents] holds; the
    entries under [active_intents] are used only when [intents] is not a
    sequence. *)
Theorem loadIntents_root_precedence (s : ManagerState) (content : string)
    (parsed : YamlValue) (rawIntents : list YamlValue) :
  intentsCache (manager s) = None ->
  files (storage (world s)) !! definitionsFile = Some content ->
  yaml_parse content = Ok parsed ->
  (Yaml.prop_opt parsed "intents" = Some (YSeq rawIntents)
   \/ ((forall items, Yaml.prop_opt parsed "intents" <> Some (YSeq items))
       /\ Yaml.prop_opt parsed "active_intents" = Some (YSeq rawIntents))) ->
  fst (loadIntents s)
  = match mapR normalizeIntent rawIntents with
    | Ok intents => Ok intents
    | Throw cause => Throw (parseFailure cause)
    end.
Proof.
  intros Hc Hf Hp Hroot.
  rewrite (loadIntents_present s content Hc Hf), Hp.
  assert (Hr : rawIntentsOf parsed = Some rawIntents).
  { unfold rawIntentsOf. destruct Hroot as [-> | [Hnot ->]]; [reflexivity|].
    destruct (Yaml.prop_opt parsed "intents") as [[| | | |items|]|]; try reflexivity.
    by destruct (Hnot items). }
  by rewrite Hr.
Qed.

(** X5: a load served from the cache ignores the storage, and after
    [invalidateCache] the next load returns what the storage holds now. *)
Theorem invalidateCache_then_load (s : ManagerState) (content : string)
    (parsed : YamlValue) (rawIntents : list YamlValue) (intents : list ActiveIntent.t) :
  files (storage (world s)) !! definitionsFile = Some content ->
  yaml_parse content = Ok parsed ->
  rawIntentsOf parsed = Some rawIntents ->
  mapR normalizeIntent rawIntents = Ok intents ->
  fst (loadIntents (snd (invalidateCache s))) = Ok intents
  /\ (forall cached, intentsCache (manager s) = Some cached ->
                     fst (loadIntents s) = Ok cached).
Proof.
  intros Hf Hp Hr Hm. split.
  - rewrite (loadIntents_present (snd (invalidateCache s)) content); [|done|exact Hf].
    by rewrite Hp, Hr, Hm.
  - intros cached Hc. by rewrite (loadIntents_warm s cached Hc).
Qed.

End LoadingMore.

(** ** The binding of a task *)

Section Bindings.
Context `{Externals}.
Import IntentManager.

Lemma findIntent_Some (intentId : string) (intents : list ActiveIntent.t)
    (intent : ActiveIntent.t) :
  findIntent intentId intents = Some intent ->
  ActiveIntent.id intent = intentId
  /\ exists before after,
       intents = before ++ intent :: after
       /\ Forall (fun other => ActiveIntent.id other <> intentId) before.
Proof.
  unfold findIntent. induction intents as [|first rest IH]; simpl; [done|].
  destruct (bool_decide (ActiveIntent.id first = intentId)) eqn:Hd.
  - intros [= <-]. apply bool_decide_eq_true in Hd. split; [exact Hd|].
    exists [], rest. split; [reflexivity | constructor].
  - intros Hfind. apply bool_decide_eq_false in Hd.
    destruct (IH Hfind) as (Hid & before & after & -> & Hbefore).
    split; [exact Hid|]. exists (first :: before), after.
    split; [reflexivity | by constructor].
Qed.

Lemma findIntent_None (intentId : string) (intents : list ActiveIntent.t) :
  findIntent intentId intents = None
  <-> Forall (fun intent => ActiveIntent.id intent <> intentId) intents.
Proof.
  unfold findIntent. induction intents as [|first rest IH]; simpl.
  - split; [constructor | done].
  - destruct (bool_decide (ActiveIntent.id first = intentId)) eqn:Hd.
    + apply bool_decide_eq_true in Hd. split; [done|].
      intros Hall. apply Forall_cons in Hall as [Hne _]. done.
    + apply bool_decide_eq_false in Hd. rewrite IH. split.
      * intros Hall. by constructor.
      * intros Hall. by apply Forall_cons in Hall as [_ ?].
Qed.

(** X6: on definitions that load, [getIntent] returns the first intent,
    in document order, whose id is the requested one, and returns nothing
    exactly when no loaded intent has that id. *)
Theorem getIntent_first_match (s s1 : ManagerState) (intents : list ActiveIntent.t)
    (intentId : string) :
  loadIntents s = (Ok intents, s1) ->
  exists found,
    getIntent intentId s = (Ok found, s1)
    /\ (forall intent, found = Some intent ->
          ActiveIntent.id intent = intentId
          /\ exists before after,
               intents = before ++ intent :: after
               /\ Forall (fun other => ActiveIntent.id other <> intentId) before)
    /\ (found = None
        <-> Forall (fun intent => ActiveIntent.id intent <> intentId) intents).
Proof.
  intros Hload. exists (findIntent intentId intents).
  split; [by apply getIntent_loaded|].
  split; [intros intent; apply findIntent_Some | apply findIntent_None].
Qed.

(** The state after a successful activation. *)
Lemma setActiveIntent_found (s s1 : ManagerState) (intents : list ActiveIntent.t)
    (task intentId : string) (intent : ActiveIntent.t) :
  loadIntents s = (Ok intents, s1) ->
  findIntent intentId intents = Some intent ->
  setActiveIntent task intentId s
  = (Ok tt,
     mkManagerState
       (mkIntentManager (Some intents)
          (<[task := intentId]> (activeIntentsByTask (manager s))))
       (world s1)).
Proof.
  intros Hload Hfind. unfold setActiveIntent. unfold bind at 1.
  rewrite (getIntent_loaded s s1 intents intentId Hload), Hfind.
  run_comp.
  by rewrite (loadIntents_caches s s1 intents Hload),
             (loadIntents_bindings s s1 intents Hload).
Qed.

(** X7: activating a loaded intent with a non-empty id binds the task to
    it, replacing the task's earlier binding and keeping the bindings of
    all other tasks; the active intent of the task is then that intent. *)
Theorem setActiveIntent_then_getActiveIntent (s s1 : ManagerState)
    (intents : list ActiveIntent.t) (task intentId : string) (intent : ActiveIntent.t) :
  loadIntents s = (Ok intents, s1) ->
  findIntent intentId intents = Some intent ->
  intentId <> "" ->
  exists s2,
    setActiveIntent task intentId s = (Ok tt, s2)
    /\ activeIntentsByTask (manager s2)
       = <[task := intentId]> (activeIntentsByTask (manager s))
    /\ (forall other, other <> task ->
          activeIntentsByTask (manager s2) !! other
          = activeIntentsByTask (manager s) !! other)
    /\ getActiveIntent task s2 = (Ok (Some intent), s2).
Proof.
  intros Hload Hfind Hne.
  eexists. split; [exact (setActiveIntent_found s s1 intents task intentId intent Hload Hfind)|].
  split; [reflexivity|]. split.
  - intros other Hother. simpl. by rewrite lookup_insert_ne.
  - unfold getActiveIntent, bind, gets. simpl. rewrite lookup_insert_eq.
    apply nonempty_true in Hne. rewrite Hne. simpl.
    erewrite getIntent_loaded; [by rewrite Hfind|].
    by apply loadIntents_warm.
Qed.

(** X8: activating an id that no loaded intent has throws the not-found
    message and changes no binding: a task that was bound stays bound to
    the id it had. *)
Theorem setActiveIntent_unknown (s s1 : ManagerState) (intents : list ActiveIntent.t)
    (task intentId : string) :
  loadIntents s = (Ok intents, s1) ->
  findIntent intentId intents = None ->
  setActiveIntent task intentId s = (Throw ("Intent " +:+ intentId +:+ " not found"), s1)
  /\ activeIntentsByTask (manager s1) = activeIntentsByTask (manager s).
Proof.
  intros Hload Hfind. split; [|by apply (loadIntents_bindings s s1 intents)].
  unfold setActiveIntent. unfold bind at 1.
  by rewrite (getIntent_loaded s s1 intents intentId Hload), Hfind.
Qed.

(** X9: when a loaded intent has the empty id, activating the empty id
    succeeds and records the binding, but the task then has no active
    intent: [getActiveIntent] treats the empty id as no binding. *)
Theorem setActiveIntent_empty_id (s s1 : ManagerState) (intents : list ActiveIntent.t)
    (task : string) (intent : ActiveIntent.t) :
  loadIntents s = (Ok intents, s1) ->
  findIntent "" intents = Some intent ->
  exists s2,
    setActiveIntent task "" s = (Ok tt, s2)
    /\ activeIntentsByTask (manager s2) !! task = Some ""
    /\ getActiveIntent task s2 = (Ok None, s2).
Proof.
  intros Hload Hfind.
  eexists. split; [exact (setActiveIntent_found s s1 intents task "" intent Hload Hfind)|].
  split; [simpl; by rewrite lookup_insert_eq|].
  unfold getActiveIntent, bind, gets. simpl. by rewrite lookup_insert_eq.
Qed.

(** X10: [clearActiveIntent] only removes the binding of the task: the
    other bindings, the cache and the world are kept; clearing again
    changes nothing; and the task then has no active intent, an answer for
    which the definitions are not consulted. *)
Theorem clearActiveIntent_unbinds (s : ManagerState) (task : string) :
  fst (clearActiveIntent task s) = Ok tt
  /\ activeIntentsByTask (manager (snd (clearActiveIntent task s)))
     = delete task (activeIntentsByTask (manager s))
  /\ intentsCache (manager (snd (clearActiveIntent task s))) = intentsCache (manager s)
  /\ world (snd (clearActiveIntent task s)) = world s
  /\ clearActiveIntent task (snd (clearActiveIntent task s))
     = (Ok tt, snd (clearActiveIntent task s))
  /\ getActiveIntent task (snd (clearActiveIntent task s))
     = (Ok None, snd (clearActiveIntent task s)).
Proof.
  split_and!; try reflexivity.
  - unfold clearActiveIntent. run_comp. by rewrite delete_delete_eq.
  - unfold getActiveIntent, clearActiveIntent. run_comp.
    by rewrite lookup_delete_eq.
Qed.

(** X15: a binding outlives its intent. When the id bound to a task
    names no loaded intent, for instance after the definitions were edited
    and reloaded, the task has no active intent, and the binding itself
    stays as it is. *)
Theorem getActiveIntent_stale_binding (s s1 : ManagerState)
    (intents : list ActiveIntent.t) (task bound : string) :
  activeIntentsByTask (manager s) !! task = Some bound ->
  loadIntents s = (Ok intents, s1) ->
  findIntent bound intents = None ->
  getActiveIntent task s = (Ok None, if Js.nonempty bound then s1 else s)
  /\ activeIntentsByTask (manager s1) !! task = Some bound.
Proof.
  intros Hb Hload Hfind. split.
  - unfold getActiveIntent, bind, gets. rewrite Hb.
    destruct (Js.nonempty bound); [|reflexivity]. simpl.
    by rewrite (getIntent_loaded s s1 intents bound Hload), Hfind.
  - by rewrite (loadIntents_bindings s s1 intents Hload).
Qed.

End Bindings.

(** ** The manager on scenarios *)

Section ManagerScenarios.
Import IntentManager.

Lemma loadIntents_failure_keeps_state_witness :
  let r := loadIntents (H := Fixtures.externals) (Fixtures.managerOn "intents: [") in
  intentsCache (manager (snd r)) = None
  /\ exists message, fst r = Throw message.
Proof.
  intros r.
  assert (Hr : exists message, r = (Throw message, snd r)).
  { eexists. vm_compute. reflexivity. }
  destruct Hr as [message Hr].
  destruct (loadIntents_failure_keeps_state (H := Fixtures.externals) _ _ _ Hr)
    as (_ & Hcache & _).
  split; [exact Hcache|]. exists message. by rewrite Hr.
Defined.

Lemma loadIntents_null_entry_fails_witness :
  (exists cause,
      fst (loadIntents (H := MoreFixtures.externals)
             (Fixtures.managerOn MoreFixtures.nullEntryYaml))
      = Throw (parseFailure cause))
  /\ intentsCache
       (manager (snd (loadIntents (H := MoreFixtures.externals)
                        (Fixtures.managerOn MoreFixtures.nullEntryYaml)))) = None.
Proof.
  apply (loadIntents_null_entry_fails (H := MoreFixtures.externals)
           (Fixtures.managerOn MoreFixtures.nullEntryYaml)
           MoreFixtures.nullEntryYaml MoreFixtures.nullEntryParsed
           [YMap [("id", YStr "INT-OK")]; YNull]).
  - reflexivity.
  - vm_compute. reflexivity.
  - vm_compute. reflexivity.
  - reflexivity.
  - constructor. constructor.
Defined.

Lemma loadIntents_missing_resource_witness :
  let s := mkManagerState Fixtures.freshManager Fixtures.emptyWorld in
  fst (loadIntents (H := Fixtures.externals) s) = Ok []
  /\ files (storage (world (snd (loadIntents (H := Fixtures.externals) s))))
     !! definitionsFile = Some defaultContent.
Proof.
  intros s.
  destruct (loadIntents_missing_resource (H := Fixtures.externals) s)
    as (Hfst & _ & _ & Hfiles & _).
  - reflexivity.
  - vm_compute. reflexivity.
  - split; [exact Hfst|]. rewrite Hfiles. vm_compute. reflexivity.
Defined.

Lemma loadIntents_root_precedence_witness :
  exists intent,
    fst (loadIntents (H := MoreFixtures.externals)
           (Fixtures.managerOn MoreFixtures.bothRootsYaml))
    = Ok [intent]
    /\ ActiveIntent.id intent = "INT-PRIMARY".
Proof.
  rewrite (loadIntents_root_precedence (H := MoreFixtures.externals)
             (Fixtures.managerOn MoreFixtures.bothRootsYaml)
             MoreFixtures.bothRootsYaml MoreFixtures.bothRootsParsed
             [YMap [("id", YStr "INT-PRIMARY")]]).
  - eexists. split; vm_compute; reflexivity.
  - reflexivity.
  - vm_compute. reflexivity.
  - vm_compute. reflexivity.
  - left. reflexivity.
Defined.

(** A manager whose cache is empty of intents while the storage holds the
    [INT-TEST] document. *)
Lemma invalidateCache_then_load_witness :
  let s := mkManagerState (mkIntentManager (Some []) ∅)
                          (Fixtures.worldWith Fixtures.intTestYaml) in
  fst (loadIntents (H := Fixtures.externals) s) = Ok []
  /\ fst (loadIntents (H := Fixtures.externals) (snd (invalidateCache s)))
     = Ok [Fixtures.intTestIntent].
Proof.
  intros s.
  destruct (invalidateCache_then_load (H := Fixtures.externals) s
              Fixtures.intTestYaml Fixtures.intTestParsed
              (default [] (rawIntentsOf Fixtures.intTestParsed))
              [Fixtures.intTestIntent]) as [Hfresh Hstale].
  - vm_compute. reflexivity.
  - vm_compute. reflexivity.
  - reflexivity.
  - vm_compute. reflexivity.
  - split; [by apply Hstale | exact Hfresh].
Defined.

Lemma getIntent_first_match_witness :
  let s := Fixtures.managerOn Fixtures.intTestYaml in
  exists found,
    fst (getIntent (H := Fixtures.externals) "INT-TEST" s) = Ok found
    /\ (found = None <-> Forall (fun intent => ActiveIntent.id intent <> "INT-TEST")
                                [Fixtures.intTestIntent]).
Proof.
  intros s.
  destruct (getIntent_first_match (H := Fixtures.externals) s
              (snd (loadIntents (H := Fixtures.externals) s))
              [Fixtures.intTestIntent] "INT-TEST")
    as (found & Hget & _ & Hnone).
  - vm_compute. reflexivity.
  - exists found. split; [by rewrite Hget | exact Hnone].
Defined.

Lemma setActiveIntent_then_getActiveIntent_witness :
  let s := Fixtures.managerOn Fixtures.intTestYaml in
  exists s2,
    setActiveIntent (H := Fixtures.externals) "t1" "INT-TEST" s = (Ok tt, s2)
    /\ getActiveIntent (H := Fixtures.externals) "t1" s2
       = (Ok (Some Fixtures.intTestIntent), s2).
Proof.
  intros s.
  destruct (setActiveIntent_then_getActiveIntent (H := Fixtures.externals) s
              (snd (loadIntents (H := Fixtures.externals) s))
              [Fixtures.intTestIntent] "t1" "INT-TEST" Fixtures.intTestIntent)
    as (s2 & Hset & _ & _ & Hget).
  - vm_compute. reflexivity.
  - vm_compute. reflexivity.
  - intros [=].
  - by exists s2.
Defined.

Lemma setActiveIntent_unknown_witness :
  let s := Fixtures.managerOn Fixtures.intTestYaml in
  fst (setActiveIntent (H := Fixtures.externals) "t1" "INT-NONEXISTENT" s)
  = Throw "Intent INT-NONEXISTENT not found".
Proof.
  intros s.
  destruct (setActiveIntent_unknown (H := Fixtures.externals) s
              (snd (loadIntents (H := Fixtures.externals) s))
              [Fixtures.intTestIntent] "t1" "INT-NONEXISTENT") as [Hset _].
  - vm_compute. reflexivity.
  - vm_compute. reflexivity.
  - by rewrite Hset.
Defined.

Lemma setActiveIntent_empty_id_witness :
  let s := Fixtures.managerOn Fixtures.noIdYaml in
  exists s2,
    setActiveIntent (H := Fixtures.externals) "t1" "" s = (Ok tt, s2)
    /\ getActiveIntent (H := Fixtures.externals) "t1" s2 = (Ok None, s2).
Proof.
  intros s.
  assert (Hload : exists intent,
             loadIntents (H := Fixtures.externals) s
             = (Ok [intent], snd (loadIntents (H := Fixtures.externals) s))
             /\ findIntent "" [intent] = Some intent).
  { eexists. split; vm_compute; reflexivity. }
  destruct Hload as (intent & Hload & Hfind).
  destruct (setActiveIntent_empty_id (H := Fixtures.externals) s _ [intent] "t1" intent
              Hload Hfind) as (s2 & Hset & _ & Hget).
  by exists s2.
Defined.

Lemma getActiveIntent_stale_binding_witness :
  let s := mkManagerState (mkIntentManager None {[ "t1" := "INT-GONE" ]})
                          (Fixtures.worldWith Fixtures.intTestYaml) in
  fst (getActiveIntent (H := Fixtures.externals) "t1" s) = Ok None
  /\ activeIntentsByTask (manager (snd (getActiveIntent (H := Fixtures.externals) "t1" s)))
     !! "t1" = Some "INT-GONE".
Proof.
  intros s.
  destruct (getActiveIntent_stale_binding (H := Fixtures.externals) s
              (snd (loadIntents (H := Fixtures.externals) s))
              [Fixtures.intTestIntent] "t1" "INT-GONE") as [Hget Hkept].
  - vm_compute. reflexivity.
  - vm_compute. reflexivity.
  - vm_compute. reflexivity.
  - rewrite Hget. split; [reflexivity | exact Hkept].
Defined.

End ManagerScenarios.

(** ** More on normalisation *)

Section NormalisationMore.
Context `{JsEngine}.
Import IntentManager.

Local Open Scope result_scope.

Lemma mapR_strings {B} (f : YamlValue -> Result B) (g : string -> B)
    (texts : list string) :
  (forall text, f (YStr text) = Ok (g text)) ->
  mapR f (YStr <$> texts) = Ok (map g texts).
Proof.
  intros Hf. induction texts as [|text texts IH]; [reflexivity|].
  cbn [fmap list_fmap mapR map] in *. by rewrite Hf, IH.
Qed.

Lemma mapR_app {A B} (f : A -> Result B) (xs ys : list A) :
  mapR f (xs ++ ys)
  = (let+ first := mapR f xs in let+ second := mapR f ys in Ok (first ++ second)).
Proof.
  induction xs as [|x xs IH]; cbn [app mapR bindR].
  - by destruct (mapR f ys).
  - destruct (f x) as [y|e]; [|reflexivity]. rewrite IH.
    destruct (mapR f xs) as [first|e]; [|reflexivity]. cbn [bindR].
    by destruct (mapR f ys).
Qed.

Lemma filter_trim_fixed (texts : list string) :
  Forall isTrimmedNonEmpty texts ->
  List.filter Js.nonempty (map Js.trim texts) = texts.
Proof.
  induction 1 as [|text texts [Ht Hne] _ IH]; [reflexivity|].
  cbn [map List.filter]. rewrite Ht.
  apply nonempty_true in Hne. rewrite Hne. by f_equal.
Qed.

Lemma normalizeStringArray_strings (texts : list string) :
  Forall isTrimmedNonEmpty texts ->
  normalizeStringArray (Some (YSeq (YStr <$> texts))) = Ok texts.
Proof.
  intros Htexts. unfold normalizeStringArray.
  rewrite (mapR_strings _ (fun text => text)) by done. cbn [bindR].
  rewrite map_id. by rewrite filter_trim_fixed.
Qed.

Lemma pushConstraint_fold_app (items : list YamlValue) (acc : list string) :
  fold_left pushConstraint items acc = acc ++ fold_left pushConstraint items [].
Proof.
  revert acc. induction items as [|item items IH]; intros acc; simpl.
  - by rewrite app_nil_r.
  - rewrite (IH (pushConstraint acc item)), (IH (pushConstraint [] item)).
    rewrite app_assoc. f_equal.
    assert (Hstep : forall extra,
              (if Js.nonempty extra then acc ++ [extra] else acc)
              = acc ++ (if Js.nonempty extra then [] ++ [extra] else [])).
    { intros extra. destruct (Js.nonempty extra); [reflexivity | by rewrite app_nil_r]. }
    destruct item as [|b|x|s|entries|fields]; cbn [pushConstraint];
      try (by rewrite app_nil_r); try apply Hstep.
    all: match goal with
         | |- context [Yaml.prop_opt ?v "rule"] =>
             destruct (Yaml.prop_opt v "rule") as [[|?|?|r|?|?]|]
         end; try apply Hstep.
    all: destruct (Js.nonempty (Js.trim r)); [reflexivity | apply Hstep].
Qed.

Lemma pushConstraint_length (item : YamlValue) :
  length (pushConstraint [] item) <= 1.
Proof.
  assert (Hstep : forall extra : string,
            length (if Js.nonempty extra then [] ++ [extra] else []) <= 1).
  { intros extra. destruct (Js.nonempty extra); simpl; lia. }
  destruct item as [|b|x|s|entries|fields]; cbn [pushConstraint];
    try (simpl; lia); try apply Hstep.
  all: match goal with
       | |- context [Yaml.prop_opt ?v "rule"] =>
           destruct (Yaml.prop_opt v "rule") as [[|?|?|r|?|?]|]
       end; try apply Hstep.
  all: destruct (Js.nonempty (Js.trim r)); [simpl; lia | apply Hstep].
Qed.

Lemma normalizeConstraints_strings (texts : list string) :
  Forall isTrimmedNonEmpty texts ->
  normalizeConstraints (Some (YSeq (YStr <$> texts))) = texts.
Proof.
  unfold normalizeConstraints.
  induction 1 as [|text texts [Ht Hne] _ IH]; [reflexivity|].
  cbn [fmap list_fmap fold_left] in *. rewrite pushConstraint_fold_app.
  cbn [pushConstraint]. rewrite Ht.
  apply nonempty_true in Hne. rewrite Hne. simpl. by f_equal.
Qed.

(** X11: normalising what normalisation produced changes nothing: the
    scope, criteria and constraint lists of a normalised intent, written
    back as sequences of strings, normalise to themselves; a value whose
    normalisation throws is the only one that has no such list. *)
Theorem normalisation_idempotent (value : option YamlValue) :
  (let+ texts := normalizeStringArray value in
   normalizeStringArray (Some (YSeq (YStr <$> texts))))
  = normalizeStringArray value
  /\ normalizeConstraints (Some (YSeq (YStr <$> normalizeConstraints value)))
     = normalizeConstraints value.
Proof.
  split.
  - destruct (normalizeStringArray value) as [texts|e] eqn:Hvalue; [|reflexivity].
    cbn [bindR]. by apply normalizeStringArray_strings, (normalizeStringArray_trimmed value).
  - apply normalizeConstraints_strings, normalizeConstraints_trimmed.
Qed.

(** X12: both list normalisers work entry by entry and keep the order:
    the result for a sequence that is two sequences one after the other is
    the two results one after the other (and the first error, if an entry
    cannot be converted), and no entry gives more than one string, so the
    result is never longer than the input. *)
Theorem normalisation_entrywise (first second : list YamlValue) :
  normalizeStringArray (Some (YSeq (first ++ second)))
  = (let+ firstTexts := normalizeStringArray (Some (YSeq first)) in
     let+ secondTexts := normalizeStringArray (Some (YSeq second)) in
     Ok (firstTexts ++ secondTexts))
  /\ normalizeConstraints (Some (YSeq (first ++ second)))
     = normalizeConstraints (Some (YSeq first)) ++ normalizeConstraints (Some (YSeq second))
  /\ (forall texts, normalizeStringArray (Some (YSeq first)) = Ok texts ->
                    length texts <= length first)
  /\ length (normalizeConstraints (Some (YSeq first))) <= length first.
Proof.
  split; [|split; [|split]].
  - unfold normalizeStringArray. rewrite mapR_app.
    destruct (mapR _ first) as [firstTexts|e]; [|reflexivity]. cbn [bindR].
    destruct (mapR _ second) as [secondTexts|e]; [|reflexivity]. cbn [bindR].
    by rewrite !map_app, List.filter_app.
  - unfold normalizeConstraints. rewrite fold_left_app.
    apply pushConstraint_fold_app.
  - intros texts. unfold normalizeStringArray.
    destruct (mapR _ first) as [converted|e] eqn:Hconverted; [|done].
    cbn [bindR]. intros [= <-].
    etrans; [apply List.filter_length_le|].
    rewrite length_map. by rewrite (mapR_length _ _ _ Hconverted).
  - unfold normalizeConstraints. induction first as [|item rest IH]; [simpl; lia|].
    simpl. rewrite pushConstraint_fold_app, length_app.
    pose proof (pushConstraint_length item). lia.
Qed.

(** X13: the two spellings of a field agree. An entry that gives its
    scope under [owned_scope] (and has no [ownedScope]) normalises to the
    same scope as an entry that gives the same value under [ownedScope];
    likewise for [acceptance_criteria] and [acceptanceCriteria]. When the
    camel-case field is there and is not [null], the snake-case field is
    not looked at. *)
Theorem normalizeIntent_aliases (camel snake : list (string * YamlValue))
    (camelIntent snakeIntent : ActiveIntent.t) :
  normalizeIntent (YMap camel) = Ok camelIntent ->
  normalizeIntent (YMap snake) = Ok snakeIntent ->
  (forall value,
      value <> YNull ->
      Yaml.assoc "ownedScope" camel = Some value ->
      Yaml.assoc "ownedScope" snake = None ->
      Yaml.assoc "owned_scope" snake = Some value ->
      ActiveIntent.ownedScope camelIntent = ActiveIntent.ownedScope snakeIntent
      /\ normalizeStringArray (Some value) = Ok (ActiveIntent.ownedScope camelIntent))
  /\ (forall value,
        value <> YNull ->
        Yaml.assoc "acceptanceCriteria" camel = Some value ->
        Yaml.assoc "acceptanceCriteria" snake = None ->
        Yaml.assoc "acceptance_criteria" snake = Some value ->
        ActiveIntent.acceptanceCriteria camelIntent
        = ActiveIntent.acceptanceCriteria snakeIntent
        /\ normalizeStringArray (Some value)
           = Ok (ActiveIntent.acceptanceCriteria camelIntent)).
Proof.
  intros (_ & _ & _ & _ & _ & Hcs & _ & Hcc)%normalizeIntent_Ok
         (_ & _ & _ & _ & _ & Hss & _ & Hsc)%normalizeIntent_Ok.
  cbn [Yaml.prop_opt] in *.
  split; intros value Hne Hc Hs1 Hs2.
  - rewrite Hc in Hcs. rewrite Hs1, Hs2 in Hss.
    assert (Hvalue : forall other, Yaml.nullish (Some value) other = Some value)
      by (intros other; by destruct value).
    rewrite Hvalue in Hcs. cbn [Yaml.nullish] in Hss. split; congruence.
  - rewrite Hc in Hcc. rewrite Hs1, Hs2 in Hsc.
    assert (Hvalue : forall other, Yaml.nullish (Some value) other = Some value)
      by (intros other; by destruct value).
    rewrite Hvalue in Hcc. cbn [Yaml.nullish] in Hsc. split; congruence.
Qed.

(** X14: a status string is recognised whatever its letter case: when
    its upper-case form is one of the five names, the intent gets the
    status of that name. *)
Theorem normalizeIntent_status_recognised (fields : list (string * YamlValue))
    (text : string) (status : IntentStatus) (intent : ActiveIntent.t) :
  normalizeIntent (YMap fields) = Ok intent ->
  Yaml.assoc "status" fields = Some (YStr text) ->
  statusOfName (toUpperCase text) = Some status ->
  ActiveIntent.status intent = status.
Proof.
  intros (_ & (statusText & Htext & ->) & _)%normalizeIntent_Ok Hs Hname.
  cbn [Yaml.prop_opt] in Htext. rewrite Hs in Htext. unfold Yaml.or_else in Htext.
  destruct text as [|c text].
  - rewrite toUpperCase_ascii in Hname by reflexivity. by vm_compute in Hname.
  - cbn [Yaml.truthy Js.nonempty Yaml.toString] in Htext. injection Htext as <-.
    unfold statusOfName in Hname. unfold statusOfString.
    repeat case_decide; congruence.
Qed.

End NormalisationMore.

Section NormalisationScenarios.
Import IntentManager.

(** The context block does not tell an intent without constraints from
    an intent whose only constraint is the text [None]. *)
Example formatIntentContext_none_ambiguous (id name description : string)
    (status : IntentStatus) (ownedScope acceptanceCriteria : list string)
    (metadata : YamlValue) :
  formatIntentContext
    (ActiveIntent.mk id name description status ownedScope [] acceptanceCriteria metadata)
  = formatIntentContext
      (ActiveIntent.mk id name description status ownedScope ["None"]
         acceptanceCriteria metadata).
Proof. reflexivity. Qed.

Lemma normalizeIntent_aliases_witness :
  exists camelIntent snakeIntent,
    normalizeIntent (H := Fixtures.engine)
      (YMap [("ownedScope", YSeq [YStr " src/** "])]) = Ok camelIntent
    /\ normalizeIntent (H := Fixtures.engine)
         (YMap [("owned_scope", YSeq [YStr " src/** "])]) = Ok snakeIntent
    /\ ActiveIntent.ownedScope camelIntent = ActiveIntent.ownedScope snakeIntent
    /\ ActiveIntent.ownedScope camelIntent = ["src/**"].
Proof.
  eexists. eexists. split; [vm_compute; reflexivity|]. split; [vm_compute; reflexivity|].
  destruct (normalizeIntent_aliases (H := Fixtures.engine)
              [("ownedScope", YSeq [YStr " src/** "])]
              [("owned_scope", YSeq [YStr " src/** "])] _ _ eq_refl eq_refl)
    as [Hscope _].
  destruct (Hscope (YSeq [YStr " src/** "])) as [Heq Hvalue];
    [discriminate | reflexivity | reflexivity | reflexivity |].
  split; [exact Heq | reflexivity].
Defined.

Lemma normalizeIntent_status_recognised_witness :
  exists intent,
    normalizeIntent (H := Fixtures.engine)
      (YMap [("id", YStr "INT-9"); ("status", YStr "in_Progress")]) = Ok intent
    /\ ActiveIntent.status intent = IN_PROGRESS.
Proof.
  eexists. split; [vm_compute; reflexivity|].
  apply (normalizeIntent_status_recognised (H := Fixtures.engine)
           [("id", YStr "INT-9"); ("status", YStr "in_Progress")] "in_Progress");
    reflexivity.
Defined.

End NormalisationScenarios.

(** ** What the gate leaves alone *)

Section GateFrame.
Context `{Externals}.
Import ToolExecutionContext.

Lemma worldFrame_refl (w : World) : worldFrame w w.
Proof. by split_and!. Qed.

Lemma worldFrame_trans (w1 w2 w3 : World) :
  worldFrame w1 w2 -> worldFrame w2 w3 -> worldFrame w1 w3.
Proof.
  intros (Hf1 & Hc1 & Hr1 & Hn1 & He1) (Hf2 & Hc2 & Hr2 & Hn2 & He2).
  split_and!; try congruence.
  intros name Hne. by rewrite Hn2, Hn1.
Qed.

Lemma keepsFrame_ret {A} (a : A) : keepsFrame (ret a).
Proof. intros s r s' [= <- <-]. split; [reflexivity | apply worldFrame_refl]. Qed.

Lemma keepsFrame_bind {A B} (m : M ManagerState A) (k : A -> M ManagerState B) :
  keepsFrame m -> (forall a, keepsFrame (k a)) -> keepsFrame (bind m k).
Proof.
  intros Hm Hk s r s'. unfold bind.
  destruct (m s) as [[a|e] s1] eqn:Hms.
  - intros Hks. destruct (Hm _ _ _ Hms) as [Hb1 Hw1].
    destruct (Hk a _ _ _ Hks) as [Hb2 Hw2].
    split; [congruence | by eapply worldFrame_trans].
  - intros [= <- <-]. by apply (Hm _ _ _ Hms).
Qed.

Lemma count_appends_snoc (evs : list Event) (e : Event) :
  isAppend e = false ->
  countEvents isAppend (evs ++ [e]) = countEvents isAppend evs.
Proof.
  intros He. unfold countEvents. rewrite List.filter_app, length_app. simpl.
  rewrite He. simpl. lia.
Qed.

Lemma loadIntents_keepsFrame : keepsFrame IntentManager.loadIntents.
Proof.
  intros s r s' Hload.
  destruct (intentsCache (manager s)) as [cached|] eqn:Hc.
  { rewrite (loadIntents_warm s cached Hc) in Hload. injection Hload as <- <-.
    split; [reflexivity | apply worldFrame_refl]. }
  revert Hload. unfold IntentManager.loadIntents.
  unfold bind at 1. unfold gets at 1. rewrite Hc. run_comp.
  destruct (files (storage (world s)) !! "active_intents.yaml") as [content|] eqn:Hf;
    simpl.
  - rewrite Hf.
    destruct (yaml_parse content) as [parsed|cause];
      [destruct (IntentManager.rawIntentsOf parsed) as [rawIntents|];
       [destruct (mapR IntentManager.normalizeIntent rawIntents)|]|];
      intros [= <- <-]; simpl; (split; [reflexivity|]);
      unfold worldFrame; simpl; split_and!; try done;
      by rewrite !count_appends_snoc.
  - destruct (readonly (storage (world s))) eqn:Hro; simpl;
      intros [= <- <-]; simpl; (split; [reflexivity|]);
      unfold worldFrame; simpl; split_and!; try done;
      try (by rewrite !count_appends_snoc).
    intros name Hne. unfold definitionsFile in Hne. by rewrite lookup_insert_ne.
Qed.

Lemma getIntent_keepsFrame (intentId : string) :
  keepsFrame (IntentManager.getIntent intentId).
Proof.
  apply keepsFrame_bind; [apply loadIntents_keepsFrame|].
  intros intents. apply keepsFrame_ret.
Qed.

Lemma getActiveIntent_keepsFrame (task : string) :
  keepsFrame (IntentManager.getActiveIntent task).
Proof.
  apply keepsFrame_bind.
  - intros s r s' [= <- <-]. split; [reflexivity | apply worldFrame_refl].
  - intros [bound|]; [|apply keepsFrame_ret].
    destruct (negb (Js.nonempty bound)); [apply keepsFrame_ret|].
    apply getIntent_keepsFrame.
Qed.

Lemma resolveActiveIntent_keepsFrame (context : ToolExecutionContext.t) :
  keepsFrame (PreToolHook.resolveActiveIntent context).
Proof.
  apply keepsFrame_bind.
  - destruct (str_truthy (activeIntentId context));
      [apply getIntent_keepsFrame | apply keepsFrame_ret].
  - intros [intent|]; [apply keepsFrame_ret | apply getActiveIntent_keepsFrame].
Qed.

(** X16: the gate changes no binding, neither of the manager it was
    constructed with nor of the process-wide one, and in the world it
    touches nothing but the definition resource: the workspace files, the
    clock, every other file of the storage (the trace file among them) are
    as before, and nothing is appended. This holds whether [run] answers
    or throws. *)
Theorem gate_frame (context : ToolExecutionContext.t) (h : HookState) :
  worldFrame (hook_world h) (hook_world (snd (PreToolHook.run context h)))
  /\ activeIntentsByTask (intentManager (snd (PreToolHook.run context h)))
     = activeIntentsByTask (intentManager h)
  /\ activeIntentsByTask <$> globalIntentManager (snd (PreToolHook.run context h))
     = activeIntentsByTask <$> globalIntentManager h.
Proof.
  unfold PreToolHook.run.
  destruct (negb (bool_decide (toolName context ∈ DESTRUCTIVE_TOOLS))).
  { cbn [ret snd]. split; [apply worldFrame_refl | by split]. }
  unfold bind, with_manager, ret, globalIntentManager.
  pose proof (resolveActiveIntent_keepsFrame context) as Hk.
  destruct h as [w [| |other] own]; cbn [globalManager hook_world intentManager].
  - destruct (PreToolHook.resolveActiveIntent context (mkManagerState own w))
      as [[r|e] s'] eqn:Hr;
      destruct (Hk _ _ _ Hr) as [Hb Hw]; simpl in *; by split_and!.
  - destruct (PreToolHook.resolveActiveIntent context (mkManagerState own w))
      as [[r|e] s'] eqn:Hr;
      destruct (Hk _ _ _ Hr) as [Hb Hw]; simpl in *; split_and!; try done; by f_equal.
  - destruct (PreToolHook.resolveActiveIntent context (mkManagerState other w))
      as [[r|e] s'] eqn:Hr;
      destruct (Hk _ _ _ Hr) as [Hb Hw]; simpl in *; split_and!; try done; by f_equal.
Qed.

End GateFrame.

(** ** More on the gate *)

Section GateMore.
Context `{Externals}.
Import ToolExecutionContext PreToolHook.

Lemma validatePaths_shape (intent : ActiveIntent.t) (paths : list string) :
  validatePaths intent paths = allow
  \/ exists message, validatePaths intent paths = deny message.
Proof.
  induction paths as [|p paths IH]; simpl; [by left|].
  destruct (validatePath p (ActiveIntent.ownedScope intent)); [exact IH|].
  right. by eexists.
Qed.

Lemma validatePaths_allow_inv (intent : ActiveIntent.t) (paths : list string) :
  validatePaths intent paths = allow -> Forall (inScope intent) paths.
Proof.
  induction paths as [|p paths IH]; simpl; [constructor|].
  destruct (validatePath p (ActiveIntent.ownedScope intent)) eqn:Hp; [|discriminate].
  intros Hrest. constructor; [exact Hp | by apply IH].
Qed.

Lemma decide_with_shape (context : ToolExecutionContext.t)
    (activeIntent : option ActiveIntent.t) :
  decide_with context activeIntent = allow
  \/ exists message, decide_with context activeIntent = deny message.
Proof.
  unfold decide_with. destruct activeIntent as [intent|]; [|right; by eexists].
  case_decide; [right; by eexists|].
  destruct (extractPathsForScopeValidation context) as [paths|message];
    [apply validatePaths_shape | right; by eexists].
Qed.

(** The gate answers with [allow] or with a denial that carries a message. *)
Lemma run_answers (context : ToolExecutionContext.t) (h h' : HookState)
    (result : PreHookResult.t) :
  run context h = (Ok result, h') ->
  result = allow \/ exists message, result = deny message.
Proof.
  intros Hrun. unfold run in Hrun.
  destruct (negb (bool_decide (toolName context ∈ DESTRUCTIVE_TOOLS))).
  - injection Hrun as <- _. by left.
  - unfold bind, ret in Hrun.
    destruct (with_manager (resolveActiveIntent context) h) as [[r|e] h1];
      [|discriminate].
    injection Hrun as <- _. apply decide_with_shape.
Qed.

(** X17: every answer of the gate has the shape the dispatch layer
    expects: a denial reason is present exactly when the call is not
    allowed. *)
Theorem run_result_shape (context : ToolExecutionContext.t) (h h' : HookState)
    (result : PreHookResult.t) :
  run context h = (Ok result, h') ->
  (PreHookResult.allowed result = true <-> PreHookResult.error result = None)
  /\ (PreHookResult.allowed result = false
      <-> exists message, PreHookResult.error result = Some message).
Proof.
  intros Hrun.
  destruct (run_answers context h h' result Hrun) as [-> | [message ->]]; simpl.
  - split; [done|]. split; [done | by intros [? ?]].
  - split; [done|]. split; [by eexists | done].
Qed.

(** X18: the gate works on the process-wide manager when there is one.
    When that manager is another object than the one the hook was
    constructed with, the answer, the world and the process-wide manager
    after the run are those of a hook constructed with that manager, and
    the hook's own manager is left exactly as it was. When the
    process-wide manager is the hook's own manager, the run is the run of
    the hook without a process-wide manager, and what it does to the
    manager is seen through both references. *)
Theorem run_prefers_global_manager (context : ToolExecutionContext.t) (w : World)
    (other own : IntentManagerState) :
  (fst (run context (mkHookState w (GlobalOther other) own))
   = fst (run context (mkHookState w GlobalUnset other))
   /\ hook_world (snd (run context (mkHookState w (GlobalOther other) own)))
      = hook_world (snd (run context (mkHookState w GlobalUnset other)))
   /\ globalIntentManager (snd (run context (mkHookState w (GlobalOther other) own)))
      = Some (intentManager (snd (run context (mkHookState w GlobalUnset other))))
   /\ intentManager (snd (run context (mkHookState w (GlobalOther other) own))) = own)
  /\ (fst (run context (mkHookState w GlobalIsOwn own))
      = fst (run context (mkHookState w GlobalUnset own))
      /\ hook_world (snd (run context (mkHookState w GlobalIsOwn own)))
         = hook_world (snd (run context (mkHookState w GlobalUnset own)))
      /\ intentManager (snd (run context (mkHookState w GlobalIsOwn own)))
         = intentManager (snd (run context (mkHookState w GlobalUnset own)))
      /\ globalIntentManager (snd (run context (mkHookState w GlobalIsOwn own)))
         = Some (intentManager (snd (run context (mkHookState w GlobalUnset own))))).
Proof.
  unfold run.
  destruct (negb (bool_decide (toolName context ∈ DESTRUCTIVE_TOOLS))); [done|].
  unfold bind, with_manager, ret, globalIntentManager. simpl.
  split.
  - by destruct (resolveActiveIntent context (mkManagerState other w)) as [[r|e] s'].
  - by destruct (resolveActiveIntent context (mkManagerState own w)) as [[r|e] s'].
Qed.

Lemma extractPaths_write (context : ToolExecutionContext.t) :
  toolName context = "write_to_file" \/ toolName context = "apply_diff" ->
  extractPathsForScopeValidation context
  = Ok (let filePath := str_or (toolParams context !! "path")
                               (toolParams context !! "file_path") in
        if str_truthy filePath then [default "" filePath] else []).
Proof.
  intros Htool. unfold extractPathsForScopeValidation.
  by rewrite decide_True.
Qed.

Lemma extractPaths_edit (context : ToolExecutionContext.t) :
  toolName context = "edit" \/ toolName context = "search_and_replace"
  \/ toolName context = "search_replace" \/ toolName context = "edit_file" ->
  extractPathsForScopeValidation context
  = Ok (let filePath := str_or (toolParams context !! "file_path")
                               (toolParams context !! "path") in
        if str_truthy filePath then [default "" filePath] else []).
Proof.
  intros Htool. unfold extractPathsForScopeValidation.
  rewrite decide_False by (intros [Hw|Hw]; rewrite Hw in Htool;
                           destruct Htool as [?|[?|[?|?]]]; discriminate).
  by rewrite decide_True.
Qed.

(** X19: a call that carries both [path] and [file_path] is checked on
    one of them only. [write_to_file] and [apply_diff] check [path]: with
    [path] in scope the call is allowed although [file_path] is out of
    scope. The edit tools check [file_path]: the same parameters are
    denied, and the message names [file_path]. *)
Theorem run_checks_one_path_parameter (context : ToolExecutionContext.t)
    (h h' : HookState) (intent : ActiveIntent.t) (byPath byFilePath : string) :
  with_manager (resolveActiveIntent context) h = (Ok (Some intent), h') ->
  toolParams context !! "path" = Some byPath ->
  toolParams context !! "file_path" = Some byFilePath ->
  byPath <> "" ->
  byFilePath <> "" ->
  inScope intent byPath ->
  outOfScope intent byFilePath ->
  (toolName context = "write_to_file" \/ toolName context = "apply_diff" ->
   run context h = (Ok allow, h'))
  /\ (toolName context = "edit" \/ toolName context = "search_and_replace"
      \/ toolName context = "search_replace" \/ toolName context = "edit_file" ->
      run context h = (Ok (deny (scopeViolationMessage intent byFilePath)), h')).
Proof.
  intros Hres Hp Hf Hnp Hnf Hin Hout.
  apply nonempty_true in Hnp. apply nonempty_true in Hnf.
  unfold inScope in Hin. unfold outOfScope in Hout.
  split; intros Htool.
  - rewrite run_destructive
      by (destruct Htool as [-> | ->]; unfold DESTRUCTIVE_TOOLS; set_solver).
    rewrite Hres. unfold decide_with.
    rewrite decide_False by (destruct Htool as [-> | ->]; discriminate).
    rewrite (extractPaths_write context Htool), Hp, Hf.
    unfold str_or. simpl. rewrite Hnp. simpl. rewrite Hnp. simpl. by rewrite Hin.
  - rewrite run_destructive
      by (destruct Htool as [-> | [-> | [-> | ->]]]; unfold DESTRUCTIVE_TOOLS; set_solver).
    rewrite Hres. unfold decide_with.
    rewrite decide_False by (destruct Htool as [-> | [-> | [-> | ->]]]; discriminate).
    rewrite (extractPaths_edit context Htool), Hp, Hf.
    unfold str_or. simpl. rewrite Hnf. simpl. rewrite Hnf. simpl. by rewrite Hout.
Qed.

Lemma hunkPaths_exact (hunks : list Hunk.t) (p : string) :
  p ∈ hunkPaths hunks
  <-> exists hunk,
        hunk ∈ hunks
        /\ (p = Hunk.path hunk
            \/ (Hunk.type hunk = UpdateFile /\ Hunk.movePath hunk = Some p /\ p <> "")).
Proof.
  induction hunks as [|first rest IH]; cbn [hunkPaths].
  - split; [intros Hin; by apply elem_of_nil in Hin|].
    intros (hunk & Hin & _). by apply elem_of_nil in Hin.
  - rewrite elem_of_cons, elem_of_app, IH. split.
    + intros [-> | [Hmoved | (hunk & Hin & Hcase)]].
      * exists first. split; [apply elem_of_cons; by left | by left].
      * exists first. split; [apply elem_of_cons; by left|]. right.
        destruct (Hunk.type first); try (by apply elem_of_nil in Hmoved).
        destruct (Hunk.movePath first) as [destination|] eqn:Hm;
          [|by apply elem_of_nil in Hmoved].
        simpl in Hmoved. destruct (Js.nonempty destination) eqn:Hne;
          [|by apply elem_of_nil in Hmoved].
        apply list_elem_of_singleton in Hmoved as ->.
        split_and!; try done. by apply nonempty_true.
      * exists hunk. split; [apply elem_of_cons; by right | exact Hcase].
    + intros (hunk & Hin & Hcase).
      apply elem_of_cons in Hin as [-> | Hin].
      * destruct Hcase as [-> | (Ht & Hm & Hne)]; [by left|].
        right; left. rewrite Ht, Hm. simpl.
        apply nonempty_true in Hne. rewrite Hne. by apply list_elem_of_singleton.
      * right; right. by exists hunk.
Qed.

(** X20: the paths checked for a patch are exactly the path of every
    hunk, of whatever type, and the non-empty move destination of every
    update hunk; a move destination on an add or delete hunk is not
    checked. *)
Theorem patch_paths_exact (context : ToolExecutionContext.t) (patch : string)
    (hunks : list Hunk.t) :
  toolName context = "apply_patch" ->
  toolParams context !! "patch" = Some patch ->
  patch <> "" ->
  parsePatch patch = Ok hunks ->
  exists paths,
    extractPathsForScopeValidation context = Ok paths
    /\ forall p,
         p ∈ paths
         <-> exists hunk,
               hunk ∈ hunks
               /\ (p = Hunk.path hunk
                   \/ (Hunk.type hunk = UpdateFile
                       /\ Hunk.movePath hunk = Some p /\ p <> "")).
Proof.
  intros Htool Hpatch Hne Hparse. exists (hunkPaths hunks). split.
  - rewrite (extractPaths_apply_patch context Htool), Hpatch. simpl.
    apply nonempty_true in Hne. by rewrite Hne, Hparse.
  - apply hunkPaths_exact.
Qed.

(** X21: on definitions that load, the id carried by the context wins:
    when it names a loaded intent, that intent is the active one whatever
    the task is bound to; when the context carries no id, an empty id, or
    an id that names no loaded intent, the intent bound to the task is
    used, and an empty or unknown bound id gives no intent. *)
Theorem resolution_precedence (context : ToolExecutionContext.t) (s s1 : ManagerState)
    (intents : list ActiveIntent.t) :
  IntentManager.loadIntents s = (Ok intents, s1) ->
  (forall intentId intent,
      activeIntentId context = Some intentId ->
      intentId <> "" ->
      findIntent intentId intents = Some intent ->
      fst (resolveActiveIntent context s) = Ok (Some intent))
  /\ ((activeIntentId context = None
       \/ activeIntentId context = Some ""
       \/ exists intentId, activeIntentId context = Some intentId
                           /\ findIntent intentId intents = None) ->
      fst (resolveActiveIntent context s)
      = Ok (match activeIntentsByTask (manager s) !! taskId context with
            | Some bound => if Js.nonempty bound then findIntent bound intents else None
            | None => None
            end)).
Proof.
  intros Hload. rewrite (resolveActiveIntent_loaded context s s1 intents Hload).
  unfold resolveIn. split.
  - intros intentId intent Hid Hne Hfind. rewrite Hid. simpl.
    apply nonempty_true in Hne. by rewrite Hne, Hfind.
  - intros [-> | [-> | (intentId & -> & Hfind)]]; try reflexivity.
    simpl. destruct (Js.nonempty intentId); [by rewrite Hfind | reflexivity].
Qed.

End GateMore.

(** ** More on the audit *)

Section AuditMore.
Context `{Externals}.
Import ToolExecutionContext TracePostHook.

Lemma hunkPaths_targets (hunks : list Hunk.t) :
  PreToolHook.hunkPaths hunks = path <$> hunkTargets hunks.
Proof.
  induction hunks as [|hunk rest IH]; [reflexivity|].
  cbn [PreToolHook.hunkPaths hunkTargets]. rewrite IH, fmap_cons, fmap_app.
  f_equal; [by destruct (Hunk.type hunk)|]. f_equal.
  destruct (Hunk.type hunk); try reflexivity.
  by destruct (str_truthy (Hunk.movePath hunk)).
Qed.

Lemma extractTraceTargets_paths (context : ToolExecutionContext.t) :
  PreToolHook.extractPathsForScopeValidation context
  = match extractTraceTargets context with
    | Ok targets => Ok (path <$> targets)
    | Throw message => Throw message
    end.
Proof.
  unfold PreToolHook.extractPathsForScopeValidation, extractTraceTargets.
  repeat case_decide; try reflexivity.
  - by destruct (str_truthy (str_or _ _)).
  - by destruct (str_truthy (str_or _ _)).
  - destruct (negb (str_truthy (toolParams context !! "patch"))); [reflexivity|].
    destruct (parsePatch _) as [hunks|message]; [|reflexivity].
    by rewrite hunkPaths_targets.
Qed.

(** X22: the audit extracts its targets by the rules of the gate: for
    every call the paths the gate validates are the paths of the audit's
    targets, in the same order, and the one extraction fails exactly when
    the other does, with the same message. *)
Theorem audit_targets_are_gate_paths (context : ToolExecutionContext.t) :
  (forall targets,
      extractTraceTargets context = Ok targets ->
      PreToolHook.extractPathsForScopeValidation context = Ok (path <$> targets))
  /\ (forall paths,
        PreToolHook.extractPathsForScopeValidation context = Ok paths ->
        exists targets,
          extractTraceTargets context = Ok targets /\ paths = path <$> targets)
  /\ (forall message,
        extractTraceTargets context = Throw message
        <-> PreToolHook.extractPathsForScopeValidation context = Throw message).
Proof.
  rewrite (extractTraceTargets_paths context).
  destruct (extractTraceTargets context) as [targets|cause]; (split; [|split]).
  - by intros ? [= <-].
  - intros paths [= <-]. by exists targets.
  - intros message. split; intros [=].
  - intros ? [=].
  - intros ? [=].
  - intros message. split; intros [= ->]; reflexivity.
Qed.

Lemma with_manager_frame {A} (m : M ManagerState A) (h h1 : HookState) (r : Result A) :
  keepsFrame m ->
  with_manager m h = (r, h1) ->
  worldFrame (hook_world h) (hook_world h1).
Proof.
  intros Hk. unfold with_manager.
  destruct (globalManager h) as [| |other].
  - destruct (m (mkManagerState (intentManager h) (hook_world h))) as [r' s'] eqn:Hm.
    intros [= <- <-]. by destruct (Hk _ _ _ Hm) as [_ Hw].
  - destruct (m (mkManagerState (intentManager h) (hook_world h))) as [r' s'] eqn:Hm.
    intros [= <- <-]. by destruct (Hk _ _ _ Hm) as [_ Hw].
  - destruct (m (mkManagerState other (hook_world h))) as [r' s'] eqn:Hm.
    intros [= <- <-]. by destruct (Hk _ _ _ Hm) as [_ Hw].
Qed.

(** X23: the audit records nothing for a tool that is not destructive,
    for a call without an active intent, and for [execute_command] even
    with an active intent: it answers success without an entry, and the
    trace file, like every file but the definition resource, is as
    before. *)
Theorem audit_skips {R} (context : ToolExecutionContext.t) (result : R) (h : HookState) :
  (toolName context ∉ DESTRUCTIVE_TOOLS ->
   run context result h = (Ok success_only, h))
  /\ (forall h1,
        toolName context ∈ DESTRUCTIVE_TOOLS ->
        with_manager (getActiveIntent context) h = (Ok None, h1) ->
        run context result h = (Ok success_only, h1)
        /\ worldFrame (hook_world h) (hook_world h1))
  /\ (forall activeIntent h1,
        toolName context = "execute_command" ->
        with_manager (getActiveIntent context) h = (Ok activeIntent, h1) ->
        run context result h = (Ok success_only, h1)
        /\ worldFrame (hook_world h) (hook_world h1)).
Proof.
  split_and!.
  - intros Hnd. unfold run. by rewrite bool_decide_false.
  - intros h1 Hd Hres. split.
    + unfold run. rewrite bool_decide_true by exact Hd. simpl.
      unfold bind. by rewrite Hres.
    + eapply with_manager_frame; [|exact Hres].
      rewrite audit_resolves_like_gate. apply resolveActiveIntent_keepsFrame.
  - intros activeIntent h1 Htool Hres. split.
    + unfold run. rewrite bool_decide_true
        by (rewrite Htool; unfold DESTRUCTIVE_TOOLS; set_solver).
      simpl. unfold bind at 1. rewrite Hres.
      destruct activeIntent as [intent|]; [|reflexivity].
      unfold extractTraceTargets. rewrite Htool.
      rewrite decide_False by (intros [?|?]; discriminate).
      rewrite decide_False by (intros [?|[?|[?|?]]]; discriminate).
      rewrite decide_False by discriminate. reflexivity.
    + eapply with_manager_frame; [|exact Hres].
      rewrite audit_resolves_like_gate. apply resolveActiveIntent_keepsFrame.
Qed.

Lemma traceTarget_readonly (context : ToolExecutionContext.t) (intent : ActiveIntent.t)
    (target : TraceTarget) (w : World) :
  readonly (storage w) = true ->
  exists w',
    traceTarget context intent target w
    = (Throw "EACCES: permission denied, open 'agent_trace.jsonl'", w')
    /\ storage w' = storage w.
Proof.
  intros Hw. unfold traceTarget.
  unfold bind at 1. rewrite computeContentHash_run.
  unfold Date_now_iso. run_comp. rewrite Hw. by eexists.
Qed.

(** X24: on a storage that refuses the append, the audit of a call with
    an active intent and at least one target throws the storage's error at
    the first target: no success is reported and the storage is left as it
    was. *)
Theorem audit_append_failure_throws {R} (context : ToolExecutionContext.t) (result : R)
    (h h1 : HookState) (intent : ActiveIntent.t) (target : TraceTarget)
    (rest : list TraceTarget) :
  toolName context ∈ DESTRUCTIVE_TOOLS ->
  with_manager (getActiveIntent context) h = (Ok (Some intent), h1) ->
  extractTraceTargets context = Ok (target :: rest) ->
  readonly (storage (hook_world h1)) = true ->
  (exists message, fst (run context result h) = Throw message)
  /\ storage (hook_world (snd (run context result h))) = storage (hook_world h1).
Proof.
  intros Hd Hres Hex Hw.
  rewrite (run_destructive_post context result h h1 intent (target :: rest) Hd Hres Hex).
  cbn [traceTargets]. unfold bind.
  destruct (traceTarget_readonly context intent target (hook_world h1) Hw)
    as (w' & -> & Hst).
  split; [by eexists | exact Hst].
Qed.

Lemma countNewlines_app (a b : string) :
  countNewlines (a +:+ b) = countNewlines a + countNewlines b.
Proof.
  induction a as [|c a IH]; [reflexivity|].
  rewrite append_cons. simpl. rewrite IH. lia.
Qed.

Lemma json_escape_one_line (c : ascii) : countNewlines (Yaml.json_escape c) = 0.
Proof. destruct c as [[] [] [] [] [] [] [] []]; vm_compute; reflexivity. Qed.

Lemma json_quote_one_line (text : string) : countNewlines (Yaml.json_quote text) = 0.
Proof.
  unfold Yaml.json_quote.
  change (String Yaml.dquote (Yaml.json_escape_all text +:+ String Yaml.dquote ""))
    with (String Yaml.dquote "" +:+ (Yaml.json_escape_all text +:+ String Yaml.dquote "")).
  rewrite !countNewlines_app.
  assert (Hall : countNewlines (Yaml.json_escape_all text) = 0).
  { induction text as [|c text IH]; [reflexivity|].
    simpl. by rewrite countNewlines_app, json_escape_one_line, IH. }
  rewrite Hall. reflexivity.
Qed.

Lemma stringifyEntry_one_line (entry : TraceLogEntry.t) :
  countNewlines (stringifyEntry entry) = 0.
Proof.
  unfold stringifyEntry. cbn [Js.join].
  rewrite !countNewlines_app, !json_quote_one_line. reflexivity.
Qed.

(** X25: the trace is one line per entry: the record of an entry holds
    no line end, whatever its fields contain, so appending entries adds
    exactly as many line ends as there are entries. *)
Theorem trace_one_line_per_entry (old : string) (entries : list TraceLogEntry.t) :
  Forall (fun entry => countNewlines (stringifyEntry entry) = 0) entries
  /\ countNewlines (appendEntries old entries) = countNewlines old + length entries.
Proof.
  split.
  - apply Forall_forall. intros entry _. apply stringifyEntry_one_line.
  - revert old. induction entries as [|entry entries IH]; intros old.
    + simpl. lia.
    + rewrite appendEntries_cons, IH, !countNewlines_app, stringifyEntry_one_line.
      simpl. lia.
Qed.

Lemma hunkTargets_create (hunks : list Hunk.t) (target : TraceTarget) :
  target ∈ hunkTargets hunks ->
  mutationClass target = CREATE ->
  exists hunk, hunk ∈ hunks /\ Hunk.type hunk = AddFile /\ Hunk.path hunk = path target.
Proof.
  induction hunks as [|first rest IH]; cbn [hunkTargets];
    [intros Hin; by apply elem_of_nil in Hin|].
  rewrite elem_of_cons, elem_of_app. intros [-> | [Hmoved | Hin]] Hclass.
  - exists first. split; [apply elem_of_cons; by left|].
    by destruct (Hunk.type first).
  - destruct (Hunk.type first); try (by apply elem_of_nil in Hmoved).
    destruct (str_truthy (Hunk.movePath first)); [|by apply elem_of_nil in Hmoved].
    apply list_elem_of_singleton in Hmoved as ->. discriminate.
  - destruct (IH Hin Hclass) as (hunk & Hh & Ht & Hp).
    exists hunk. split; [apply elem_of_cons; by right | by split].
Qed.

(** X26: the audit classifies a target as [CREATE] only for the path of
    an add hunk of a patch. Every target of [write_to_file], [apply_diff]
    and the edit tools is [MODIFY], also when the file is new, and so is a
    move destination. *)
Theorem create_only_for_add_hunks (context : ToolExecutionContext.t)
    (targets : list TraceTarget) (target : TraceTarget) :
  extractTraceTargets context = Ok targets ->
  target ∈ targets ->
  mutationClass target = CREATE ->
  toolName context = "apply_patch"
  /\ exists patch hunks hunk,
       toolParams context !! "patch" = Some patch
       /\ parsePatch patch = Ok hunks
       /\ hunk ∈ hunks
       /\ Hunk.type hunk = AddFile
       /\ Hunk.path hunk = path target.
Proof.
  unfold extractTraceTargets. intros Hex Hin Hclass.
  repeat case_decide.
  - injection Hex as <-. destruct (str_truthy _); [|by apply elem_of_nil in Hin].
    apply list_elem_of_singleton in Hin as ->. discriminate.
  - injection Hex as <-. destruct (str_truthy _); [|by apply elem_of_nil in Hin].
    apply list_elem_of_singleton in Hin as ->. discriminate.
  - split; [done|].
    destruct (toolParams context !! "patch") as [patch|] eqn:Hp; simpl in Hex;
      [|injection Hex as <-; by apply elem_of_nil in Hin].
    destruct (negb (Js.nonempty patch));
      [injection Hex as <-; by apply elem_of_nil in Hin|].
    destruct (parsePatch patch) as [hunks|message] eqn:Hparse; [|discriminate].
    injection Hex as <-.
    destruct (hunkTargets_create hunks target Hin Hclass) as (hunk & Hh & Ht & Hpath).
    by exists patch, hunks, hunk.
  - injection Hex as <-. by apply elem_of_nil in Hin.
Qed.

(** X27: what the gate allowed is what the audit records: when the gate
    allowed a call for an intent, and the audit of that call resolves the
    same intent on a storage that can be written, the audit appends one
    entry for each target of the call, in order, and nothing else: the
    trace file grows by the lines of exactly these entries, there are as
    many appends as entries, and every one of the entries is for a path
    in the scope of the intent. *)
Theorem allowed_call_traces_in_scope {R} (context : ToolExecutionContext.t) (result : R)
    (hGate hGate' hAudit h1 : HookState) (intent : ActiveIntent.t) :
  toolName context ∈ DESTRUCTIVE_TOOLS ->
  with_manager (PreToolHook.resolveActiveIntent context) hGate = (Ok (Some intent), hGate') ->
  PreToolHook.run context hGate = (Ok PreToolHook.allow, hGate') ->
  with_manager (getActiveIntent context) hAudit = (Ok (Some intent), h1) ->
  readonly (storage (hook_world h1)) = false ->
  exists targets entries h2,
    extractTraceTargets context = Ok targets
    /\ run context result hAudit = (Ok (PostHookResult.mk true (last entries)), h2)
    /\ Forall2 (recordsTarget context intent (fs (hook_world h1))) targets entries
    /\ default "" (files (storage (hook_world h2)) !! traceFile)
       = appendEntries (default "" (files (storage (hook_world h1)) !! traceFile)) entries
    /\ (exists evs,
          events (hook_world h2) = events (hook_world h1) ++ evs
          /\ countEvents isAppend evs = length entries)
    /\ Forall (fun entry => inScope intent (TraceLogEntry.filePath entry)) entries.
Proof.
  intros Hd Hgate Hallow Hres Hw.
  rewrite (run_destructive context hGate Hd), Hgate in Hallow.
  injection Hallow as Hallow. unfold PreToolHook.decide_with in Hallow.
  case_decide; [discriminate|].
  rewrite (extractTraceTargets_paths context) in Hallow.
  destruct (extractTraceTargets context) as [targets|message] eqn:Hex; [|discriminate].
  apply validatePaths_allow_inv in Hallow.
  destruct (run_traces context result hAudit h1 intent targets Hd Hres Hex Hw)
    as (entries & h2 & Hrun & Hrec & Hfile & evs & Hev & Hcount).
  exists targets, entries, h2.
  split; [reflexivity|]. split; [exact Hrun|]. split; [exact Hrec|].
  split; [|split].
  - destruct targets as [|target rest].
    + apply Forall2_nil_inv_l in Hrec. subst entries.
      rewrite (run_destructive_post context result hAudit h1 intent [] Hd Hres Hex)
        in Hrun.
      by injection Hrun as <-.
    + by rewrite Hfile.
  - exists evs. split; [exact Hev|].
    rewrite Hcount. by apply Forall2_length in Hrec.
  - clear Hrun Hex Hfile Hcount. revert Hallow.
    induction Hrec as [|target entry targets entries (_ & Hpath & _) _ IH];
      intros Hall; [constructor|].
    rewrite fmap_cons in Hall. apply Forall_cons in Hall as [Hin Hall].
    constructor; [by rewrite Hpath | by apply IH].
Qed.

End AuditMore.

(** ** The chain of pre-execution hooks *)

Section Engine.
Context {S C : Type}.
Import HookEngine.

Lemma executePreHooks_app (hooks later : list (C -> M S PreHookResult.t))
    (context : C) (s : S) :
  executePreHooks (hooks ++ later) context s
  = match executePreHooks hooks context s with
    | (Ok result, s') =>
        if PreHookResult.allowed result then executePreHooks later context s'
        else (Ok result, s')
    | (Throw message, s') => (Throw message, s')
    end.
Proof.
  revert s. induction hooks as [|hook hooks IH]; intros s; [reflexivity|].
  cbn [app executePreHooks]. unfold bind.
  destruct (hook context s) as [[result|message] s1]; [|reflexivity].
  destruct (PreHookResult.allowed result) eqn:Ha; simpl.
  - apply IH.
  - unfold ret. by rewrite Ha.
Qed.

(** X28: a denial ends the chain. When the registered hooks answer with
    a result that is not allowed, hooks registered after them change
    neither the answer nor the state: they are not run. When the registered
    hooks allow, the chain goes on with the later hooks from the state the
    earlier ones left; and an exception of a hook is the exception of the
    chain. *)
Theorem executePreHooks_short_circuits (hooks later : list (C -> M S PreHookResult.t))
    (context : C) (s s' : S) (outcome : Result PreHookResult.t) :
  executePreHooks hooks context s = (outcome, s') ->
  match outcome with
  | Ok result =>
      if PreHookResult.allowed result
      then executePreHooks (hooks ++ later) context s = executePreHooks later context s'
      else executePreHooks (hooks ++ later) context s = (Ok result, s')
  | Throw message =>
      executePreHooks (hooks ++ later) context s = (Throw message, s')
  end.
Proof.
  intros Hrun. rewrite executePreHooks_app, Hrun.
  destruct outcome as [result|message]; [|reflexivity].
  by destruct (PreHookResult.allowed result).
Qed.

End Engine.

Section EngineWithGate.
Context `{Externals}.

(** X29: the chain with the gate as its only hook decides as the gate
    does: same answer, same state, same exception. *)
Theorem executePreHooks_gate_only (context : ToolExecutionContext.t) (h : HookState) :
  HookEngine.executePreHooks (HookEngine.registerPreHook [] PreToolHook.run) context h
  = PreToolHook.run context h.
Proof.
  unfold HookEngine.registerPreHook. cbn [app HookEngine.executePreHooks].
  unfold bind, ret.
  destruct (PreToolHook.run context h) as [[result|message] h'] eqn:Hrun; [|reflexivity].
  by destruct (run_answers context h h' result Hrun) as [-> | [reason ->]].
Qed.

End EngineWithGate.

(** ** The hooks on further scenarios *)

Section HookScenarios.
Import ToolExecutionContext.

Lemma run_result_shape_witness :
  let context := Fixtures.call "write_to_file" {[ "path" := "README.md" ]} in
  let h := Fixtures.hookOn Fixtures.intTestYaml "INT-TEST" in
  exists result,
    fst (PreToolHook.run (H := Fixtures.externals) context h) = Ok result
    /\ PreHookResult.allowed result = false
    /\ exists message, PreHookResult.error result = Some message.
Proof.
  intros context h.
  assert (Hrun : exists result,
             PreToolHook.run (H := Fixtures.externals) context h
             = (Ok result, snd (PreToolHook.run (H := Fixtures.externals) context h))
             /\ PreHookResult.allowed result = false).
  { eexists. split; vm_compute; reflexivity. }
  destruct Hrun as (result & Hrun & Hdenied).
  destruct (run_result_shape (H := Fixtures.externals) context h _ result Hrun)
    as [_ Hreason].
  exists result. split; [by rewrite Hrun|]. split; [exact Hdenied|].
  by apply Hreason.
Defined.

Lemma run_checks_one_path_parameter_witness :
  let params : gmap string string :=
    {[ "path" := "src/hooks/a.ts"; "file_path" := "README.md" ]} in
  let h := Fixtures.hookOn Fixtures.intTestYaml "INT-TEST" in
  fst (PreToolHook.run (H := Fixtures.externals) (Fixtures.call "write_to_file" params) h)
  = Ok PreToolHook.allow
  /\ fst (PreToolHook.run (H := Fixtures.externals) (Fixtures.call "edit" params) h)
     = Ok (PreToolHook.deny
             (PreToolHook.scopeViolationMessage Fixtures.intTestIntent "README.md")).
Proof.
  intros params h. split.
  - destruct (run_checks_one_path_parameter (H := Fixtures.externals)
                (Fixtures.call "write_to_file" params) h
                (snd (with_manager
                        (PreToolHook.resolveActiveIntent (H := Fixtures.externals)
                           (Fixtures.call "write_to_file" params)) h))
                Fixtures.intTestIntent "src/hooks/a.ts" "README.md") as [Hwrite _].
    + vm_compute. reflexivity.
    + vm_compute. reflexivity.
    + vm_compute. reflexivity.
    + intros [=].
    + intros [=].
    + vm_compute. reflexivity.
    + vm_compute. reflexivity.
    + rewrite Hwrite; [reflexivity | by left].
  - destruct (run_checks_one_path_parameter (H := Fixtures.externals)
                (Fixtures.call "edit" params) h
                (snd (with_manager
                        (PreToolHook.resolveActiveIntent (H := Fixtures.externals)
                           (Fixtures.call "edit" params)) h))
                Fixtures.intTestIntent "src/hooks/a.ts" "README.md") as [_ Hedit].
    + vm_compute. reflexivity.
    + vm_compute. reflexivity.
    + vm_compute. reflexivity.
    + intros [=].
    + intros [=].
    + vm_compute. reflexivity.
    + vm_compute. reflexivity.
    + rewrite Hedit; [reflexivity | by left].
Defined.

Lemma patch_paths_exact_witness :
  exists paths,
    PreToolHook.extractPathsForScopeValidation (H := Fixtures.externals)
      (Fixtures.call "apply_patch" {[ "patch" := Fixtures.movePatch ]})
    = Ok paths
    /\ "packages/types/src/ScopeValidator.ts" ∈ paths.
Proof.
  destruct (patch_paths_exact (H := Fixtures.externals)
              (Fixtures.call "apply_patch" {[ "patch" := Fixtures.movePatch ]})
              Fixtures.movePatch
              [Hunk.mk UpdateFile "src/hooks/ScopeValidator.ts"
                 (Some "packages/types/src/ScopeValidator.ts")])
    as (paths & Hex & Hin).
  - reflexivity.
  - vm_compute. reflexivity.
  - intros [=].
  - vm_compute. reflexivity.
  - exists paths. split; [exact Hex|]. apply Hin.
    eexists. split; [constructor|]. right. split_and!; [reflexivity | reflexivity |].
    intros [=].
Defined.

(** The context names [INT-TEST] while the task is bound to an id that
    no intent has. *)
Lemma resolution_precedence_witness :
  let context :=
    ToolExecutionContext.mk "write_to_file" {[ "path" := "src/hooks/a.ts" ]}
                            "t1" "/repo" (Some "INT-TEST") in
  let s := mkManagerState (mkIntentManager None {[ "t1" := "INT-GONE" ]})
                          (Fixtures.worldWith Fixtures.intTestYaml) in
  fst (PreToolHook.resolveActiveIntent (H := Fixtures.externals) context s)
  = Ok (Some Fixtures.intTestIntent).
Proof.
  intros context s.
  destruct (resolution_precedence (H := Fixtures.externals) context s
              (snd (IntentManager.loadIntents (H := Fixtures.externals) s))
              [Fixtures.intTestIntent]) as [Hexplicit _].
  - vm_compute. reflexivity.
  - apply (Hexplicit "INT-TEST"); [reflexivity | intros [=] | vm_compute; reflexivity].
Defined.

Lemma audit_append_failure_throws_witness :
  let context := Fixtures.call "write_to_file" {[ "path" := "src/auth/jwt.ts" ]} in
  let h := mkHookState
             (MoreFixtures.readonlyWorld {[ "active_intents.yaml" := Fixtures.int001Yaml ]})
             GlobalUnset (mkIntentManager None {[ "t1" := "INT-001" ]}) in
  exists message,
    fst (TracePostHook.run (H := Fixtures.externals) context tt h) = Throw message.
Proof.
  intros context h.
  pose (h1 := snd (with_manager
                     (TracePostHook.getActiveIntent (H := Fixtures.externals) context) h)).
  assert (Hres : exists intent,
             with_manager (TracePostHook.getActiveIntent (H := Fixtures.externals) context) h
             = (Ok (Some intent), h1)).
  { eexists. vm_compute. reflexivity. }
  destruct Hres as [intent Hres].
  destruct (audit_append_failure_throws (H := Fixtures.externals) context tt h h1 intent
              (TracePostHook.mkTarget "src/auth/jwt.ts" MODIFY) []) as [Hthrow _].
  - apply (bool_decide_unpack _). vm_compute. exact I.
  - exact Hres.
  - vm_compute. reflexivity.
  - vm_compute. reflexivity.
  - exact Hthrow.
Defined.

Lemma create_only_for_add_hunks_witness :
  let context := Fixtures.call "apply_patch" {[ "patch" := Fixtures.twoFilePatch ]} in
  exists hunk,
    Hunk.type hunk = AddFile
    /\ Hunk.path hunk = "packages/types/src/new-file.ts".
Proof.
  intros context.
  destruct (create_only_for_add_hunks (H := Fixtures.externals) context
              [TracePostHook.mkTarget "src/hooks/ScopeValidator.ts" MODIFY;
               TracePostHook.mkTarget "packages/types/src/new-file.ts" CREATE]
              (TracePostHook.mkTarget "packages/types/src/new-file.ts" CREATE))
    as (_ & patch & hunks & hunk & _ & _ & _ & Htype & Hpath).
  - vm_compute. reflexivity.
  - constructor. constructor.
  - reflexivity.
  - by exists hunk.
Defined.

Lemma allowed_call_traces_in_scope_witness :
  let patch := Js.join IntentManager.nl
                 [ "*** Begin Patch";
                   "*** Update File: src/hooks/a.ts";
                   "*** Add File: src/hooks/b.ts";
                   "*** End Patch" ] in
  let context := Fixtures.call "apply_patch" {[ "patch" := patch ]} in
  let h := Fixtures.hookOn Fixtures.intTestYaml "INT-TEST" in
  exists entries,
    fst (TracePostHook.run (H := Fixtures.externals) context tt h)
    = Ok (PostHookResult.mk true (last entries))
    /\ map TraceLogEntry.filePath entries = ["src/hooks/a.ts"; "src/hooks/b.ts"]
    /\ default "" (files (storage (hook_world
                     (snd (TracePostHook.run (H := Fixtures.externals) context tt h))))
                   !! traceFile)
       = appendEntries "" entries
    /\ Forall (fun entry =>
                 inScope (H := Fixtures.externals) Fixtures.intTestIntent
                         (TraceLogEntry.filePath entry)) entries.
Proof.
  intros patch context h.
  destruct (allowed_call_traces_in_scope (H := Fixtures.externals) context tt h
              (snd (with_manager
                      (PreToolHook.resolveActiveIntent (H := Fixtures.externals) context) h))
              h
              (snd (with_manager
                      (TracePostHook.getActiveIntent (H := Fixtures.externals) context) h))
              Fixtures.intTestIntent)
    as (targets & entries & h2 & Hex & Hrun & Hrec & Hfile & _ & Hscope).
  - apply (bool_decide_unpack _). vm_compute. exact I.
  - vm_compute. reflexivity.
  - vm_compute. reflexivity.
  - vm_compute. reflexivity.
  - vm_compute. reflexivity.
  - exists entries. rewrite Hrun. cbn [fst snd].
    split; [reflexivity|]. split; [|split; [exact Hfile | exact Hscope]].
    vm_compute in Hex. injection Hex as <-.
    apply Forall2_cons_inv_l in Hrec as (first & rest & (_ & Hfirst & _) & Hrec & ->).
    apply Forall2_cons_inv_l in Hrec as (second & rest' & (_ & Hsecond & _) & Hrec & ->).
    apply Forall2_nil_inv_l in Hrec as ->.
    cbn [map]. by rewrite Hfirst, Hsecond.
Defined.

(** The gate denies; a hook registered after it, which would allow, does
    not change the answer. *)
Lemma executePreHooks_short_circuits_witness :
  let context := Fixtures.call "write_to_file" {[ "path" := "README.md" ]} in
  let h := Fixtures.hookOn Fixtures.intTestYaml "INT-TEST" in
  HookEngine.executePreHooks
    ([PreToolHook.run (H := Fixtures.externals)] ++ [fun _ => ret PreToolHook.allow])
    context h
  = HookEngine.executePreHooks [PreToolHook.run (H := Fixtures.externals)] context h.
Proof.
  intros context h.
  assert (Hrun : exists result,
             PreToolHook.run (H := Fixtures.externals) context h
             = (Ok result, snd (PreToolHook.run (H := Fixtures.externals) context h))
             /\ PreHookResult.allowed result = false).
  { eexists. split; vm_compute; reflexivity. }
  destruct Hrun as (result & Hrun & Hdenied).
  assert (Hchain :
    HookEngine.executePreHooks [PreToolHook.run (H := Fixtures.externals)] context h
    = (Ok result, snd (PreToolHook.run (H := Fixtures.externals) context h))).
  { cbn [HookEngine.executePreHooks]. unfold bind, ret. rewrite Hrun at 1.
    by rewrite Hdenied. }
  pose proof (executePreHooks_short_circuits
                [PreToolHook.run (H := Fixtures.externals)]
                [fun _ => ret PreToolHook.allow] context h _ _ Hchain) as Hfinal.
  cbv beta iota in Hfinal. rewrite Hdenied in Hfinal.
  rewrite Hfinal. symmetry. exact Hchain.
Defined.

End HookScenarios.
